(** * MediaStatus: a shallow embedding of [src/index.tsx]

    The plugin polls a Jellyfin or Plex server, normalises the answer into a
    [MediaData] and dispatches a Discord activity (or a clear signal).  The
    code is JavaScript: every value read from a JSON response is dynamically
    typed, property access on [undefined] throws, arithmetic is IEEE 754
    binary64.  The embedding keeps those three aspects:

    - [Number]   binary64 arithmetic as exact rational arithmetic followed by
                 round-to-nearest-even, with NaN and the two infinities;
    - [JS]       JSON values, truthiness, property access, coercions and a
                 small monad for exceptions, the logger, the dispatcher and
                 the clock;
    - [Plugin]   the functions of [index.tsx], under their own names;
    - [Lifecycle] [start], [stop] and the timer as a transition system.

    Definitions come first, lemmas and the properties of the plugin after. *)

From Stdlib Require Import ZArith QArith Qround Qabs Qpower Qreduction.
From Stdlib Require Import Lia Lqa Bool List String Ascii.
From Stdlib Require Import PrimFloat FloatOps SpecFloat Uint63.
Import ListNotations.

Set Warnings "-register-all".

(* ===================================================================== *)
(** * Numbers *)
(* ===================================================================== *)

Module Number.

Local Open Scope Q_scope.

(** A JavaScript Number.  A finite value carries its exact rational value;
    the operations below round every result to the binary64 grid, so values
    built from doubles stay doubles.  The sign of zero is not tracked: the
    program never divides by a zero (each divisor is the literal 10000 or
    has been tested truthy) and never prints one. *)
Inductive number : Type :=
| NaN
| PInf
| NInf
| Fin (q : Q).

(** Nearest integer, ties to the even one. *)
Definition rne (t : Q) : Z :=
  let f := Qfloor t in
  match Qcompare (t - inject_Z f) (1 # 2) with
  | Lt => f
  | Gt => (f + 1)%Z
  | Eq => if Z.even f then f else (f + 1)%Z
  end.

(** [Qlog2 x] is the binary exponent of a positive [x]:
    [2 ^ Qlog2 x <= x < 2 ^ (Qlog2 x + 1)]. *)
Definition Qlog2 (x : Q) : Z :=
  let l := (Z.log2 (Qnum x) - Z.log2 (Zpos (Qden x)))%Z in
  if Qle_bool (2 ^ l) x then l else (l - 1)%Z.

(** Exponent of the unit in the last place of binary64 at [x]: 53 bits of
    precision, least normal exponent -1022. *)
Definition ulp_exp (x : Q) : Z :=
  (Z.max (Qlog2 (Qabs x)) (-1022) - 52)%Z.

(** Round to nearest, ties to even, with an unbounded exponent. *)
Definition rne64 (x : Q) : Q :=
  if Qeq_bool x 0 then 0
  else Qred (inject_Z (rne (x / 2 ^ ulp_exp x)) * 2 ^ ulp_exp x).

(** "The Number value for x": rounding, then overflow to an infinity. *)
Definition round64 (x : Q) : number :=
  let r := rne64 x in
  if Qle_bool (2 ^ 1024) (Qabs r)
  then (if Qle_bool 0 r then PInf else NInf)
  else Fin r.

Definition is_zero (q : Q) : bool := Qeq_bool q 0.
Definition is_neg (q : Q) : bool := negb (Qle_bool 0 q).

Definition of_Z (z : Z) : number := Fin (inject_Z z).

(** Number::divide. *)
Definition div (a b : number) : number :=
  match a, b with
  | NaN, _ | _, NaN => NaN
  | (PInf | NInf), (PInf | NInf) => NaN
  | PInf, Fin y => if is_neg y then NInf else PInf
  | NInf, Fin y => if is_neg y then PInf else NInf
  | Fin _, (PInf | NInf) => Fin 0
  | Fin x, Fin y =>
      if is_zero y
      then (if is_zero x then NaN else if is_neg x then NInf else PInf)
      else round64 (x / y)
  end.

(** Number::multiply. *)
Definition mul (a b : number) : number :=
  match a, b with
  | NaN, _ | _, NaN => NaN
  | PInf, PInf | NInf, NInf => PInf
  | PInf, NInf | NInf, PInf => NInf
  | PInf, Fin y | Fin y, PInf =>
      if is_zero y then NaN else if is_neg y then NInf else PInf
  | NInf, Fin y | Fin y, NInf =>
      if is_zero y then NaN else if is_neg y then PInf else NInf
  | Fin x, Fin y => round64 (x * y)
  end.

(** Number::add. *)
Definition add (a b : number) : number :=
  match a, b with
  | NaN, _ | _, NaN => NaN
  | PInf, NInf | NInf, PInf => NaN
  | PInf, _ | _, PInf => PInf
  | NInf, _ | _, NInf => NInf
  | Fin x, Fin y => round64 (x + y)
  end.

Definition neg (a : number) : number :=
  match a with
  | NaN => NaN
  | PInf => NInf
  | NInf => PInf
  | Fin x => Fin (Qred (- x))
  end.

(** Number::subtract. *)
Definition sub (a b : number) : number := add a (neg b).

(** [Math.floor]. *)
Definition floor (a : number) : number :=
  match a with
  | Fin x => Fin (inject_Z (Qfloor x))
  | _ => a
  end.

(** [Math.round]: nearest integer, ties towards +Infinity. *)
Definition round (a : number) : number :=
  match a with
  | Fin x => Fin (inject_Z (Qfloor (x + (1 # 2))))
  | _ => a
  end.

(** ToBoolean on a Number. *)
Definition truthy (a : number) : bool :=
  match a with
  | NaN => false
  | Fin x => negb (is_zero x)
  | PInf | NInf => true
  end.

(** The integer a finite number denotes, when it denotes one. *)
Definition to_Z (a : number) : option Z :=
  match a with
  | Fin x => if Qeq_bool x (inject_Z (Qfloor x)) then Some (Qfloor x) else None
  | _ => None
  end.

(** The values a binary64 can take, up to overflow: an integer of at most
    53 bits scaled by a power of two no smaller than the least subnormal. *)
Definition double_grid (y : Q) : Prop :=
  exists m e : Z,
    (Z.abs m <= 2 ^ 53)%Z /\ (-1074 <= e)%Z /\ y == inject_Z m * 2 ^ e.

(** The integers a Number holds exactly: at most 53 significant bits. *)
Definition is_double_int (t : Z) : Prop :=
  exists m j : Z, (0 <= j)%Z /\ (Z.abs m <= 2 ^ 53)%Z /\ t = (m * 2 ^ j)%Z.

(** The hardware's binary64 division, read back as a rational: used only to
    compare [div] with the processor on concrete operands. *)
Definition SF2Q (f : spec_float) : option Q :=
  match f with
  | S754_zero _ => Some 0
  | S754_finite s m e =>
      Some (Qred ((if s then - (1) else 1) * inject_Z (Zpos m) * 2 ^ e))
  | _ => None
  end.

Definition hardware_div (a b : Z) : option Q :=
  SF2Q (Prim2SF (PrimFloat.div (PrimFloat.of_uint63 (Uint63.of_Z a))
                               (PrimFloat.of_uint63 (Uint63.of_Z b)))).

End Number.

(* ===================================================================== *)
(** * JavaScript values and effects *)
(* ===================================================================== *)

Module JS.

Import Number.
Local Open Scope string_scope.

(** What [JSON.parse] can return, plus [undefined].  An object is the list of
    its own properties (the parser has already resolved repeated keys).
    Strings are byte strings; every literal of the program but the separator
    of [getState] is ASCII. *)
Inductive value : Type :=
| VUndef
| VNull
| VBool (b : bool)
| VNum (n : number)
| VStr (s : string)
| VArr (items : list value)
| VObj (fields : list (string * value)).

Inductive exn : Type :=
| TypeError (what : string)
| HttpError (message : string)
| SyntaxError
| Rejected (reason : string).

(** The completion of an evaluation: a value, or a thrown exception (for an
    [async] function: a fulfilled or a rejected promise). *)
Inductive completion (A : Type) : Type :=
| Normal (a : A)
| Throw (e : exn).
Arguments Normal {A} a.
Arguments Throw {A} e.

(** The builtins whose full definition is outside the program: parsing a
    string as a number, printing a number that is not a safe integer,
    lower-casing beyond ASCII, and converting an array or object to a
    primitive (which throws when no callable [toString]/[valueOf] yields
    one).  Every property below holds for any choice of them. *)
Record Runtime : Type := {
  StringToNumber : string -> number;
  NumberToString_other : number -> string;
  StringToLowerCase : string -> string;
  ObjectToPrimitive : value -> completion string
}.

(** A Number value that is the integer [z]. *)
Definition VInt (z : Z) : value := VNum (Number.of_Z z).

(** ** ToBoolean *)
Definition truthy (v : value) : bool :=
  match v with
  | VUndef | VNull => false
  | VBool b => b
  | VNum n => Number.truthy n
  | VStr s => negb (String.eqb s "")
  | VArr _ | VObj _ => true
  end.

(** ** Property access *)
Fixpoint lookup (k : string) (fields : list (string * value)) : value :=
  match fields with
  | [] => VUndef
  | (k', v) :: rest => if String.eqb k k' then v else lookup k rest
  end.

(** [v.k] for the keys the program reads.  None of them is an inherited
    property of a builtin prototype, so on a primitive or an array the
    result is [undefined]; on [undefined] and [null] the access throws. *)
Definition get (v : value) (k : string) : completion value :=
  match v with
  | VUndef | VNull => Throw (TypeError ("Cannot read properties: " ++ k))
  | VObj fields => Normal (lookup k fields)
  | _ => Normal VUndef
  end.

(** [v[0]].  On a string it is the first character, which is the first
    UTF-16 code unit for ASCII text only. *)
Definition get_index0 (v : value) : completion value :=
  match v with
  | VUndef | VNull => Throw (TypeError "Cannot read properties: 0")
  | VArr items => Normal (nth 0 items VUndef)
  | VStr s =>
      Normal (match s with
              | EmptyString => VUndef
              | String c _ => VStr (String c EmptyString)
              end)
  | VObj fields => Normal (lookup "0" fields)
  | _ => Normal VUndef
  end.

(** [v?.k] and [v?.[0]]. *)
Definition get_opt (v : value) (k : string) : completion value :=
  match v with
  | VUndef | VNull => Normal VUndef
  | _ => get v k
  end.

Definition get_index0_opt (v : value) : completion value :=
  match v with
  | VUndef | VNull => Normal VUndef
  | _ => get_index0 v
  end.

(** [v === s] for a string [s]. *)
Definition strict_eq_string (v : value) (s : string) : bool :=
  match v with
  | VStr t => String.eqb t s
  | _ => false
  end.

(** ** Printing integers *)
Definition digit (d : Z) : ascii := ascii_of_nat (48 + Z.to_nat d).

Fixpoint digits (fuel : nat) (n : Z) (acc : string) : string :=
  match fuel with
  | O => acc
  | S fuel' =>
      let acc' := String (digit (n mod 10)) acc in
      if (n <? 10)%Z then acc' else digits fuel' (n / 10) acc'
  end.

(** Decimal notation of an integer. *)
Definition decimal (n : Z) : string :=
  if (n <? 0)%Z
  then "-" ++ digits (S (Z.to_nat (Z.log2 (- n)))) (- n) ""
  else digits (S (Z.to_nat (Z.log2 n))) n "".

(** Number::toString.  An integer below 2^53 in magnitude prints as its
    decimal digits; everything else is left to the runtime. *)
Definition NumberToString (rt : Runtime) (n : number) : string :=
  match n with
  | NaN => "NaN"
  | PInf => "Infinity"
  | NInf => "-Infinity"
  | Fin q =>
      match Number.to_Z n with
      | Some z => if (Z.abs z <? 2 ^ 53)%Z then decimal z
                  else NumberToString_other rt n
      | None => NumberToString_other rt n
      end
  end.

(** ToString, as applied by a template literal or by [+] with a string. *)
Definition ToString (rt : Runtime) (v : value) : completion string :=
  match v with
  | VUndef => Normal "undefined"
  | VNull => Normal "null"
  | VBool true => Normal "true"
  | VBool false => Normal "false"
  | VNum n => Normal (NumberToString rt n)
  | VStr s => Normal s
  | VArr _ | VObj _ => ObjectToPrimitive rt v
  end.

(** ToNumber. *)
Definition ToNumber (rt : Runtime) (v : value) : completion number :=
  match v with
  | VUndef => Normal NaN
  | VNull => Normal (Number.of_Z 0)
  | VBool true => Normal (Number.of_Z 1)
  | VBool false => Normal (Number.of_Z 0)
  | VNum n => Normal n
  | VStr s => Normal (StringToNumber rt s)
  | VArr _ | VObj _ =>
      match ObjectToPrimitive rt v with
      | Normal s => Normal (StringToNumber rt s)
      | Throw e => Throw e
      end
  end.

(** [s.padStart(target, pad)].  The length is counted in characters of the
    byte string, which are the UTF-16 code units for ASCII text only; the
    program pads printed numbers, which are ASCII. *)
Fixpoint repeat_to (n : nat) (pad cur : string) : string :=
  match n with
  | O => ""
  | S n' =>
      match cur with
      | EmptyString =>
          match pad with
          | EmptyString => ""
          | String c rest => String c (repeat_to n' pad rest)
          end
      | String c rest => String c (repeat_to n' pad rest)
      end
  end.

Definition padStart (target : nat) (pad : string) (s : string) : string :=
  repeat_to (target - String.length s) pad pad ++ s.

(** ASCII lower-casing, the runtime's [toLowerCase] on ASCII text. *)
Definition lower_ascii (c : ascii) : ascii :=
  let n := nat_of_ascii c in
  if andb (Nat.leb 65 n) (Nat.leb n 90) then ascii_of_nat (n + 32) else c.

Fixpoint lower (s : string) : string :=
  match s with
  | EmptyString => EmptyString
  | String c rest => String (lower_ascii c) (lower rest)
  end.

End JS.

(* ===================================================================== *)
(** * Effects: exceptions, logger, dispatcher, clock *)
(* ===================================================================== *)

Module Eff.

Import JS.

(** What a run has done so far: the lines given to [logger.error], the
    payloads given to [FluxDispatcher.dispatch] (oldest first), and how many
    times [Date.now()] has been read. *)
Record effects (D : Type) : Type := {
  logged : list (string * exn);
  dispatched : list D;
  clock_reads : nat
}.
Arguments logged {D} _.
Arguments dispatched {D} _.
Arguments clock_reads {D} _.

Definition initial {D : Type} : effects D :=
  {| logged := []; dispatched := []; clock_reads := 0 |}.

(** A computation: it transforms the effects and completes. *)
Definition M (D A : Type) : Type := effects D -> effects D * completion A.

Definition ret {D A : Type} (a : A) : M D A := fun s => (s, Normal a).

Definition bind {D A B : Type} (m : M D A) (k : A -> M D B) : M D B :=
  fun s =>
    match m s with
    | (s', Normal a) => k a s'
    | (s', Throw e) => (s', Throw e)
    end.

(** [try { m } catch (e) { h e }]: what [m] did before throwing stays done. *)
Definition try_catch {D A : Type} (m : M D A) (h : exn -> M D A) : M D A :=
  fun s =>
    match m s with
    | (s', Normal a) => (s', Normal a)
    | (s', Throw e) => h e s'
    end.

(** A pure evaluation (or an awaited promise that has settled). *)
Definition lift {D A : Type} (c : completion A) : M D A := fun s => (s, c).

Definition bindc {A B : Type} (c : completion A) (k : A -> completion B)
  : completion B :=
  match c with
  | Normal a => k a
  | Throw e => Throw e
  end.

Definition logger_error {D : Type} (msg : string) (e : exn) : M D unit :=
  fun s =>
    ({| logged := logged s ++ [(msg, e)];
        dispatched := dispatched s;
        clock_reads := clock_reads s |}, Normal tt).

Definition dispatch {D : Type} (d : D) : M D unit :=
  fun s =>
    ({| logged := logged s;
        dispatched := dispatched s ++ [d];
        clock_reads := clock_reads s |}, Normal tt).

(** [Date.now()]: the next reading of the clock [now]. *)
Definition Date_now {D : Type} (now : nat -> Z) : M D Number.number :=
  fun s =>
    ({| logged := logged s;
        dispatched := dispatched s;
        clock_reads := S (clock_reads s) |},
     Normal (Number.of_Z (now (clock_reads s)))).

Definition run {D A : Type} (m : M D A) : effects D * completion A :=
  m initial.

End Eff.

Declare Scope js_scope.
Delimit Scope js_scope with js.
Notation "x <- m ;; k" := (Eff.bind m (fun x => k))
  (at level 61, m at next level, right associativity) : js_scope.
Notation "m ;; k" := (Eff.bind m (fun _ => k))
  (at level 61, right associativity) : js_scope.
Notation "'let*' x := c 'in' k" := (Eff.bindc c (fun x => k))
  (at level 61, x pattern, c at next level, right associativity) : js_scope.

(* ===================================================================== *)
(** * The plugin *)
(* ===================================================================== *)

Module Plugin.

Import JS Eff.
Local Open Scope string_scope.
Local Open Scope js_scope.

Definition DISCORD_APP_ID : string := "1333493119525720082".

Inductive MediaType : Type := MOVIE | EPISODE | AUDIO | VIDEO | PHOTO | UNKNOWN.

Inductive ServiceType : Type := JELLYFIN | PLEX.

Inductive DisplayFormat : Type := NATURAL | SHORT | MINIMAL.

(** [settings.store].  An unset string option reads as [undefined]. *)
Record Settings : Type := {
  serverType : ServiceType;
  serverUrl : option string;
  apiKey : option string;
  episodeFormat : DisplayFormat;
  showTimestamps : bool;
  serverName : option string;
  updateInterval : Z;
  hideWhenPaused : bool;
  hideWhenOtherActivity : bool
}.

(** [interface MediaData].  The fields hold whatever the response held: the
    adapters copy them without checking their types.  A field the object
    literal does not set reads as [VUndef], like one set to [undefined]. *)
Record MediaData : Type := {
  title : value;
  type : MediaType;
  progress : value;
  isPaused : value;
  imageUrl : value;
  duration : value;
  position : value;
  series : value;
  season : value;
  episode : value;
  year : value;
  studio : value;
  artist : value;
  albumTitle : value;
  albumArtist : value;
  photographer : value
}.

Record Request : Type := {
  url : string;
  headers : list (string * string)
}.

(** A [Response]: [json] is what [response.json()] settles to. *)
Record Response : Type := {
  ok : bool;
  status : Z;
  json : completion value
}.

Record Assets : Type := {
  large_image : value;
  large_text : value;
  small_image : value;
  small_text : string
}.

Record Timestamps : Type := {
  start : Number.number;
  end' : Number.number
}.

Record Activity : Type := {
  application_id : string;
  name : value;
  details : value;
  state : string;
  assets : option Assets;
  timestamps : option Timestamps;
  activity_type : Z;
  flags : Z
}.

(** The payload of [FluxDispatcher.dispatch]; [activity = None] is the
    [activity: null] of [clearPresence]. *)
Record Dispatch : Type := {
  dispatch_type : string;
  activity : option Activity;
  socketId : string
}.

(** Everything outside the plugin that one poll consults: the server behind
    [fetch], Discord's presence store, the clock, and the asset service.
    The dispatcher accepts every payload.  An awaited call is recorded by
    the way it settles, fulfilled or rejected; the source sets no timeout, so
    a poll whose request stays pending never completes: in [Lifecycle] it is
    a poll in flight that has no settling event.  Sending a request leaves
    no trace of its own. *)
Record World : Type := {
  fetch : Request -> completion Response;
  getActivities : list value;
  now : nat -> Z;
  fetchAssetIds : string -> list value -> completion value
}.

Definition setting_truthy (o : option string) : bool :=
  match o with
  | Some s => negb (String.eqb s "")
  | None => false
  end.

(** A string setting inside a template literal. *)
Definition setting_text (o : option string) : string :=
  match o with
  | Some s => s
  | None => "undefined"
  end.

(** [array.find(cb)] on the elements, in order. *)
Fixpoint find_first (cb : value -> completion value) (l : list value)
  : completion value :=
  match l with
  | [] => Normal VUndef
  | s :: rest =>
      let* r := cb s in
      if truthy r then Normal s else find_first cb rest
  end.

(** [v.find(cb)]: only an array has a callable [find]. *)
Definition array_find (cb : value -> completion value) (v : value)
  : completion value :=
  match v with
  | VArr items => find_first cb items
  | _ => Throw (TypeError "find is not a function")
  end.

(** [array.some(cb)]. *)
Fixpoint array_some (cb : value -> completion bool) (l : list value)
  : completion bool :=
  match l with
  | [] => Normal false
  | a :: rest =>
      let* r := cb a in
      if r then Normal true else array_some cb rest
  end.

(** [a || b] *)
Definition or_else (a b : value) : value := if truthy a then a else b.

Section Adapters.

Variable rt : Runtime.
Variable settings : Settings.
Variable world : World.

(** [Math.round((position / duration) * 100)] of [fetchJellyfinData] and
    [fetchPlexData]. *)
Definition percent (position duration : value) : completion value :=
  let* a := ToNumber rt position in
  let* b := ToNumber rt duration in
  Normal (VNum (Number.round (Number.mul (Number.div a b) (Number.of_Z 100)))).

(** ** [fetchJellyfinData] *)

(** [const toMs = (ticks) => Math.floor(ticks / 10000)]. *)
Definition toMs (ticks : value) : completion value :=
  let* t := ToNumber rt ticks in
  Normal (VNum (Number.floor (Number.div t (Number.of_Z 10000)))).

Definition Jellyfin_getMediaType (type : value) : completion MediaType :=
  match type with
  | VStr s =>
      let l := StringToLowerCase rt s in
      Normal (if String.eqb l "movie" then MOVIE
              else if String.eqb l "episode" then EPISODE
              else if String.eqb l "audio" then AUDIO
              else if String.eqb l "video" then VIDEO
              else if String.eqb l "photo" then PHOTO
              else UNKNOWN)
  | _ => Throw (TypeError "type.toLowerCase is not a function")
  end.

(** The object literal [baseData]. *)
Definition Jellyfin_baseData (item playState : value) : completion MediaData :=
  let* title_ := get item "Name" in
  let* ty := get item "Type" in
  let* type_ := Jellyfin_getMediaType ty in
  let* runTimeTicks := get item "RunTimeTicks" in
  let* progress_ :=
    (if truthy runTimeTicks
     then let* positionTicks := get playState "PositionTicks" in
          percent positionTicks runTimeTicks
     else Normal VUndef) in
  let* isPaused_ := get playState "IsPaused" in
  let* imageTags := get item "ImageTags" in
  let* primary := get_opt imageTags "Primary" in
  let* imageUrl_ :=
    (if truthy primary
     then let* id := get item "Id" in
          let* id_text := ToString rt id in
          Normal (VStr (setting_text (serverUrl settings) ++ "/Items/"
                        ++ id_text ++ "/Images/Primary?api_key="
                        ++ setting_text (apiKey settings)))
     else Normal VUndef) in
  let* duration_ :=
    (if truthy runTimeTicks then toMs runTimeTicks else Normal VUndef) in
  let* positionTicks := get playState "PositionTicks" in
  let* position_ :=
    (if truthy positionTicks then toMs positionTicks else Normal VUndef) in
  let* year_ := get item "ProductionYear" in
  Normal {| title := title_; type := type_; progress := progress_;
            isPaused := isPaused_; imageUrl := imageUrl_;
            duration := duration_; position := position_;
            series := VUndef; season := VUndef; episode := VUndef;
            year := year_; studio := VUndef; artist := VUndef;
            albumTitle := VUndef; albumArtist := VUndef;
            photographer := VUndef |}.

(** The [switch (baseData.type)] that adds the variant fields. *)
Definition Jellyfin_variant (baseData : MediaData) (item : value)
  : completion MediaData :=
  match type baseData with
  | EPISODE =>
      let* seriesName := get item "SeriesName" in
      let* parentIndexNumber := get item "ParentIndexNumber" in
      let* indexNumber := get item "IndexNumber" in
      Normal {| title := title baseData; type := type baseData;
                progress := progress baseData; isPaused := isPaused baseData;
                imageUrl := imageUrl baseData; duration := duration baseData;
                position := position baseData;
                series := seriesName; season := parentIndexNumber;
                episode := indexNumber;
                year := year baseData; studio := studio baseData;
                artist := artist baseData; albumTitle := albumTitle baseData;
                albumArtist := albumArtist baseData;
                photographer := photographer baseData |}
  | AUDIO =>
      let* artists := get item "Artists" in
      let* artist0 := get_index0_opt artists in
      let* albumArtist_ := get item "AlbumArtist" in
      let* album := get item "Album" in
      Normal {| title := title baseData; type := type baseData;
                progress := progress baseData; isPaused := isPaused baseData;
                imageUrl := imageUrl baseData; duration := duration baseData;
                position := position baseData;
                series := series baseData; season := season baseData;
                episode := episode baseData;
                year := year baseData; studio := studio baseData;
                artist := artist0; albumTitle := album;
                albumArtist := albumArtist_;
                photographer := photographer baseData |}
  | _ => Normal baseData
  end.

(** [playingSession]: the first session with a truthy [NowPlayingItem], or
    [undefined]. *)
Definition Jellyfin_playingSession : completion value :=
  let* response :=
    fetch world {| url := setting_text (serverUrl settings) ++ "/Sessions";
                   headers := [("X-Emby-Token", setting_text (apiKey settings))] |} in
  if negb (ok response)
  then Throw (HttpError ("HTTP " ++ decimal (status response)))
  else
    let* sessions := json response in
    array_find (fun s => get s "NowPlayingItem") sessions.

(** The body of the [try] block. *)
Definition Jellyfin_try : completion (option MediaData) :=
  let* playingSession := Jellyfin_playingSession in
  if negb (truthy playingSession) then Normal None
  else
    let* item := get playingSession "NowPlayingItem" in
    let* playState := get playingSession "PlayState" in
    let* baseData := Jellyfin_baseData item playState in
    let* result := Jellyfin_variant baseData item in
    Normal (Some result).

Definition fetchJellyfinData {D : Type} : M D (option MediaData) :=
  if negb (setting_truthy (serverUrl settings))
     || negb (setting_truthy (apiKey settings))
  then ret None
  else
    try_catch (lift Jellyfin_try)
      (fun e => logger_error "Failed to fetch Jellyfin data:" e ;; ret None).

(** ** [fetchPlexData] *)

Definition Plex_getMediaType (type : value) : completion MediaType :=
  match type with
  | VStr s =>
      let l := StringToLowerCase rt s in
      Normal (if String.eqb l "movie" then MOVIE
              else if String.eqb l "episode" then EPISODE
              else if String.eqb l "track" then AUDIO
              else if String.eqb l "photo" then PHOTO
              else if String.eqb l "clip" then VIDEO
              else UNKNOWN)
  | _ => Throw (TypeError "type.toLowerCase is not a function")
  end.

Definition Plex_baseData (session : value) : completion MediaData :=
  let* title_ := get session "title" in
  let* ty := get session "type" in
  let* type_ := Plex_getMediaType ty in
  let* duration_ := get session "duration" in
  let* progress_ :=
    (if truthy duration_
     then let* viewOffset := get session "viewOffset" in
          percent viewOffset duration_
     else Normal VUndef) in
  let* player := get session "Player" in
  let* player_state := get player "state" in
  let isPaused_ := VBool (negb (strict_eq_string player_state "playing")) in
  let* thumb := get session "thumb" in
  let* imageUrl_ :=
    (if truthy thumb
     then let* thumb_text := ToString rt thumb in
          Normal (VStr (setting_text (serverUrl settings) ++ thumb_text
                        ++ "?X-Plex-Token=" ++ setting_text (apiKey settings)))
     else Normal VUndef) in
  let* position_ := get session "viewOffset" in
  let* year_ := get session "year" in
  let* studio_ := get session "studio" in
  Normal {| title := title_; type := type_; progress := progress_;
            isPaused := isPaused_; imageUrl := imageUrl_;
            duration := duration_; position := position_;
            series := VUndef; season := VUndef; episode := VUndef;
            year := year_; studio := studio_; artist := VUndef;
            albumTitle := VUndef; albumArtist := VUndef;
            photographer := VUndef |}.

Definition Plex_variant (baseData : MediaData) (session : value)
  : completion MediaData :=
  match type baseData with
  | EPISODE =>
      let* grandparentTitle := get session "grandparentTitle" in
      let* parentIndex := get session "parentIndex" in
      let* index := get session "index" in
      Normal {| title := title baseData; type := type baseData;
                progress := progress baseData; isPaused := isPaused baseData;
                imageUrl := imageUrl baseData; duration := duration baseData;
                position := position baseData;
                series := grandparentTitle; season := parentIndex;
                episode := index;
                year := year baseData; studio := studio baseData;
                artist := artist baseData; albumTitle := albumTitle baseData;
                albumArtist := albumArtist baseData;
                photographer := photographer baseData |}
  | AUDIO =>
      let* originalTitle := get session "originalTitle" in
      let* grandparentTitle := get session "grandparentTitle" in
      let* parentTitle := get session "parentTitle" in
      Normal {| title := title baseData; type := type baseData;
                progress := progress baseData; isPaused := isPaused baseData;
                imageUrl := imageUrl baseData; duration := duration baseData;
                position := position baseData;
                series := series baseData; season := season baseData;
                episode := episode baseData;
                year := year baseData; studio := studio baseData;
                artist := or_else originalTitle grandparentTitle;
                albumTitle := parentTitle;
                albumArtist := grandparentTitle;
                photographer := photographer baseData |}
  | PHOTO =>
      let* originalTitle := get session "originalTitle" in
      Normal {| title := title baseData; type := type baseData;
                progress := progress baseData; isPaused := isPaused baseData;
                imageUrl := imageUrl baseData; duration := duration baseData;
                position := position baseData;
                series := series baseData; season := season baseData;
                episode := episode baseData;
                year := year baseData; studio := studio baseData;
                artist := artist baseData; albumTitle := albumTitle baseData;
                albumArtist := albumArtist baseData;
                photographer := or_else originalTitle VUndef |}
  | _ => Normal baseData
  end.

(** [session]: the first entry of [data.MediaContainer.Metadata], or
    [undefined]. *)
Definition Plex_session : completion value :=
  let* response :=
    fetch world
      {| url := setting_text (serverUrl settings) ++ "/status/sessions";
         headers := [("X-Plex-Token", setting_text (apiKey settings));
                     ("Accept", "application/json")] |} in
  if negb (ok response)
  then Throw (HttpError ("HTTP " ++ decimal (status response)))
  else
    let* data := json response in
    let* mediaContainer := get data "MediaContainer" in
    let* metadata := get mediaContainer "Metadata" in
    get_index0_opt metadata.

(** The body of the [try] block. *)
Definition Plex_try : completion (option MediaData) :=
  let* session := Plex_session in
  if negb (truthy session) then Normal None
  else
    let* baseData := Plex_baseData session in
    let* result := Plex_variant baseData session in
    Normal (Some result).

Definition fetchPlexData {D : Type} : M D (option MediaData) :=
  if negb (setting_truthy (serverUrl settings))
     || negb (setting_truthy (apiKey settings))
  then ret None
  else
    try_catch (lift Plex_try)
      (fun e => logger_error "Failed to fetch Plex data:" e ;; ret None).

(** ** Formatting *)

Definition getApplicationAsset (key : value) : completion value :=
  let* ids := fetchAssetIds world DISCORD_APP_ID [key] in
  get_index0 ids.

(** [pad] of [formatEpisodeNumber]: [n.toString().padStart(2, "0")]. *)
Definition pad (n : value) : completion string :=
  let* s := ToString rt n in
  Normal (padStart 2 "0" s).

Definition formatEpisodeNumber (season episode : value) : completion string :=
  if negb (truthy season) || negb (truthy episode) then Normal ""
  else
    match episodeFormat settings with
    | SHORT =>
        let* s := pad season in
        let* e := pad episode in
        Normal ("S" ++ s ++ "E" ++ e)
    | MINIMAL =>
        let* s := ToString rt season in
        let* e := pad episode in
        Normal (s ++ "x" ++ e)
    | NATURAL =>
        let* s := ToString rt season in
        let* e := ToString rt episode in
        Normal ("Season " ++ s ++ " Episode " ++ e)
    end.

Definition getServerName : string :=
  if setting_truthy (serverName settings)
  then setting_text (serverName settings)
  else match serverType settings with
       | JELLYFIN => "Jellyfin"
       | PLEX => "Plex"
       end.

(** ** The presence controller *)

Definition clearPresence : M Dispatch unit :=
  dispatch {| dispatch_type := "LOCAL_ACTIVITY_UPDATE";
              activity := None;
              socketId := "MediaStatus" |}.

Definition getDetails (mediaData : MediaData) : completion value :=
  match type mediaData with
  | EPISODE =>
      let* s := ToString rt (series mediaData) in
      let* n := formatEpisodeNumber (season mediaData) (episode mediaData) in
      Normal (VStr (s ++ " - " ++ n))
  | AUDIO =>
      let* a := ToString rt (artist mediaData) in
      let* album :=
        (if truthy (albumTitle mediaData)
         then let* t := ToString rt (albumTitle mediaData) in
              Normal (" - " ++ t)
         else Normal "") in
      Normal (VStr (a ++ album))
  | MOVIE =>
      let* y :=
        (if truthy (year mediaData)
         then let* t := ToString rt (year mediaData) in
              Normal (" (" ++ t ++ ")")
         else Normal "") in
      let* t := ToString rt (title mediaData) in
      Normal (VStr (t ++ y))
  | PHOTO =>
      let* p :=
        (if truthy (photographer mediaData)
         then let* t := ToString rt (photographer mediaData) in
              Normal (t ++ "'s ")
         else Normal "") in
      Normal (VStr ("Viewing " ++ p ++ "photo"))
  | _ => Normal (title mediaData)
  end.

(** The separator of [parts.join] as the source file spells it. *)
Definition separator : string := " â€¢ ".

(** [Array.prototype.join]: [undefined] and [null] elements print as the
    empty string. *)
Definition join_element (v : value) : completion string :=
  match v with
  | VUndef | VNull => Normal ""
  | _ => ToString rt v
  end.

Fixpoint join (sep : string) (parts : list value) : completion string :=
  match parts with
  | [] => Normal ""
  | [v] => join_element v
  | v :: rest =>
      let* s := join_element v in
      let* r := join sep rest in
      Normal (s ++ sep ++ r)
  end.

(** The array [parts] of [getState] after its two [unshift]s. *)
Definition getState_parts (mediaData : MediaData) : completion (list value) :=
  let parts := [] in
  let parts :=
    match type mediaData with
    | EPISODE => title mediaData :: parts
    | _ => parts
    end in
  match type mediaData with
  | AUDIO =>
      if truthy (albumTitle mediaData)
      then let* t := ToString rt (albumTitle mediaData) in
           Normal (VStr ("from " ++ t) :: parts)
      else Normal parts
  | _ => Normal parts
  end.

Definition getState (mediaData : MediaData) : completion string :=
  let* parts := getState_parts mediaData in
  let* joined := join separator parts in
  Normal (if String.eqb joined "" then "Watching" else joined).

(** [timestamps] of [updatePresence]. *)
Definition getTimestamps (mediaData : MediaData)
  : M Dispatch (option Timestamps) :=
  if showTimestamps settings && truthy (duration mediaData)
  then
    now1 <- Date_now (now world) ;;
    p1 <- lift (ToNumber rt (or_else (position mediaData)
                                      (VInt 0))) ;;
    now2 <- Date_now (now world) ;;
    d <- lift (ToNumber rt (duration mediaData)) ;;
    p2 <- lift (ToNumber rt (or_else (position mediaData)
                                      (VInt 0))) ;;
    ret (Some {| start := Number.sub now1 p1;
                 end' := Number.add now2 (Number.sub d p2) |})
  else ret None.

(** [assets] of [updatePresence]. *)
Definition getAssets (mediaData : MediaData) : completion (option Assets) :=
  if truthy (imageUrl mediaData)
  then
    let* large := getApplicationAsset (imageUrl mediaData) in
    let* small :=
      getApplicationAsset
        (VStr (setting_text (serverUrl settings) ++ "/web/favicon.png")) in
    Normal (Some {| large_image := large;
                    large_text := title mediaData;
                    small_image := small;
                    small_text := getServerName |})
  else Normal None.

(** What follows the suppression checks: build the activity, dispatch it. *)
Definition publish (mediaData : MediaData) : M Dispatch unit :=
  timestamps_ <- getTimestamps mediaData ;;
  assets_ <- lift (getAssets mediaData) ;;
  let activityType := match type mediaData with AUDIO => 2%Z | _ => 3%Z end in
  details_ <- lift (getDetails mediaData) ;;
  state_ <- lift (getState mediaData) ;;
  dispatch {| dispatch_type := "LOCAL_ACTIVITY_UPDATE";
              activity := Some {| application_id := DISCORD_APP_ID;
                                  name := title mediaData;
                                  details := details_;
                                  state := state_;
                                  assets := assets_;
                                  timestamps := timestamps_;
                                  activity_type := activityType;
                                  flags := Z.shiftl 1 0 |};
              socketId := "MediaStatus" |}.

(** The callback of [activities.some]:
    [a => a.application_id !== DISCORD_APP_ID]. *)
Definition other_activity (a : value) : completion bool :=
  let* id := get a "application_id" in
  Normal (negb (strict_eq_string id DISCORD_APP_ID)).

(** The [try] block of [updatePresence] from the point where the adapter's
    promise has settled to [mediaData]. *)
Definition present (mediaData : option MediaData) : M Dispatch unit :=
  match mediaData with
  | None => clearPresence
  | Some md =>
      if truthy (isPaused md) && hideWhenPaused settings then clearPresence
      else
        other <-
          (if hideWhenOtherActivity settings
           then lift (array_some other_activity (getActivities world))
           else ret false) ;;
        if (other : bool) then clearPresence else publish md
  end.

(** The adapter the settings select:
    [serverType === ServiceType.JELLYFIN ? fetchJellyfinData() : fetchPlexData()]. *)
Definition selectedAdapter {D : Type} : M D (option MediaData) :=
  match serverType settings with
  | JELLYFIN => fetchJellyfinData
  | PLEX => fetchPlexData
  end.

Definition updatePresence : M Dispatch unit :=
  try_catch
    (mediaData <- selectedAdapter ;;
     present mediaData)
    (fun err =>
       logger_error "Failed to update presence:" err ;;
       clearPresence).

End Adapters.

End Plugin.

(* ===================================================================== *)
(** * [start], [stop] and the timer *)
(* ===================================================================== *)

Module Lifecycle.

Import JS Eff Plugin.

(** The plugin instance in its host.  [interval] is the field
    [this.interval] (a timer id of [setInterval], which is never 0, or
    [undefined]); [timers] are the interval timers the host still fires;
    [in_flight] counts the calls of [updatePresence] that have started and
    whose promise has not settled; [sink] is what the dispatcher has
    received, oldest first. *)
Record Host : Type := {
  interval : option positive;
  timers : list positive;
  next_timer : positive;
  in_flight : nat;
  sink : list Dispatch
}.

Definition idle : Host :=
  {| interval := None; timers := []; next_timer := 1%positive;
     in_flight := 0; sink := [] |}.

(** [clearInterval(id)]. *)
Definition clearInterval (id : positive) (h : Host) : Host :=
  {| interval := interval h;
     timers := filter (fun t => negb (Pos.eqb t id)) (timers h);
     next_timer := next_timer h;
     in_flight := in_flight h;
     sink := sink h |}.

(** A synchronous call of [this.clearPresence()]. *)
Definition clearPresence_now (h : Host) : Host :=
  {| interval := interval h;
     timers := timers h;
     next_timer := next_timer h;
     in_flight := in_flight h;
     sink := sink h ++ dispatched (fst (run clearPresence)) |}.

(** A call of [this.updatePresence()] whose result is not awaited: nothing
    is dispatched before its first [await] has settled. *)
Definition updatePresence_begins (h : Host) : Host :=
  {| interval := interval h;
     timers := timers h;
     next_timer := next_timer h;
     in_flight := S (in_flight h);
     sink := sink h |}.

Definition start (h : Host) : Host :=
  let h := updatePresence_begins h in
  {| interval := Some (next_timer h);
     timers := next_timer h :: timers h;
     next_timer := Pos.succ (next_timer h);
     in_flight := in_flight h;
     sink := sink h |}.

Definition stop (h : Host) : Host :=
  let h :=
    match interval h with
    | Some id =>
        let h := clearInterval id h in
        {| interval := None;
           timers := timers h;
           next_timer := next_timer h;
           in_flight := in_flight h;
           sink := sink h |}
    | None => h
    end in
  clearPresence_now h.

(** What can happen to the instance: the two calls of its interface, and the
    two things the host does by itself: firing an active timer, and settling
    a poll in flight, in whatever world that poll has met. *)
Inductive event : Type :=
| CallStart
| CallStop
| TimerFires (id : positive)
| PollSettles (world : World).

Definition by_host (e : event) : bool :=
  match e with
  | TimerFires _ | PollSettles _ => true
  | CallStart | CallStop => false
  end.

Section Steps.

Variable rt : Runtime.
Variable settings : Settings.

(** One event; [None] when the host cannot do it in this state. *)
Definition step (h : Host) (e : event) : option Host :=
  match e with
  | CallStart => Some (start h)
  | CallStop => Some (stop h)
  | TimerFires id =>
      if existsb (Pos.eqb id) (timers h)
      then Some (updatePresence_begins h)
      else None
  | PollSettles world =>
      match in_flight h with
      | O => None
      | S n =>
          Some {| interval := interval h;
                  timers := timers h;
                  next_timer := next_timer h;
                  in_flight := n;
                  sink := sink h
                          ++ dispatched (fst (run (updatePresence rt settings world))) |}
      end
  end.

Fixpoint steps (h : Host) (es : list event) : option Host :=
  match es with
  | [] => Some h
  | e :: rest =>
      match step h e with
      | Some h' => steps h' rest
      | None => None
      end
  end.

End Steps.

End Lifecycle.

(* ===================================================================== *)
(** * Concrete runtime and worlds, for evaluation *)
(* ===================================================================== *)

Module Sample.

Import JS Eff Plugin.
Local Open Scope string_scope.

(** A runtime for evaluating examples: ASCII lower-casing; the other three
    builtins are only reached on inputs the examples do not use. *)
Definition runtime : Runtime :=
  {| StringToNumber := fun _ => Number.NaN;
     NumberToString_other := fun _ => "?";
     StringToLowerCase := lower;
     ObjectToPrimitive := fun _ => Normal "[object Object]" |}.

Definition config (service : ServiceType) : Settings :=
  {| serverType := service;
     serverUrl := Some "https://media.example";
     apiKey := Some "k";
     episodeFormat := NATURAL;
     showTimestamps := true;
     serverName := None;
     updateInterval := 10;
     hideWhenPaused := true;
     hideWhenOtherActivity := false |}.

(** A server that answers every request with [body], beside a presence
    store listing [activities]; the clock advances by one millisecond at
    each reading. *)
Definition answering_with (activities : list value) (body : completion value)
  : World :=
  {| fetch := fun _ => Normal {| ok := true; status := 200; json := body |};
     getActivities := activities;
     now := fun n => (1700000000000 + Z.of_nat n)%Z;
     fetchAssetIds := fun _ _ => Normal (VArr [VStr "asset"]) |}.

Definition answering (body : completion value) : World :=
  answering_with [] body.

(** A Jellyfin session with a movie at [positionTicks] of [runTimeTicks]. *)
Definition jellyfin_movie (positionTicks runTimeTicks : value)
  (isPaused : bool) : value :=
  VArr [VObj [("NowPlayingItem",
               VObj [("Name", VStr "Heat"); ("Type", VStr "Movie");
                     ("RunTimeTicks", runTimeTicks)]);
              ("PlayState",
               VObj [("PositionTicks", positionTicks);
                     ("IsPaused", VBool isPaused)])]].

(** A Plex container with one session of the given type. *)
Definition plex_session (type title : string) (extra : list (string * value))
  : value :=
  VObj [("MediaContainer",
         VObj [("Metadata",
                VArr [VObj (("title", VStr title) :: ("type", VStr type)
                            :: ("Player", VObj [("state", VStr "playing")])
                            :: extra)])])].

(** Half way through a movie of 5000 ms. *)
Definition watching : World :=
  answering (Normal (jellyfin_movie (VInt 25000000) (VInt 50000000) false)).

Definition watching_paused : World :=
  answering (Normal (jellyfin_movie (VInt 25000000) (VInt 50000000) true)).

Definition watching_plex : World :=
  answering (Normal (plex_session "movie" "Heat"
                       [("duration", VInt 5000); ("viewOffset", VInt 2500)])).

(** The server reports a position beyond the run time. *)
Definition overrun : World :=
  answering (Normal (jellyfin_movie (VInt 20000) (VInt 10000) false)).

(** Someone is also playing a game. *)
Definition gaming : World :=
  answering_with [VObj [("application_id", VStr "356875570916753438")]]
    (Normal (jellyfin_movie (VInt 25000000) (VInt 50000000) false)).

Definition refusing : World :=
  {| fetch := fun _ => Normal {| ok := false; status := 401;
                                 json := Normal VNull |};
     getActivities := [];
     now := fun _ => 1700000000000%Z;
     fetchAssetIds := fun _ _ => Normal (VArr [VStr "asset"]) |}.

Definition garbled : World := answering (Throw SyntaxError).

Definition nothing_playing : World :=
  answering (Normal (VArr [VObj [("PlayState", VObj [])]])).

Definition nothing_playing_plex : World :=
  answering (Normal (VObj [("MediaContainer", VObj [("size", VInt 0)])])).

Definition movie (progress_ duration_ position_ studio_ : value) : MediaData :=
  {| title := VStr "Heat"; type := MOVIE; progress := progress_;
     isPaused := VBool false; imageUrl := VUndef;
     duration := duration_; position := position_;
     series := VUndef; season := VUndef; episode := VUndef; year := VUndef;
     studio := studio_; artist := VUndef; albumTitle := VUndef;
     albumArtist := VUndef; photographer := VUndef |}.

(** What the adapter returns in [watching] and in [overrun]. *)
Definition heat : MediaData := movie (VInt 50) (VInt 5000) (VInt 2500) VUndef.

Definition heat_overrun : MediaData := movie (VInt 200) (VInt 1) (VInt 2) VUndef.

Definition unconfigured : Settings :=
  {| serverType := JELLYFIN; serverUrl := None; apiKey := Some "k";
     episodeFormat := NATURAL; showTimestamps := true; serverName := None;
     updateInterval := 10; hideWhenPaused := true;
     hideWhenOtherActivity := false |}.

Definition hiding_for_others : Settings :=
  {| serverType := JELLYFIN; serverUrl := Some "https://media.example";
     apiKey := Some "k"; episodeFormat := NATURAL; showTimestamps := true;
     serverName := None; updateInterval := 10; hideWhenPaused := true;
     hideWhenOtherActivity := true |}.

Definition with_format (f : DisplayFormat) : Settings :=
  {| serverType := JELLYFIN; serverUrl := None; apiKey := None;
     episodeFormat := f; showTimestamps := true; serverName := None;
     updateInterval := 10; hideWhenPaused := true;
     hideWhenOtherActivity := false |}.

(** A media item of the given type, title and album title. *)
Definition optional (a : option string) : value :=
  match a with
  | Some t => VStr t
  | None => VUndef
  end.

Definition media (type_ : MediaType) (title_ : string)
  (albumTitle_ : option string) : MediaData :=
  {| title := VStr title_; type := type_; progress := VUndef;
     isPaused := VBool false; imageUrl := VUndef; duration := VUndef;
     position := VUndef; series := VUndef; season := VUndef;
     episode := VUndef; year := VUndef; studio := VUndef; artist := VUndef;
     albumTitle := optional albumTitle_; albumArtist := VUndef;
     photographer := VUndef |}.

(** The instance after [start()] and the settling of its first poll. *)
Definition running : Lifecycle.Host :=
  Eval vm_compute in
    match Lifecycle.steps runtime (config JELLYFIN) Lifecycle.idle
            [Lifecycle.CallStart; Lifecycle.PollSettles watching] with
    | Some h => h
    | None => Lifecycle.idle
    end.

(** The instance right after [start()]: its first poll is in flight. *)
Definition started : Lifecycle.Host := Lifecycle.start Lifecycle.idle.

(** Operands on which [Number.div] is compared with the processor. *)
Definition division_samples : list (Z * Z) :=
  [(29, 200); (1, 3); (2, 3); (50000000, 10000); (99999, 10000);
   (175921860444169984, 10000); (9007199254740991, 10000);
   (9007199254740989, 9007199254740991); (1, 9007199254740991);
   (123456789012345, 977); (7, 1024)]%Z.

Definition agrees_with_hardware (ab : Z * Z) : bool :=
  match Number.hardware_div (fst ab) (snd ab),
        Number.div (Number.of_Z (fst ab)) (Number.of_Z (snd ab)) with
  | Some x, Number.Fin y => Qeq_bool x y
  | _, _ => false
  end.

End Sample.

(* ===================================================================== *)
(** * The properties, as the specification words them *)
(* ===================================================================== *)

Module Spec.

Import JS Eff Plugin.
Local Open Scope string_scope.

(** A percentage: an integer from 0 to 100. *)
Definition percentage (v : value) : Prop :=
  exists z : Z, v = VInt z /\ (0 <= z <= 100)%Z.

(** What the progress field must be, given the position and the duration it
    was computed from: absent without a duration, a percentage when the
    position lies within the duration. *)
Definition progress_ok (position duration progress : value) : Prop :=
  (truthy duration = false -> progress = VUndef) /\
  (forall p d : Q,
      position = VNum (Number.Fin p) -> duration = VNum (Number.Fin d) ->
      (0 <= p <= d)%Q -> (0 < d)%Q ->
      percentage progress).

(** No variant field is set. *)
Definition no_variant (md : MediaData) : Prop :=
  series md = VUndef /\ season md = VUndef /\ episode md = VUndef /\
  artist md = VUndef /\ albumArtist md = VUndef /\ albumTitle md = VUndef /\
  photographer md = VUndef.

(** The variant fields that are set belong to the type. *)
Definition variant_ok (md : MediaData) : Prop :=
  (type md <> EPISODE ->
   series md = VUndef /\ season md = VUndef /\ episode md = VUndef) /\
  (type md <> AUDIO ->
   artist md = VUndef /\ albumArtist md = VUndef /\ albumTitle md = VUndef) /\
  (type md <> PHOTO -> photographer md = VUndef).

(** A Jellyfin session list in which no session has a now-playing item. *)
Definition no_session_playing (sessions : value) : Prop :=
  exists l, sessions = VArr l /\
    Forall (fun s => forall v, get s "NowPlayingItem" = Normal v ->
                               truthy v = false) l.

(** A Plex answer whose container has no first metadata entry. *)
Definition no_metadata_entry (data : value) : Prop :=
  forall mediaContainer metadata session,
    get data "MediaContainer" = Normal mediaContainer ->
    get mediaContainer "Metadata" = Normal metadata ->
    get_index0_opt metadata = Normal session ->
    truthy session = false.

(** A number zero-padded to two digits. *)
Definition two_digits (z : Z) : string :=
  if ((0 <=? z) && (z <? 10))%Z then "0" ++ decimal z else decimal z.

(** The episode label as the specification words it. *)
Definition formatEpisodeLabel (season episode : Z) (format : DisplayFormat)
  : string :=
  if ((season =? 0) || (episode =? 0))%Z then ""
  else
    match format with
    | NATURAL => "Season " ++ decimal season ++ " Episode " ++ decimal episode
    | SHORT => "S" ++ two_digits season ++ "E" ++ two_digits episode
    | MINIMAL => decimal season ++ "x" ++ two_digits episode
    end.

(** The state line as the specification words it: an ordered list of parts,
    joined by a middle dot, with "Watching" for the empty list. *)
Definition buildState (type : MediaType) (title : string)
  (albumTitle : option string) : string :=
  let parts := [] in
  let parts := match type with EPISODE => title :: parts | _ => parts end in
  let parts :=
    match type, albumTitle with
    | AUDIO, Some a => ("from " ++ a) :: parts
    | _, _ => parts
    end in
  match parts with
  | [] => "Watching"
  | _ => String.concat " • " parts
  end.

(** The two payloads the sink can receive. *)
Definition clear_signal : Dispatch :=
  {| dispatch_type := "LOCAL_ACTIVITY_UPDATE";
     activity := None;
     socketId := "MediaStatus" |}.

Definition activity_update (act : Activity) : Dispatch :=
  {| dispatch_type := "LOCAL_ACTIVITY_UPDATE";
     activity := Some act;
     socketId := "MediaStatus" |}.

(** The timestamps of an activity published for [md] when the clock has been
    read [n] times before. *)
Definition timestamps_spec (rt : Runtime) (settings : Settings) (world : World)
  (n : nat) (md : MediaData) (ts : option Timestamps) : Prop :=
  if showTimestamps settings && truthy (duration md)
  then exists p d,
      ToNumber rt (or_else (position md) (VInt 0)) = Normal p /\
      ToNumber rt (duration md) = Normal d /\
      ts = Some {| start := Number.sub (Number.of_Z (now world n)) p;
                   end' := Number.add (Number.of_Z (now world (S n)))
                                      (Number.sub d p) |}
  else ts = None.

End Spec.

(* ===================================================================== *)
(** * The outcomes of a poll *)
(* ===================================================================== *)

Module Outcome.

Import JS Eff Plugin Spec.
Local Open Scope string_scope.

(** The activity [publish] builds from its four computed parts. *)
Definition activity_of (md : MediaData) (details_ : value) (state_ : string)
  (assets_ : option Assets) (timestamps_ : option Timestamps) : Activity :=
  {| application_id := DISCORD_APP_ID;
     name := title md;
     details := details_;
     state := state_;
     assets := assets_;
     timestamps := timestamps_;
     activity_type := match type md with AUDIO => 2%Z | _ => 3%Z end;
     flags := 1 |}.

(** The adapter's result [r] is not shown: there is none, or it is paused
    while paused media is hidden, or another application has an activity
    while that hides the presence. *)
Definition hidden (settings : Settings) (world : World)
  (r : option MediaData) : Prop :=
  r = None \/
  exists md, r = Some md /\
    (truthy (isPaused md) && hideWhenPaused settings = true \/
     (truthy (isPaused md) && hideWhenPaused settings = false /\
      hideWhenOtherActivity settings = true /\
      array_some other_activity (getActivities world) = Normal true)).

(** Neither of the two early returns of [updatePresence] is taken. *)
Definition shown (settings : Settings) (world : World)
  (md : MediaData) : Prop :=
  truthy (isPaused md) && hideWhenPaused settings = false /\
  (hideWhenOtherActivity settings = true ->
   array_some other_activity (getActivities world) = Normal false).

(** What every payload handed to the dispatcher has in common. *)
Definition payload_ok (d : Dispatch) : Prop :=
  dispatch_type d = "LOCAL_ACTIVITY_UPDATE" /\ socketId d = "MediaStatus" /\
  forall act, activity d = Some act ->
              application_id act = DISCORD_APP_ID /\ flags act = 1%Z.

(** Both the server URL and the credential are set. *)
Definition configured (settings : Settings) : Prop :=
  setting_truthy (serverUrl settings) = true /\
  setting_truthy (apiKey settings) = true.

(** The effects after one more line of the logger. *)
Definition with_log {D : Type} (s : effects D) (msg : string) (e : exn)
  : effects D :=
  {| logged := logged s ++ [(msg, e)];
     dispatched := dispatched s;
     clock_reads := clock_reads s |}.

(** A session object without a now-playing item. *)
Definition idle_session (s : value) : Prop :=
  exists v, get s "NowPlayingItem" = Normal v /\ truthy v = false.

End Outcome.

(* ===================================================================== *)
(** * The shape of a run of the plugin *)
(* ===================================================================== *)

Module Run.

Import JS Eff Plugin Lifecycle.

(** Timer ids are distinct and older than the next one, and the handle,
    when set, names a running timer. *)
Definition well_formed (h : Host) : Prop :=
  (forall t, In t (timers h) -> (t < next_timer h)%positive) /\
  NoDup (timers h) /\
  (forall id, interval h = Some id -> In id (timers h)).

(** The events at which the dispatcher is called. *)
Definition dispatches (e : event) : bool :=
  match e with
  | CallStop | PollSettles _ => true
  | CallStart | TimerFires _ => false
  end.

(** The events that call [updatePresence]. *)
Definition begins_poll (e : event) : bool :=
  match e with
  | CallStart | TimerFires _ => true
  | CallStop | PollSettles _ => false
  end.

(** The events at which a call of [updatePresence] ends. *)
Definition settles_poll (e : event) : bool :=
  match e with
  | PollSettles _ => true
  | _ => false
  end.

Definition count (p : event -> bool) (es : list event) : nat :=
  List.length (filter p es).

End Run.

(* ===================================================================== *)
(** * More servers and media *)
(* ===================================================================== *)

Module Household.

Import JS Eff Plugin Sample.
Local Open Scope string_scope.

(** The server cannot be reached. *)
Definition unreachable : World :=
  {| fetch := fun _ => Throw (TypeError "Failed to fetch");
     getActivities := [];
     now := fun n => (1700000000000 + Z.of_nat n)%Z;
     fetchAssetIds := fun _ _ => Normal (VArr [VStr "asset"]) |}.

(** The now-playing item of an episode, as Jellyfin reports it. *)
Definition pilot_item : value :=
  VObj [("Name", VStr "Pilot"); ("Type", VStr "Episode");
        ("RunTimeTicks", VInt 50000000);
        ("SeriesName", VStr "Lost");
        ("ParentIndexNumber", VInt 1); ("IndexNumber", VInt 2)].

Definition episode_session : value :=
  VObj [("NowPlayingItem", pilot_item);
        ("PlayState",
         VObj [("PositionTicks", VInt 25000000); ("IsPaused", VBool false)])].

Definition idle_device : value := VObj [("PlayState", VObj [])].

Definition movie_session : value :=
  VObj [("NowPlayingItem", VObj [("Name", VStr "Heat"); ("Type", VStr "Movie")]);
        ("PlayState", VObj [])].

(** An idle device first, then the episode, then a movie. *)
Definition three_devices : list value :=
  [idle_device; episode_session; movie_session].

Definition busy_house : World := answering (Normal (VArr three_devices)).

(** A [null] entry ahead of the episode. *)
Definition null_first : World :=
  answering (Normal (VArr [idle_device; VNull; episode_session])).

(** A Plex session that is buffering. *)
Definition buffering_session : value :=
  VObj [("title", VStr "Heat"); ("type", VStr "movie");
        ("Player", VObj [("state", VStr "buffering")])].

Definition buffering : World :=
  answering (Normal (VObj [("MediaContainer",
                            VObj [("Metadata", VArr [buffering_session])])])).

(** A movie with artwork, and an asset service that rejects. *)
Definition poster_item : value :=
  VObj [("Name", VStr "Heat"); ("Type", VStr "Movie"); ("Id", VStr "42");
        ("ImageTags", VObj [("Primary", VStr "tag")])].

Definition artwork_unavailable : World :=
  {| fetch := fun _ =>
       Normal {| ok := true; status := 200;
                 json := Normal (VArr [VObj [("NowPlayingItem", poster_item);
                                             ("PlayState", VObj [])]]) |};
     getActivities := [];
     now := fun n => (1700000000000 + Z.of_nat n)%Z;
     fetchAssetIds := fun _ _ => Throw (Rejected "assets") |}.

Definition heat_with_poster : MediaData :=
  {| title := VStr "Heat"; type := MOVIE; progress := VUndef;
     isPaused := VUndef;
     imageUrl := VStr "https://media.example/Items/42/Images/Primary?api_key=k";
     duration := VUndef; position := VUndef;
     series := VUndef; season := VUndef; episode := VUndef;
     year := VUndef; studio := VUndef; artist := VUndef;
     albumTitle := VUndef; albumArtist := VUndef; photographer := VUndef |}.

Definition lost_pilot : MediaData :=
  {| title := VStr "Pilot"; type := EPISODE; progress := VInt 50;
     isPaused := VBool false; imageUrl := VUndef;
     duration := VInt 5000; position := VInt 2500;
     series := VStr "Lost"; season := VInt 1; episode := VInt 2;
     year := VUndef; studio := VUndef; artist := VUndef;
     albumTitle := VUndef; albumArtist := VUndef; photographer := VUndef |}.

Definition heat_1995 : MediaData :=
  {| title := VStr "Heat"; type := MOVIE; progress := VUndef;
     isPaused := VBool false; imageUrl := VUndef;
     duration := VUndef; position := VUndef;
     series := VUndef; season := VUndef; episode := VUndef;
     year := VInt 1995; studio := VUndef; artist := VUndef;
     albumTitle := VUndef; albumArtist := VUndef; photographer := VUndef |}.

(** One evening: the plugin starts, the first poll settles, the timer fires,
    the plugin is stopped, and the second poll settles after that. *)
Definition evening : list Lifecycle.event :=
  [Lifecycle.CallStart; Lifecycle.PollSettles watching;
   Lifecycle.TimerFires 1%positive; Lifecycle.CallStop;
   Lifecycle.PollSettles nothing_playing].

End Household.

(* ===================================================================== *)
(** * Facts about the rounding *)
(* ===================================================================== *)

Module NumberFacts.

Import Number.
Local Open Scope Q_scope.

(** [rne] picks an integer nearest to its argument. *)
Lemma rne_nearest (t : Q) (j : Z) :
  Qabs (inject_Z (rne t) - t) <= Qabs (inject_Z j - t).
Proof.
  unfold rne.
  pose proof (Qfloor_le t) as Hlo.
  pose proof (Qlt_floor t) as Hhi.
  rewrite inject_Z_plus in Hhi. change (inject_Z 1) with 1 in Hhi.
  set (f := Qfloor t) in *. clearbody f.
  assert (Hj : (j <= f)%Z \/ (f + 1 <= j)%Z) by lia.
  assert (Hj' : inject_Z j <= inject_Z f \/
                inject_Z f + 1 <= inject_Z j).
  { destruct Hj as [Hj | Hj]; [left | right].
    - now rewrite <- Zle_Qle.
    - change 1 with (inject_Z 1). rewrite <- inject_Z_plus.
      now rewrite <- Zle_Qle. }
  clear Hj.
  destruct (Qcompare_spec (t - inject_Z f) (1 # 2)) as [He | Hl | Hg].
  - destruct (Z.even f).
    + apply Qabs_case; intros; apply Qabs_case; intros; destruct Hj'; lra.
    + rewrite inject_Z_plus. change (inject_Z 1) with 1.
      apply Qabs_case; intros; apply Qabs_case; intros; destruct Hj'; lra.
  - apply Qabs_case; intros; apply Qabs_case; intros; destruct Hj'; lra.
  - rewrite inject_Z_plus. change (inject_Z 1) with 1.
    apply Qabs_case; intros; apply Qabs_case; intros; destruct Hj'; lra.
Qed.


Lemma pow2_pos (k : Z) : 0 < 2 ^ k.
Proof. apply Qpower_0_lt. reflexivity. Qed.

Lemma pow2_succ (k : Z) : 2 ^ (k + 1) == 2 * 2 ^ k.
Proof. rewrite Qpower_plus by discriminate. simpl (2 ^ 1). ring. Qed.

Lemma pow2_le (j k : Z) : (j <= k)%Z -> 2 ^ j <= 2 ^ k.
Proof. intros H. apply Qpower_le_compat_l; [exact H | discriminate]. Qed.

Lemma pow2_inject (k : Z) : (0 <= k)%Z -> inject_Z (2 ^ k) == 2 ^ k.
Proof. intros H. now rewrite Zpower_Qpower. Qed.

Lemma Zlog2_bounds (n : Z) :
  (0 < n)%Z ->
  2 ^ Z.log2 n <= inject_Z n /\ inject_Z n < 2 * 2 ^ Z.log2 n.
Proof.
  intros Hn.
  destruct (Z.log2_spec n Hn) as [Hlo Hhi].
  pose proof (Z.log2_nonneg n) as Hl.
  split.
  - rewrite <- pow2_inject by exact Hl. now rewrite <- Zle_Qle.
  - rewrite <- pow2_succ. rewrite <- pow2_inject by lia.
    rewrite <- Zlt_Qlt. replace (Z.log2 n + 1)%Z with (Z.succ (Z.log2 n)) by lia.
    exact Hhi.
Qed.

Lemma Qlog2_spec (x : Q) :
  0 < x -> 2 ^ Qlog2 x <= x /\ x < 2 ^ (Qlog2 x + 1).
Proof.
  intros Hx. unfold Qlog2.
  destruct x as [n d]. cbn [Qnum Qden].
  assert (Hn : (0 < n)%Z).
  { unfold Qlt in Hx. cbn in Hx. lia. }
  destruct (Zlog2_bounds n Hn) as [Na Nb].
  destruct (Zlog2_bounds (Zpos d) eq_refl) as [Da Db].
  set (a := Z.log2 n) in *. set (b := Z.log2 (Zpos d)) in *.
  pose proof (pow2_pos a) as Pa. pose proof (pow2_pos b) as Pb.
  assert (Hx' : n # d == inject_Z n / inject_Z (Zpos d)) by apply Qmake_Qdiv.
  assert (Hl : 2 ^ (a - b) == 2 ^ a / 2 ^ b).
  { unfold Z.sub. rewrite Qpower_plus by discriminate.
    rewrite Qpower_opp. reflexivity. }
  assert (Hup : n # d < 2 * 2 ^ (a - b)).
  { rewrite Hx', Hl.
    apply Qlt_shift_div_r; [lra|].
    setoid_replace (2 * (2 ^ a / 2 ^ b) * inject_Z (Z.pos d))
      with ((2 * 2 ^ a) * (inject_Z (Z.pos d) / 2 ^ b)) by (field; lra).
    assert (1 <= inject_Z (Z.pos d) / 2 ^ b).
    { apply Qle_shift_div_l; lra. }
    nra. }
  assert (Hdn : 2 ^ (a - b) < 2 * (n # d)).
  { rewrite Hx', Hl.
    apply Qlt_shift_div_r; [lra|].
    setoid_replace (2 * (inject_Z n / inject_Z (Z.pos d)) * 2 ^ b)
      with (inject_Z n * ((2 * 2 ^ b) / inject_Z (Z.pos d))) by (field; lra).
    assert (1 < (2 * 2 ^ b) / inject_Z (Z.pos d)).
    { apply Qlt_shift_div_l; lra. }
    nra. }
  destruct (Qle_bool (2 ^ (a - b)) (n # d)) eqn:Hc.
  - apply Qle_bool_iff in Hc. split; [exact Hc|].
    rewrite pow2_succ. exact Hup.
  - assert (Hlt : n # d < 2 ^ (a - b)).
    { apply Qnot_le_lt. intros Hle. apply Qle_bool_iff in Hle. congruence. }
    replace (a - b - 1 + 1)%Z with (a - b)%Z by lia.
    split; [|exact Hlt].
    assert (E : 2 ^ (a - b) == 2 * 2 ^ (a - b - 1)).
    { rewrite <- pow2_succ. now replace (a - b - 1 + 1)%Z with (a - b)%Z by lia. }
    lra.
Qed.


Lemma rne64_eq (x : Q) :
  ~ x == 0 ->
  rne64 x == inject_Z (rne (x / 2 ^ ulp_exp x)) * 2 ^ ulp_exp x.
Proof.
  intros Hx. unfold rne64.
  destruct (Qeq_bool x 0) eqn:E.
  - apply Qeq_bool_iff in E. contradiction.
  - apply Qred_correct.
Qed.

Lemma rne64_grid (x : Q) (j : Z) :
  ~ x == 0 ->
  Qabs (rne64 x - x) <= Qabs (inject_Z j * 2 ^ ulp_exp x - x).
Proof.
  intros Hx. rewrite (rne64_eq x Hx).
  pose proof (pow2_pos (ulp_exp x)) as HP.
  set (P := 2 ^ ulp_exp x) in *.
  pose proof (rne_nearest (x / P) j) as N.
  setoid_replace (inject_Z (rne (x / P)) * P - x)
    with ((inject_Z (rne (x / P)) - x / P) * P) by (field; lra).
  setoid_replace (inject_Z j * P - x)
    with ((inject_Z j - x / P) * P) by (field; lra).
  rewrite !Qabs_Qmult. rewrite (Qabs_pos P) by lra.
  apply Qmult_le_compat_r; [exact N | lra].
Qed.

Lemma rne64_nearest (x y : Q) :
  double_grid y -> Qabs (rne64 x - x) <= Qabs (y - x).
Proof.
  intros (m & e & Hm & He & Hy).
  destruct (Qeq_bool x 0) eqn:Hx0.
  { unfold rne64. rewrite Hx0. apply Qeq_bool_iff in Hx0.
    rewrite Hx0. setoid_replace (0 - 0) with 0 by ring.
    apply Qabs_nonneg. }
  apply Qeq_bool_neq in Hx0.
  destruct (Z_le_gt_dec (ulp_exp x) e) as [Hge | Hlt].
  - assert (Hy' : y == inject_Z (m * 2 ^ (e - ulp_exp x)) * 2 ^ ulp_exp x).
    { rewrite Hy, inject_Z_mult, pow2_inject by lia.
      rewrite <- Qmult_assoc, <- Qpower_plus by discriminate.
      now replace (e - ulp_exp x + ulp_exp x)%Z with e by lia. }
    rewrite Hy'. apply rne64_grid. exact Hx0.
  - assert (Hax : 0 < Qabs x).
    { apply Qabs_case; intros; lra. }
    destruct (Qlog2_spec (Qabs x) Hax) as [Hlo _].
    assert (HE : Qlog2 (Qabs x) = (ulp_exp x + 52)%Z).
    { unfold ulp_exp in *. lia. }
    rewrite HE in Hlo.
    rewrite Qpower_plus in Hlo by discriminate.
    rewrite Qmult_comm in Hlo.
    pose proof (pow2_pos (ulp_exp x)) as HP.
    pose proof (pow2_pos e) as Hpe.
    assert (Hee : 2 * 2 ^ e <= 2 ^ ulp_exp x).
    { rewrite <- pow2_succ. apply pow2_le. lia. }
    assert (Hm' : Qabs (inject_Z m) <= 2 ^ 53).
    { change (Qabs (inject_Z m)) with (inject_Z (Z.abs m)).
      rewrite <- (pow2_inject 53) by lia. now rewrite <- Zle_Qle. }
    assert (Hay : Qabs y <= 2 ^ 52 * 2 ^ ulp_exp x).
    { rewrite Hy, Qabs_Qmult, (Qabs_pos (2 ^ e)) by lra.
      apply Qle_trans with (2 ^ 53 * 2 ^ e).
      - apply Qmult_le_compat_r; lra.
      - change (2 ^ 53) with (2 ^ 52 * 2). rewrite <- Qmult_assoc.
        apply Qmult_le_l; [reflexivity | exact Hee]. }
    set (P := 2 ^ ulp_exp x) in *.
    destruct (Qlt_le_dec 0 x) as [Hpos | Hneg].
    + pose proof (rne64_grid x (2 ^ 52) Hx0) as G. fold P in G.
      rewrite pow2_inject in G by lia.
      rewrite (Qabs_pos x) in Hlo by lra.
      eapply Qle_trans; [exact G|].
      revert Hay. set (c := 2 ^ 52 * P) in *. clearbody c.
      apply Qabs_case; intros; apply Qabs_case; intros;
        revert Hay; apply Qabs_case; intros; lra.
    + pose proof (rne64_grid x (- 2 ^ 52) Hx0) as G. fold P in G.
      rewrite inject_Z_opp, pow2_inject in G by lia.
      rewrite (Qabs_neg x) in Hlo by lra.
      eapply Qle_trans; [exact G|].
      revert Hay.
      setoid_replace (- 2 ^ 52 * P) with (- (2 ^ 52 * P)) by ring.
      set (c := 2 ^ 52 * P) in *. clearbody c.
      apply Qabs_case; intros; apply Qabs_case; intros;
        revert Hay; apply Qabs_case; intros; lra.
Qed.


(** ** Consequences: values between two grid points, exact integers *)

Lemma grid_int (z : Z) : (Z.abs z <= 2 ^ 53)%Z -> double_grid (inject_Z z).
Proof.
  intros H. exists z, 0%Z. repeat split; [exact H | lia |].
  change (2 ^ 0) with 1. ring.
Qed.

Lemma rne64_between (lo hi x : Q) :
  double_grid lo -> double_grid hi -> lo <= x <= hi ->
  lo <= rne64 x <= hi.
Proof.
  intros Glo Ghi [Hlo Hhi].
  pose proof (rne64_nearest x lo Glo) as Nlo.
  pose proof (rne64_nearest x hi Ghi) as Nhi.
  revert Nlo Nhi.
  apply Qabs_case; intros; revert Nlo; apply Qabs_case; intros;
    revert Nhi; apply Qabs_case; intros; split; lra.
Qed.

Lemma rne64_canon (x : Q) : Qred (rne64 x) = rne64 x.
Proof.
  unfold rne64. destruct (Qeq_bool x 0); [reflexivity|].
  apply Qred_complete, Qred_correct.
Qed.

Lemma Qred_inject_Z (z : Z) : Qred (inject_Z z) = inject_Z z.
Proof.
  unfold Qred, inject_Z.
  pose proof (Z.ggcd_gcd z 1) as Hg.
  pose proof (Z.ggcd_correct_divisors z 1) as Hd.
  destruct (Z.ggcd z 1) as [g [a b]]. cbn in *.
  rewrite Z.gcd_1_r in Hg. subst g. destruct Hd as [Ha Hb].
  f_equal; [lia|].
  assert (b = 1%Z) by lia. now subst b.
Qed.

Lemma pow2_53_lt_1024 : 2 ^ 53 < 2 ^ 1024.
Proof. apply Qpower_lt_compat_l; [lia | reflexivity]. Qed.

Lemma round64_finite (x : Q) :
  Qabs (rne64 x) <= 2 ^ 53 -> round64 x = Fin (rne64 x).
Proof.
  intros H. unfold round64.
  destruct (Qle_bool (2 ^ 1024) (Qabs (rne64 x))) eqn:E; [|reflexivity].
  apply Qle_bool_iff in E. pose proof pow2_53_lt_1024. lra.
Qed.

Lemma round64_between (lo hi x : Q) :
  double_grid lo -> double_grid hi -> lo <= x <= hi ->
  - 2 ^ 53 <= lo -> hi <= 2 ^ 53 ->
  round64 x = Fin (rne64 x) /\ lo <= rne64 x <= hi.
Proof.
  intros Glo Ghi Hx Hlo Hhi.
  pose proof (rne64_between lo hi x Glo Ghi Hx) as [B1 B2].
  split; [|split; assumption].
  apply round64_finite. apply Qabs_Qle_condition. split; lra.
Qed.

Lemma inject_pow53 : inject_Z (2 ^ 53) == 2 ^ 53.
Proof. apply pow2_inject. lia. Qed.

Lemma round64_int (x : Q) (z : Z) :
  x == inject_Z z -> (Z.abs z <= 2 ^ 53)%Z ->
  round64 x = Fin (inject_Z z).
Proof.
  intros Hx Hz.
  assert (Hb : - 2 ^ 53 <= inject_Z z /\ inject_Z z <= 2 ^ 53).
  { rewrite <- inject_pow53, <- inject_Z_opp, <- !Zle_Qle. lia. }
  destruct (round64_between (inject_Z z) (inject_Z z) x) as [R [B1 B2]];
    try (apply grid_int; exact Hz); try lra.
  rewrite R. f_equal.
  rewrite <- rne64_canon, <- Qred_inject_Z.
  apply Qred_complete. lra.
Qed.

Lemma Qfloor_unique (x : Q) (k : Z) :
  inject_Z k <= x -> x < inject_Z k + 1 -> Qfloor x = k.
Proof.
  intros Hlo Hhi.
  pose proof (Qfloor_le x) as F1.
  pose proof (Qlt_floor x) as F2.
  rewrite inject_Z_plus in F2. change (inject_Z 1) with 1 in F2.
  assert (A : (Qfloor x < k + 1)%Z).
  { rewrite Zlt_Qlt, inject_Z_plus. change (inject_Z 1) with 1. lra. }
  assert (B : (k < Qfloor x + 1)%Z).
  { rewrite Zlt_Qlt, inject_Z_plus. change (inject_Z 1) with 1. lra. }
  lia.
Qed.

(** A multiple of [c] below a multiple of [c] stays [c] away from it. *)
Lemma mod_multiple_gap (t c : Z) :
  (0 < c)%Z -> (c | t)%Z -> (c | 10000)%Z ->
  (t mod 10000 <= 10000 - c)%Z.
Proof.
  intros Hc Ht H10.
  pose proof (Z.mod_pos_bound t 10000 ltac:(lia)) as Hm.
  assert (Hd : (c | t mod 10000)%Z).
  { rewrite Z.mod_eq by lia. apply Z.divide_sub_r; [exact Ht|].
    apply Z.divide_mul_l. exact H10. }
  destruct Hd as [b Hb]. destruct H10 as [q Hq].
  rewrite Hb in Hm |- *.
  assert (b < q)%Z by nia.
  nia.
Qed.

Lemma grid_below (k e : Z) :
  (0 <= e <= 1074)%Z -> (0 <= k)%Z -> ((k + 1) * 2 ^ e <= 2 ^ 53)%Z ->
  double_grid (inject_Z (k + 1) - 2 ^ (- e)).
Proof.
  intros He Hk Hb. exists ((k + 1) * 2 ^ e - 1)%Z, (- e)%Z.
  split; [|split; [lia|]].
  - assert (0 < 2 ^ e)%Z by (apply Z.pow_pos_nonneg; lia). nia.
  - unfold Z.sub. rewrite (inject_Z_plus (_ * _)), inject_Z_mult, inject_Z_opp.
    rewrite pow2_inject by lia. change (inject_Z 1) with 1.
    rewrite Qpower_opp.
    pose proof (pow2_pos e). field. lra.
Qed.

(** The division by 10000 of a tick count that is a multiple of [2 ^ j],
    [j <= 4], and below [10000 * 2 ^ (40 + j)], floors to the integer
    quotient. *)
Lemma floor_div_10000_multiple (t j : Z) :
  (0 <= j <= 4)%Z -> (0 <= t < 10000 * 2 ^ (40 + j))%Z -> (2 ^ j | t)%Z ->
  floor (div (of_Z t) (of_Z 10000)) = of_Z (t / 10000).
Proof.
  intros Hj Ht Hdiv. unfold div, of_Z.
  change (is_zero (inject_Z 10000)) with false. cbv iota.
  set (x := inject_Z t / inject_Z 10000).
  set (k := (t / 10000)%Z).
  pose proof (Z.div_mod t 10000 ltac:(lia)) as Hdm.
  pose proof (Z.mod_pos_bound t 10000 ltac:(lia)) as Hm.
  fold k in Hdm.
  assert (Hk : (0 <= k < 2 ^ (40 + j))%Z).
  { subst k. split; [apply Z.div_pos; lia|].
    apply Z.div_lt_upper_bound; lia. }
  assert (Hx : 10000 * x == 10000 * inject_Z k + inject_Z (t mod 10000)).
  { subst x. rewrite Hdm at 1.
    rewrite inject_Z_plus, inject_Z_mult.
    change (inject_Z 10000) with (10000 # 1). field. }
  assert (Hk1 : inject_Z (k + 1) == inject_Z k + 1).
  { rewrite inject_Z_plus. reflexivity. }
  assert (Hk0 : 0 <= inject_Z k).
  { change 0 with (inject_Z 0). rewrite <- Zle_Qle. lia. }
  assert (P44 : (2 ^ (40 + j) <= 2 ^ 44)%Z).
  { apply Z.pow_le_mono_r; lia. }
  assert (Hk53 : inject_Z k + 1 <= 2 ^ 53).
  { rewrite <- Hk1, <- inject_pow53, <- Zle_Qle. lia. }
  assert (Hm0 : 0 <= inject_Z (t mod 10000)).
  { change 0 with (inject_Z 0). rewrite <- Zle_Qle. lia. }
  destruct (round64_between (inject_Z k) (inject_Z (k + 1)) x)
    as [R [B1 B2]]; try (apply grid_int; lia); try lra.
  { split; [lra|]. rewrite Hk1.
    assert (inject_Z (t mod 10000) <= 10000).
    { change 10000 with (inject_Z 10000). rewrite <- Zle_Qle. lia. }
    lra. }
  assert (G : double_grid (inject_Z (k + 1) - 2 ^ (- (13 - j)))).
  { apply grid_below; [lia | lia |].
    replace (2 ^ 53)%Z with (2 ^ (40 + j) * 2 ^ (13 - j))%Z
      by (rewrite <- Z.pow_add_r by lia; f_equal; lia).
    apply Z.mul_le_mono_nonneg_r; [apply Z.pow_nonneg; lia | lia]. }
  pose proof (rne64_nearest x _ G) as N.
  rewrite R. unfold floor, of_Z. do 2 f_equal.
  apply Qfloor_unique; [exact B1|].
  assert (Hgap : (t mod 10000 <= 10000 - 2 ^ j)%Z).
  { apply mod_multiple_gap; [apply Z.pow_pos_nonneg; lia | exact Hdiv |].
    exists (10000 / 2 ^ j)%Z.
    assert (C : j = 0%Z \/ j = 1%Z \/ j = 2%Z \/ j = 3%Z \/ j = 4%Z) by lia.
    destruct C as [-> | [-> | [-> | [-> | ->]]]]; reflexivity. }
  rewrite Zle_Qle in Hgap. unfold Z.sub in Hgap. rewrite inject_Z_plus, inject_Z_opp in Hgap.
  revert N Hgap. rewrite Hk1.
  assert (C : j = 0%Z \/ j = 1%Z \/ j = 2%Z \/ j = 3%Z \/ j = 4%Z) by lia.
  change (inject_Z 10000) with (10000 # 1).
  destruct C as [-> | [-> | [-> | [-> | ->]]]];
    repeat match goal with
      | |- context [Qpower 2 ?e] =>
          let v := eval vm_compute in (Qpower 2 e) in
          change (Qpower 2 e) with v
      | |- context [inject_Z (Z.pow 2 ?e)] =>
          let v := eval vm_compute in (inject_Z (Z.pow 2 e)) in
          change (inject_Z (Z.pow 2 e)) with v
      end;
    intros N Hgap; revert N;
    apply Qabs_case; intros; revert N; apply Qabs_case; intros; lra.
Qed.

Lemma double_int_divisible (t i : Z) :
  is_double_int t -> (0 <= i)%Z -> (2 ^ (53 + i) < t)%Z ->
  (2 ^ (i + 1) | t)%Z.
Proof.
  intros (m & j & Hj & Hm & ->) Hi Hlt.
  assert (Hji : (i < j)%Z).
  { destruct (Z_lt_le_dec i j) as [L | L]; [exact L | exfalso].
    assert (2 ^ j <= 2 ^ i)%Z by (apply Z.pow_le_mono_r; lia).
    assert (0 < 2 ^ j)%Z by (apply Z.pow_pos_nonneg; lia).
    rewrite Z.pow_add_r in Hlt by lia. nia. }
  exists (m * 2 ^ (j - (i + 1)))%Z.
  rewrite <- Z.mul_assoc, <- Z.pow_add_r by lia. do 2 f_equal. lia.
Qed.

Lemma floor_div_10000_double (t : Z) :
  (0 <= t < 10000 * 2 ^ 44)%Z -> is_double_int t ->
  floor (div (of_Z t) (of_Z 10000)) = of_Z (t / 10000).
Proof.
  intros Ht Hd.
  destruct (Z_lt_le_dec t (10000 * 2 ^ 40)) as [L0 | L0].
  { apply (floor_div_10000_multiple t 0); [lia | lia |]. apply Z.divide_1_l. }
  destruct (Z_lt_le_dec t (10000 * 2 ^ 41)) as [L1 | L1].
  { apply (floor_div_10000_multiple t 1); [lia | lia |].
    apply (double_int_divisible t 0 Hd); lia. }
  destruct (Z_lt_le_dec t (10000 * 2 ^ 42)) as [L2 | L2].
  { apply (floor_div_10000_multiple t 2); [lia | lia |].
    apply (double_int_divisible t 1 Hd); lia. }
  destruct (Z_lt_le_dec t (10000 * 2 ^ 43)) as [L3 | L3].
  { apply (floor_div_10000_multiple t 3); [lia | lia |].
    apply (double_int_divisible t 2 Hd); lia. }
  apply (floor_div_10000_multiple t 4); [lia | lia |].
  apply (double_int_divisible t 3 Hd); lia.
Qed.

Lemma small_is_double_int (t : Z) : (Z.abs t <= 2 ^ 53)%Z -> is_double_int t.
Proof. intros H. exists t, 0%Z. repeat split; [lia | exact H | lia]. Qed.

(** In particular for every tick count below 2^53. *)
Lemma floor_div_10000 (t : Z) :
  (0 <= t < 2 ^ 53)%Z ->
  floor (div (of_Z t) (of_Z 10000)) = of_Z (t / 10000).
Proof.
  intros Ht. apply floor_div_10000_double; [lia|].
  apply small_is_double_int. lia.
Qed.

Lemma percent_range (p d : Q) :
  0 <= p <= d -> 0 < d ->
  exists z : Z,
    round (mul (div (Fin p) (Fin d)) (of_Z 100)) = of_Z z /\ (0 <= z <= 100)%Z.
Proof.
  intros [Hp Hpd] Hd. unfold div.
  assert (Hz : is_zero d = false).
  { unfold is_zero. destruct (Qeq_bool d 0) eqn:E; [|reflexivity].
    apply Qeq_bool_iff in E. lra. }
  rewrite Hz.
  assert (Hx : 0 <= p / d <= 1).
  { split.
    - apply Qle_shift_div_l; lra.
    - apply Qle_shift_div_r; lra. }
  pose proof inject_pow53 as P53.
  assert (P53' : 100 <= 2 ^ 53).
  { rewrite <- P53. change 100 with (inject_Z 100). rewrite <- Zle_Qle. lia. }
  destruct (round64_between (inject_Z 0) (inject_Z 1) (p / d))
    as [R [B1 B2]]; try (apply grid_int; lia);
    try (change (inject_Z 0) with 0; change (inject_Z 1) with 1; lra).
  change (inject_Z 0) with 0 in B1. change (inject_Z 1) with 1 in B2.
  rewrite R. unfold mul, of_Z.
  set (r1 := rne64 (p / d)) in *.
  destruct (round64_between (inject_Z 0) (inject_Z 100) (r1 * inject_Z 100))
    as [R2 [C1 C2]]; try (apply grid_int; lia);
    try (change (inject_Z 0) with 0; change (inject_Z 100) with 100; lra).
  rewrite R2. unfold round.
  set (r2 := rne64 (r1 * inject_Z 100)) in *. clearbody r2.
  change (inject_Z 0) with 0 in C1. change (inject_Z 100) with 100 in C2.
  exists (Qfloor (r2 + (1 # 2))). split; [reflexivity|].
  split.
  - change 0%Z with (Qfloor 0). apply Qfloor_resp_le. lra.
  - change 100%Z with (Qfloor (100 + (1 # 2))). apply Qfloor_resp_le. lra.
Qed.



End NumberFacts.

(* ===================================================================== *)
(** * Facts about the plugin *)
(* ===================================================================== *)

Module PluginFacts.

Import Number NumberFacts JS Eff Plugin Spec.
Local Open Scope string_scope.

(** Peel one [let*] whose result is known to be [Normal]. *)
Ltac bindc_inv :=
  match goal with
  | H : Throw _ = Normal _ |- _ => discriminate H
  | H : Normal _ = Normal _ |- _ => injection H as H
  | H : bindc ?c _ = Normal _ |- _ =>
      let v := fresh "v" in
      let E := fresh "E" in
      destruct c as [v | ?] eqn:E; cbn [bindc] in H; [| discriminate H]
  end.

(** Peel the next [let*], naming its value and its equation. *)
Tactic Notation "bindc_as" hyp(H) ident(v) ident(E) :=
  match type of H with
  | bindc ?c _ = Normal _ =>
      destruct c as [v | ?] eqn:E; cbn [bindc] in H; [| discriminate H]
  end.

Section AdapterFacts.

Variable rt : Runtime.
Variable settings : Settings.
Variable world : World.

Lemma Jellyfin_baseData_no_variant item playState base :
  Jellyfin_baseData rt settings item playState = Normal base ->
  no_variant base.
Proof.
  unfold Jellyfin_baseData. intros H.
  repeat bindc_inv. subst base. repeat split.
Qed.

Lemma Plex_baseData_no_variant session base :
  Plex_baseData rt settings session = Normal base -> no_variant base.
Proof.
  unfold Plex_baseData. intros H.
  repeat bindc_inv. subst base. repeat split.
Qed.

Lemma Jellyfin_variant_ok base item md :
  no_variant base ->
  Jellyfin_variant base item = Normal md ->
  variant_ok md /\ progress md = progress base /\ type md = type base
  /\ duration md = duration base /\ position md = position base.
Proof.
  intros (S1 & S2 & S3 & A1 & A2 & A3 & P1). unfold Jellyfin_variant.
  destruct (type base) eqn:T; intros H; repeat bindc_inv; subst md;
    cbn; rewrite ?T; (split; [|auto]);
    unfold variant_ok; cbn; rewrite ?T;
    repeat split; intros; try congruence.
Qed.

Lemma Plex_variant_ok base session md :
  no_variant base ->
  Plex_variant base session = Normal md ->
  variant_ok md /\ progress md = progress base /\ type md = type base
  /\ duration md = duration base /\ position md = position base.
Proof.
  intros (S1 & S2 & S3 & A1 & A2 & A3 & P1). unfold Plex_variant.
  destruct (type base) eqn:T; intros H; repeat bindc_inv; subst md;
    cbn; rewrite ?T; (split; [|auto]);
    unfold variant_ok; cbn; rewrite ?T;
    repeat split; intros; try congruence.
Qed.

(** An adapter never throws and touches neither the dispatcher nor the
    clock. *)
Lemma fetchJellyfinData_run (D : Type) (s : effects D) :
  exists r s',
    fetchJellyfinData rt settings world s = (s', Normal r) /\
    dispatched s' = dispatched s /\ clock_reads s' = clock_reads s /\
    (forall md, r = Some md ->
                Jellyfin_try rt settings world = Normal (Some md) /\ s' = s).
Proof.
  unfold fetchJellyfinData.
  destruct (negb (setting_truthy (serverUrl settings))
            || negb (setting_truthy (apiKey settings))).
  - exists None, s. cbn. repeat split; congruence.
  - unfold try_catch, lift.
    destruct (Jellyfin_try rt settings world) as [r | e] eqn:E.
    + exists r, s. repeat split; congruence.
    + eexists None, _. cbn. repeat split; congruence.
Qed.

Lemma fetchPlexData_run (D : Type) (s : effects D) :
  exists r s',
    fetchPlexData rt settings world s = (s', Normal r) /\
    dispatched s' = dispatched s /\ clock_reads s' = clock_reads s /\
    (forall md, r = Some md ->
                Plex_try rt settings world = Normal (Some md) /\ s' = s).
Proof.
  unfold fetchPlexData.
  destruct (negb (setting_truthy (serverUrl settings))
            || negb (setting_truthy (apiKey settings))).
  - exists None, s. cbn. repeat split; congruence.
  - unfold try_catch, lift.
    destruct (Plex_try rt settings world) as [r | e] eqn:E.
    + exists r, s. repeat split; congruence.
    + eexists None, _. cbn. repeat split; congruence.
Qed.

Lemma percent_progress_ok position duration v :
  truthy duration = true ->
  percent rt position duration = Normal v ->
  progress_ok position duration v.
Proof.
  intros Ht Hp. split; [congruence|].
  intros p d -> -> Hpd Hd. unfold percent in Hp.
  cbn [ToNumber bindc] in Hp. injection Hp as <-.
  destruct (percent_range p d Hpd Hd) as (z & Hz & Hr).
  exists z. split; [unfold VInt; f_equal; exact Hz | exact Hr].
Qed.

Lemma Jellyfin_baseData_fields item playState base :
  Jellyfin_baseData rt settings item playState = Normal base ->
  exists runTimeTicks positionTicks,
    get item "RunTimeTicks" = Normal runTimeTicks /\
    get playState "PositionTicks" = Normal positionTicks /\
    progress_ok positionTicks runTimeTicks (progress base) /\
    (if truthy runTimeTicks
     then toMs rt runTimeTicks = Normal (duration base)
     else duration base = VUndef) /\
    (if truthy positionTicks
     then toMs rt positionTicks = Normal (position base)
     else position base = VUndef).
Proof.
  unfold Jellyfin_baseData. intros H.
  bindc_as H title_ Etitle. bindc_as H ty Ety. bindc_as H type_ Etype.
  bindc_as H rtt Ertt. bindc_as H progress_ Eprog.
  bindc_as H isPaused_ Eip. bindc_as H imageTags Eit.
  bindc_as H primary Epr. bindc_as H imageUrl_ Eiu.
  bindc_as H duration_ Edur. bindc_as H pt Ept.
  bindc_as H position_ Epos. bindc_as H year_ Ey.
  injection H as <-. cbn [progress duration position].
  exists rtt, pt. split; [reflexivity|]. split; [reflexivity|].
  cbn [bindc] in Eprog.
  split; [|split].
  - destruct (truthy rtt) eqn:T.
    + apply percent_progress_ok; assumption.
    + injection Eprog as <-. split; [reflexivity|].
      intros p d _ -> _ Hd. cbn in T. unfold is_zero in T.
      destruct (Qeq_bool d 0) eqn:Ez; [|discriminate].
      apply Qeq_bool_iff in Ez. lra.
  - destruct (truthy rtt); [assumption | congruence].
  - destruct (truthy pt); [assumption | congruence].
Qed.

Lemma Plex_baseData_fields session base :
  Plex_baseData rt settings session = Normal base ->
  exists duration_ viewOffset,
    get session "duration" = Normal duration_ /\
    get session "viewOffset" = Normal viewOffset /\
    progress_ok viewOffset duration_ (progress base) /\
    duration base = duration_ /\ position base = viewOffset.
Proof.
  unfold Plex_baseData. intros H.
  bindc_as H title_ Etitle. bindc_as H ty Ety. bindc_as H type_ Etype.
  bindc_as H dur Edur. bindc_as H progress_ Eprog.
  bindc_as H player Epl. bindc_as H player_state Est.
  bindc_as H thumb Eth. bindc_as H imageUrl_ Eiu.
  bindc_as H vo Evo. bindc_as H year_ Ey. bindc_as H studio_ Estu.
  injection H as <-. cbn [progress duration position].
  exists dur, vo. repeat split; try reflexivity.
  - intros T. rewrite T in Eprog. congruence.
  - intros p d -> -> Hpd Hd.
    assert (T : truthy (VNum (Fin d)) = true).
    { cbn. unfold is_zero. destruct (Qeq_bool d 0) eqn:Ez; [|reflexivity].
      apply Qeq_bool_iff in Ez. lra. }
    rewrite T in Eprog. cbn [bindc] in Eprog.
    destruct (percent_progress_ok _ _ _ T Eprog) as [_ R].
    now apply (R p d).
Qed.

Lemma Jellyfin_try_Some md :
  Jellyfin_try rt settings world = Normal (Some md) ->
  exists playingSession item playState base,
    Jellyfin_playingSession settings world = Normal playingSession /\
    truthy playingSession = true /\
    get playingSession "NowPlayingItem" = Normal item /\
    get playingSession "PlayState" = Normal playState /\
    Jellyfin_baseData rt settings item playState = Normal base /\
    Jellyfin_variant base item = Normal md.
Proof.
  unfold Jellyfin_try. intros H.
  bindc_as H ps Eps.
  destruct (truthy ps) eqn:T; [|discriminate]. cbn [negb] in H.
  bindc_as H item Eitem. bindc_as H playState Epl.
  bindc_as H base Ebase. bindc_as H result Eres.
  injection H as ->. now exists ps, item, playState, base.
Qed.

Lemma Plex_try_Some md :
  Plex_try rt settings world = Normal (Some md) ->
  exists session base,
    Plex_session settings world = Normal session /\
    truthy session = true /\
    Plex_baseData rt settings session = Normal base /\
    Plex_variant base session = Normal md.
Proof.
  unfold Plex_try. intros H.
  bindc_as H session Es.
  destruct (truthy session) eqn:T; [|discriminate]. cbn [negb] in H.
  bindc_as H base Ebase. bindc_as H result Eres.
  injection H as ->. now exists session, base.
Qed.

(** [find] over sessions none of which is playing: [undefined], or the
    [TypeError] of a [null] entry. *)
Lemma find_first_none (l : list value) :
  Forall (fun s => forall v, get s "NowPlayingItem" = Normal v ->
                             truthy v = false) l ->
  find_first (fun s => get s "NowPlayingItem") l = Normal VUndef \/
  exists e, find_first (fun s => get s "NowPlayingItem") l = Throw e.
Proof.
  induction 1 as [| s l Hs _ IH]; cbn [find_first]; [now left|].
  destruct (get s "NowPlayingItem") as [v | e] eqn:G; cbn [bindc].
  - rewrite (Hs v eq_refl). exact IH.
  - right. now exists e.
Qed.

Lemma Jellyfin_playingSession_inv ps :
  Jellyfin_playingSession settings world = Normal ps ->
  exists req resp sessions,
    fetch world req = Normal resp /\ ok resp = true /\
    json resp = Normal sessions /\
    array_find (fun s => get s "NowPlayingItem") sessions = Normal ps.
Proof.
  unfold Jellyfin_playingSession. intros H.
  match type of H with
  | bindc (fetch world ?r) _ = _ => set (req := r) in *
  end.
  bindc_as H resp Er.
  destruct (ok resp) eqn:Ok; [|discriminate]. cbn [negb] in H.
  bindc_as H sessions Ej.
  now exists req, resp, sessions.
Qed.

Lemma Plex_session_inv session :
  Plex_session settings world = Normal session ->
  exists req resp data mediaContainer metadata,
    fetch world req = Normal resp /\ ok resp = true /\
    json resp = Normal data /\
    get data "MediaContainer" = Normal mediaContainer /\
    get mediaContainer "Metadata" = Normal metadata /\
    get_index0_opt metadata = Normal session.
Proof.
  unfold Plex_session. intros H.
  match type of H with
  | bindc (fetch world ?r) _ = _ => set (req := r) in *
  end.
  bindc_as H resp Er.
  destruct (ok resp) eqn:Ok; [|discriminate]. cbn [negb] in H.
  bindc_as H data Ej. bindc_as H mc Emc. bindc_as H md Emd.
  now exists req, resp, data, mc, md.
Qed.

End AdapterFacts.

(** An adapter whose [try] block yields no media data returns [null]. *)
Lemma fetchJellyfinData_None rt settings world (D : Type) (s : effects D) :
  (forall md, Jellyfin_try rt settings world <> Normal (Some md)) ->
  snd (fetchJellyfinData rt settings world s) = Normal None.
Proof.
  intros N.
  destruct (fetchJellyfinData_run rt settings world D s)
    as (r & s1 & R & _ & _ & Inv).
  rewrite R. cbn. destruct r as [md|]; [|reflexivity].
  destruct (Inv md eq_refl) as [T _]. now apply N in T.
Qed.

Lemma fetchPlexData_None rt settings world (D : Type) (s : effects D) :
  (forall md, Plex_try rt settings world <> Normal (Some md)) ->
  snd (fetchPlexData rt settings world s) = Normal None.
Proof.
  intros N.
  destruct (fetchPlexData_run rt settings world D s)
    as (r & s1 & R & _ & _ & Inv).
  rewrite R. cbn. destruct r as [md|]; [|reflexivity].
  destruct (Inv md eq_refl) as [T _]. now apply N in T.
Qed.

Lemma truthy_VInt (z : Z) : z <> 0%Z -> truthy (VInt z) = true.
Proof.
  intros Hz. cbn. unfold is_zero.
  destruct (Qeq_bool (inject_Z z) 0) eqn:E; [|reflexivity].
  apply Qeq_bool_iff in E. unfold Qeq in E. cbn in E. lia.
Qed.

Lemma to_Z_of_Z (z : Z) : Number.to_Z (Number.of_Z z) = Some z.
Proof.
  unfold Number.to_Z, Number.of_Z. rewrite Qfloor_Z.
  now rewrite Qeq_bool_refl.
Qed.

Lemma ToString_VInt rt (z : Z) :
  (Z.abs z < 2 ^ 53)%Z -> ToString rt (VInt z) = Normal (decimal z).
Proof.
  intros Hz. unfold VInt, ToString, NumberToString.
  change (Fin (inject_Z z)) with (Number.of_Z z).
  unfold Number.of_Z at 1. rewrite to_Z_of_Z.
  apply Z.ltb_lt in Hz. now rewrite Hz.
Qed.

Lemma digits_length (fuel : nat) (n : Z) (acc : string) :
  (String.length acc <= String.length (digits fuel n acc))%nat.
Proof.
  revert n acc. induction fuel as [| fuel IH]; intros n acc; cbn [digits].
  - lia.
  - destruct (n <? 10)%Z; cbn [String.length].
    + lia.
    + etransitivity; [|apply IH]. cbn [String.length]. lia.
Qed.

Lemma digits_length_S (fuel : nat) (n : Z) (acc : string) :
  (S (String.length acc) <= String.length (digits (S fuel) n acc))%nat.
Proof.
  cbn [digits]. destruct (n <? 10)%Z.
  - cbn [String.length]. lia.
  - etransitivity; [|apply digits_length]. cbn [String.length]. lia.
Qed.

Lemma padStart_long (s : string) :
  (2 <= String.length s)%nat -> padStart 2 "0" s = s.
Proof.
  intros H. unfold padStart.
  replace (2 - String.length s)%nat with 0%nat by lia. reflexivity.
Qed.

Lemma length_append (a b : string) :
  String.length (a ++ b) = (String.length a + String.length b)%nat.
Proof. induction a as [| c a IH]; cbn; [reflexivity | now rewrite IH]. Qed.

Lemma padStart_decimal (z : Z) : padStart 2 "0" (decimal z) = two_digits z.
Proof.
  unfold two_digits, decimal.
  destruct (z <? 0)%Z eqn:Neg.
  - apply Z.ltb_lt in Neg.
    replace (0 <=? z)%Z with false by (symmetry; apply Z.leb_gt; lia).
    cbn [andb]. apply padStart_long.
    rewrite length_append. cbn [String.length].
    pose proof (digits_length_S (Z.to_nat (Z.log2 (- z))) (- z) "").
    cbn [String.length] in *. lia.
  - apply Z.ltb_ge in Neg.
    replace (0 <=? z)%Z with true by (symmetry; apply Z.leb_le; lia).
    cbn [andb]. destruct (z <? 10)%Z eqn:Small.
    + cbn [digits]. rewrite Small. reflexivity.
    + apply Z.ltb_ge in Small. apply padStart_long.
      assert (L : (3 <= Z.log2 z)%Z).
      { change 3%Z with (Z.log2 8). apply Z.log2_le_mono. lia. }
      destruct (Z.to_nat (Z.log2 z)) as [| f] eqn:F; [lia|].
      cbn [digits].
      replace (z <? 10)%Z with false by (symmetry; apply Z.ltb_ge; lia).
      etransitivity; [|apply digits_length_S]. cbn [String.length]. lia.
Qed.

Lemma join_short rt (sep sep' : string) (parts : list value) :
  (List.length parts <= 1)%nat -> join rt sep parts = join rt sep' parts.
Proof.
  destruct parts as [| v [| w rest]]; cbn [List.length]; intros H;
    [reflexivity | reflexivity | lia].
Qed.

Section ControllerFacts.

Variable rt : Runtime.
Variable settings : Settings.
Variable world : World.

Lemma selectedAdapter_run (D : Type) (s : effects D) :
  exists r s',
    selectedAdapter rt settings world s = (s', Normal r) /\
    dispatched s' = dispatched s /\ clock_reads s' = clock_reads s.
Proof.
  unfold selectedAdapter. destruct (serverType settings).
  - destruct (fetchJellyfinData_run rt settings world D s)
      as (r & s1 & R & Hd & Hc & _). now exists r, s1.
  - destruct (fetchPlexData_run rt settings world D s)
      as (r & s1 & R & Hd & Hc & _). now exists r, s1.
Qed.

Lemma getTimestamps_run (md : MediaData) (s : effects Dispatch) :
  exists s' c,
    getTimestamps rt settings world md s = (s', c) /\
    dispatched s' = dispatched s /\
    match c with
    | Normal ts => timestamps_spec rt settings world (clock_reads s) md ts
    | Throw _ => True
    end.
Proof.
  unfold getTimestamps, timestamps_spec.
  destruct (showTimestamps settings && truthy (duration md)).
  - unfold bind, Date_now, lift, ret. cbn [clock_reads dispatched logged].
    change (VNum (Number.of_Z 0)) with (VInt 0).
    destruct (ToNumber rt (or_else (position md) (VInt 0))) as [p | e].
    + destruct (ToNumber rt (duration md)) as [d | e].
      * eexists _, _. split; [reflexivity|]. split; [reflexivity|].
        exists p, d. auto.
      * eexists _, _. split; [reflexivity|]. split; [reflexivity | exact I].
    + eexists _, _. split; [reflexivity|]. split; [reflexivity | exact I].
  - eexists _, _. split; [reflexivity|]. split; reflexivity.
Qed.

(** [publish] dispatches one activity, whose timestamps are the specified
    ones, or throws before dispatching anything. *)
Lemma publish_run (md : MediaData) (s : effects Dispatch) :
  (exists s' act,
      publish rt settings world md s = (s', Normal tt) /\
      dispatched s' = (dispatched s ++ [activity_update act])%list /\
      timestamps_spec rt settings world (clock_reads s) md (timestamps act)) \/
  (exists s' e,
      publish rt settings world md s = (s', Throw e) /\
      dispatched s' = dispatched s).
Proof.
  unfold publish, bind, lift.
  destruct (getTimestamps_run md s) as (s1 & c & R & Hd & Hts).
  rewrite R.
  destruct c as [ts | e];
    [|right; exists s1, e; split; [reflexivity | exact Hd]].
  destruct (getAssets settings world md) as [assets_ | e];
    [|right; exists s1, e; split; [reflexivity | exact Hd]].
  destruct (getDetails rt settings md) as [details_ | e];
    [|right; exists s1, e; split; [reflexivity | exact Hd]].
  destruct (getState rt md) as [state_ | e];
    [|right; exists s1, e; split; [reflexivity | exact Hd]].
  left. eexists _, _. split; [reflexivity|].
  cbn [dispatched timestamps]. rewrite Hd. split; [reflexivity | exact Hts].
Qed.

(** One poll dispatches exactly one payload: the clear signal, or the
    activity of the adapter's result when nothing hides it. *)
Lemma updatePresence_outcome (s : effects Dispatch) :
  dispatched (fst (updatePresence rt settings world s))
  = (dispatched s ++ [clear_signal])%list \/
  exists s1 md act,
    selectedAdapter rt settings world s = (s1, Normal (Some md)) /\
    truthy (isPaused md) && hideWhenPaused settings = false /\
    (hideWhenOtherActivity settings = true ->
     array_some other_activity (getActivities world) = Normal false) /\
    dispatched (fst (updatePresence rt settings world s))
    = (dispatched s ++ [activity_update act])%list /\
    timestamps_spec rt settings world (clock_reads s) md (timestamps act).
Proof.
  unfold updatePresence, try_catch, bind.
  destruct (selectedAdapter_run _ s) as (r & s1 & R & Hd & Hc).
  rewrite R. unfold present.
  destruct r as [md|]; [|left; cbn; now rewrite Hd].
  destruct (truthy (isPaused md) && hideWhenPaused settings) eqn:Hp;
    [left; cbn; now rewrite Hd|].
  unfold bind, lift, ret. fold other_activity.
  destruct (hideWhenOtherActivity settings) eqn:Ho.
  - destruct (array_some other_activity (getActivities world))
      as [[|] | e] eqn:A.
    + left. cbn. now rewrite Hd.
    + destruct (publish_run md s1) as [(s2 & act & P & Pd & Ts)
                                      | (s2 & e & P & Pd)]; rewrite P.
      * right. exists s1, md, act. rewrite Hd, Hc in *.
        repeat split; auto.
      * left. cbn. now rewrite Pd, Hd.
    + left. cbn. now rewrite Hd.
  - destruct (publish_run md s1) as [(s2 & act & P & Pd & Ts)
                                    | (s2 & e & P & Pd)]; rewrite P.
    + right. exists s1, md, act. rewrite Hd, Hc in *.
      repeat split; auto. discriminate.
    + left. cbn. now rewrite Pd, Hd.
Qed.

Lemma array_some_other (l : list value) (a id : value) :
  In a l -> get a "application_id" = Normal id ->
  strict_eq_string id DISCORD_APP_ID = false ->
  array_some other_activity l <> Normal false.
Proof.
  intros Hin G Hne. induction l as [| b l IH]; [contradiction|].
  cbn [array_some].
  destruct (other_activity b) as [[|] | e] eqn:O; cbn [bindc];
    try discriminate.
  destruct Hin as [-> | Hin]; [|now apply IH].
  unfold other_activity in O. rewrite G in O. cbn [bindc] in O.
  rewrite Hne in O. discriminate.
Qed.

End ControllerFacts.

End PluginFacts.

Module LifecycleFacts.

Import JS Eff Plugin Lifecycle.

Lemma filter_all_equal (id : positive) (l : list positive) :
  (forall t, In t l -> t = id) ->
  filter (fun t => negb (Pos.eqb t id)) l = [].
Proof.
  induction l as [| t l IH]; intros H; [reflexivity|].
  cbn [filter]. rewrite (H t (or_introl eq_refl)), Pos.eqb_refl. cbn [negb].
  apply IH. intros u Hu. apply H. now right.
Qed.

Lemma steps_quiescent rt settings (h : Host) (es : list event) (h' : Host) :
  timers h = [] -> in_flight h = 0%nat ->
  forallb by_host es = true ->
  steps rt settings h es = Some h' -> h' = h.
Proof.
  intros Ht Hf Hes Hsteps.
  destruct es as [| e es]; [now injection Hsteps as <-|].
  cbn [steps] in Hsteps.
  destruct e; cbn [forallb by_host andb] in Hes; try discriminate;
    cbn [step] in Hsteps.
  - rewrite Ht in Hsteps. discriminate.
  - rewrite Hf in Hsteps. discriminate.
Qed.

End LifecycleFacts.

(* ===================================================================== *)
(** * The properties of the plugin *)
(* ===================================================================== *)

Import Number NumberFacts JS Eff Plugin Spec PluginFacts Sample.
Local Open Scope string_scope.

(** [Number.div] and the processor's binary64 division agree on the sample
    operands, among them the tick count used below. *)
Example div_agrees_with_hardware :
  forallb agrees_with_hardware division_samples = true.
Proof. vm_compute. reflexivity. Qed.

(** ** C1: progress *)

(** C1, as amended.  Whatever media data an adapter returns, its [progress]
    is absent when the duration it was computed from is falsy (zero or
    missing), so nothing is divided by zero; and it is an integer from 0 to
    100 when position and duration are numbers with
    [0 <= position <= duration].  The position and the duration are those
    of the session the adapter picked: [PositionTicks] and [RunTimeTicks]
    for Jellyfin, [viewOffset] and [duration] for Plex. *)
Theorem C1_progress_within_duration
  (rt : Runtime) (settings : Settings) (world : World)
  (s s' : effects Dispatch) (md : MediaData) :
  (fetchJellyfinData rt settings world s = (s', Normal (Some md)) ->
   exists playingSession item playState runTimeTicks positionTicks,
     Jellyfin_playingSession settings world = Normal playingSession /\
     get playingSession "NowPlayingItem" = Normal item /\
     get playingSession "PlayState" = Normal playState /\
     get item "RunTimeTicks" = Normal runTimeTicks /\
     get playState "PositionTicks" = Normal positionTicks /\
     progress_ok positionTicks runTimeTicks (progress md)) /\
  (fetchPlexData rt settings world s = (s', Normal (Some md)) ->
   exists session duration_ viewOffset,
     Plex_session settings world = Normal session /\
     get session "duration" = Normal duration_ /\
     get session "viewOffset" = Normal viewOffset /\
     progress_ok viewOffset duration_ (progress md)).
Proof.
  split; intros H.
  - destruct (fetchJellyfinData_run rt settings world _ s)
      as (r & s1 & R & _ & _ & Inv).
    rewrite R in H. injection H as _ ->.
    destruct (Inv md eq_refl) as [T _].
    apply Jellyfin_try_Some in T.
    destruct T as (ps & item & playState & base & P & _ & I & Pl & B & V).
    pose proof (Jellyfin_baseData_no_variant _ _ _ _ _ B) as NV.
    destruct (Jellyfin_variant_ok base item md NV V) as (_ & Pr & _).
    destruct (Jellyfin_baseData_fields _ _ _ _ _ B)
      as (rtt & pt & G1 & G2 & Ok & _).
    exists ps, item, playState, rtt, pt. rewrite Pr. auto 10.
  - destruct (fetchPlexData_run rt settings world _ s)
      as (r & s1 & R & _ & _ & Inv).
    rewrite R in H. injection H as _ ->.
    destruct (Inv md eq_refl) as [T _].
    apply Plex_try_Some in T.
    destruct T as (session & base & P & _ & B & V).
    pose proof (Plex_baseData_no_variant _ _ _ _ B) as NV.
    destruct (Plex_variant_ok base session md NV V) as (_ & Pr & _).
    destruct (Plex_baseData_fields _ _ _ _ B)
      as (d & vo & G1 & G2 & Ok & _).
    exists session, d, vo. rewrite Pr. auto 10.
Qed.

(** Half way through the movie, both adapters report 50. *)
Lemma C1_progress_within_duration_witness :
  percentage (progress heat) /\
  fetchPlexData runtime (config PLEX) watching_plex initial
  = (initial (D := Dispatch), Normal (Some heat)).
Proof.
  assert (J : fetchJellyfinData runtime (config JELLYFIN) watching initial
              = (initial (D := Dispatch), Normal (Some heat)))
    by (vm_compute; reflexivity).
  assert (P : fetchPlexData runtime (config PLEX) watching_plex initial
              = (initial (D := Dispatch), Normal (Some heat)))
    by (vm_compute; reflexivity).
  split; [|exact P].
  destruct (proj1 (C1_progress_within_duration
                     runtime (config JELLYFIN) watching initial initial heat) J)
    as (ps & item & playState & rtt & pt & H1 & H2 & H3 & H4 & H5 & _ & Ok).
  vm_compute in H1. injection H1 as <-.
  vm_compute in H2. injection H2 as <-.
  vm_compute in H3. injection H3 as <-.
  vm_compute in H4. injection H4 as <-.
  vm_compute in H5. injection H5 as <-.
  apply (Ok (inject_Z 25000000) (inject_Z 50000000));
    [reflexivity | reflexivity | split; discriminate | reflexivity].
Defined.

(** C1 as stated fails: a position beyond the duration (which the server
    may report) gives a progress above 100. *)
Lemma C1_counterexample_position_beyond_duration :
  fetchJellyfinData runtime (config JELLYFIN) overrun initial
  = (initial (D := Dispatch), Normal (Some heat_overrun)) /\
  progress heat_overrun = VInt 200 /\
  ~ percentage (progress heat_overrun).
Proof.
  split; [vm_compute; reflexivity|]. split; [reflexivity|].
  intros (z & E & Hz). cbn in E. injection E as E. lia.
Qed.

(** ** C2: the adapters never throw *)

(** C2.  For every configuration, server and state of the effects, each
    adapter completes normally, with media data or [null] ([None]); it
    returns [null] at once when the server URL or the credential is unset,
    [null] when the request fails or the response is not successful, [null]
    when the body does not parse, and [null] when no session is active. *)
Theorem C2_adapters_return_data_or_null
  (rt : Runtime) (settings : Settings) (world : World)
  (s : effects Dispatch) :
  (exists r s', fetchJellyfinData rt settings world s = (s', Normal r)) /\
  (exists r s', fetchPlexData rt settings world s = (s', Normal r)) /\
  (setting_truthy (serverUrl settings) = false \/
   setting_truthy (apiKey settings) = false ->
   fetchJellyfinData rt settings world s = (s, Normal None) /\
   fetchPlexData rt settings world s = (s, Normal None)) /\
  ((forall req resp, fetch world req = Normal resp -> ok resp = false) ->
   snd (fetchJellyfinData rt settings world s) = Normal None /\
   snd (fetchPlexData rt settings world s) = Normal None) /\
  ((forall req resp, fetch world req = Normal resp ->
                     exists e, json resp = Throw e) ->
   snd (fetchJellyfinData rt settings world s) = Normal None /\
   snd (fetchPlexData rt settings world s) = Normal None) /\
  ((forall req resp sessions,
       fetch world req = Normal resp -> json resp = Normal sessions ->
       no_session_playing sessions) ->
   snd (fetchJellyfinData rt settings world s) = Normal None) /\
  ((forall req resp data,
       fetch world req = Normal resp -> json resp = Normal data ->
       no_metadata_entry data) ->
   snd (fetchPlexData rt settings world s) = Normal None).
Proof.
  split; [|split; [|split; [|split; [|split; [|split]]]]].
  - destruct (fetchJellyfinData_run rt settings world _ s) as (r & s1 & R & _).
    now exists r, s1.
  - destruct (fetchPlexData_run rt settings world _ s) as (r & s1 & R & _).
    now exists r, s1.
  - intros U. unfold fetchJellyfinData, fetchPlexData.
    assert (E : negb (setting_truthy (serverUrl settings))
                || negb (setting_truthy (apiKey settings)) = true).
    { destruct U as [-> | ->]; cbn; [reflexivity | apply orb_true_r]. }
    rewrite E. split; reflexivity.
  - intros F. split.
    + apply fetchJellyfinData_None. intros md T.
      apply Jellyfin_try_Some in T. destruct T as (ps & _ & _ & _ & P & _).
      apply Jellyfin_playingSession_inv in P.
      destruct P as (req & resp & _ & Fr & Ok & _).
      rewrite (F req resp Fr) in Ok. discriminate.
    + apply fetchPlexData_None. intros md T.
      apply Plex_try_Some in T. destruct T as (session & _ & P & _).
      apply Plex_session_inv in P.
      destruct P as (req & resp & _ & _ & _ & Fr & Ok & _).
      rewrite (F req resp Fr) in Ok. discriminate.
  - intros F. split.
    + apply fetchJellyfinData_None. intros md T.
      apply Jellyfin_try_Some in T. destruct T as (ps & _ & _ & _ & P & _).
      apply Jellyfin_playingSession_inv in P.
      destruct P as (req & resp & sessions & Fr & _ & J & _).
      destruct (F req resp Fr) as [e He]. congruence.
    + apply fetchPlexData_None. intros md T.
      apply Plex_try_Some in T. destruct T as (session & _ & P & _).
      apply Plex_session_inv in P.
      destruct P as (req & resp & data & _ & _ & Fr & _ & J & _).
      destruct (F req resp Fr) as [e He]. congruence.
  - intros F. apply fetchJellyfinData_None. intros md T.
    apply Jellyfin_try_Some in T.
    destruct T as (ps & _ & _ & _ & P & Tr & _).
    apply Jellyfin_playingSession_inv in P.
    destruct P as (req & resp & sessions & Fr & _ & J & A).
    destruct (F req resp sessions Fr J) as (l & -> & All).
    cbn [array_find] in A.
    destruct (find_first_none l All) as [N | [e N]]; rewrite N in A.
    + injection A as <-. discriminate.
    + discriminate.
  - intros F. apply fetchPlexData_None. intros md T.
    apply Plex_try_Some in T. destruct T as (session & _ & P & Tr & _).
    apply Plex_session_inv in P.
    destruct P as (req & resp & data & mc & mt & Fr & _ & J & G1 & G2 & G3).
    rewrite (F req resp data Fr J mc mt session G1 G2 G3) in Tr. discriminate.
Qed.

(** An unset URL, a 401, a body that does not parse, and two answers without
    an active session: [null] each time. *)
Lemma C2_adapters_return_data_or_null_witness :
  fetchJellyfinData runtime unconfigured watching initial
  = (initial (D := Dispatch), Normal None) /\
  snd (fetchJellyfinData runtime (config JELLYFIN) refusing
         (initial (D := Dispatch))) = Normal None /\
  snd (fetchPlexData runtime (config PLEX) garbled
         (initial (D := Dispatch))) = Normal None /\
  snd (fetchJellyfinData runtime (config JELLYFIN) nothing_playing
         (initial (D := Dispatch))) = Normal None /\
  snd (fetchPlexData runtime (config PLEX) nothing_playing_plex
         (initial (D := Dispatch))) = Normal None.
Proof.
  split; [|split; [|split; [|split]]].
  - destruct (C2_adapters_return_data_or_null
                runtime unconfigured watching initial)
      as (_ & _ & Unset & _).
    apply Unset. left. reflexivity.
  - destruct (C2_adapters_return_data_or_null
                runtime (config JELLYFIN) refusing initial)
      as (_ & _ & _ & Refused & _).
    apply Refused.
    intros req resp H. vm_compute in H. injection H as <-. reflexivity.
  - destruct (C2_adapters_return_data_or_null
                runtime (config PLEX) garbled initial)
      as (_ & _ & _ & _ & Garbled & _).
    apply Garbled.
    intros req resp H. vm_compute in H. injection H as <-.
    exists SyntaxError. reflexivity.
  - destruct (C2_adapters_return_data_or_null
                runtime (config JELLYFIN) nothing_playing initial)
      as (_ & _ & _ & _ & _ & Idle & _).
    apply Idle.
    intros req resp sessions H J. vm_compute in H. injection H as <-.
    vm_compute in J. injection J as <-.
    eexists. split; [reflexivity|].
    repeat constructor. intros v G. vm_compute in G. now injection G as <-.
  - destruct (C2_adapters_return_data_or_null
                runtime (config PLEX) nothing_playing_plex initial)
      as (_ & _ & _ & _ & _ & _ & Idle).
    apply Idle.
    intros req resp data H J. vm_compute in H. injection H as <-.
    vm_compute in J. injection J as <-.
    intros mc mt session G1 G2 G3.
    vm_compute in G1. injection G1 as <-.
    vm_compute in G2. injection G2 as <-.
    vm_compute in G3. now injection G3 as <-.
Defined.

(** ** C3: a paused session is hidden *)

(** C3.  When [hideWhenPaused] is set and the adapter's result is paused
    (its [isPaused] is truthy, [true] in particular), the poll dispatches
    exactly one payload, the clear signal. *)
Theorem C3_paused_and_hidden_clears
  (rt : Runtime) (settings : Settings) (world : World)
  (s s1 : effects Dispatch) (md : MediaData) :
  hideWhenPaused settings = true ->
  selectedAdapter rt settings world s = (s1, Normal (Some md)) ->
  truthy (isPaused md) = true ->
  dispatched (fst (updatePresence rt settings world s))
  = (dispatched s ++ [clear_signal])%list.
Proof.
  intros Hh Ha Hp.
  destruct (updatePresence_outcome rt settings world s)
    as [C | (s2 & md' & act & A & P & _)]; [exact C|].
  rewrite Ha in A. injection A as _ <-.
  rewrite Hh, Hp in P. discriminate.
Qed.

Lemma C3_paused_and_hidden_clears_witness :
  dispatched (fst (updatePresence runtime (config JELLYFIN) watching_paused
                     initial))
  = [clear_signal].
Proof.
  eapply (C3_paused_and_hidden_clears
            runtime (config JELLYFIN) watching_paused initial).
  - reflexivity.
  - vm_compute. reflexivity.
  - reflexivity.
Defined.

(** ** C4: another activity hides the presence *)

(** C4.  When [hideWhenOtherActivity] is set and the presence store lists an
    activity whose [application_id] is not this plugin's, the poll
    dispatches exactly one payload, the clear signal, whatever the adapter
    returned. *)
Theorem C4_other_activity_clears
  (rt : Runtime) (settings : Settings) (world : World)
  (s : effects Dispatch) (a id : value) :
  hideWhenOtherActivity settings = true ->
  In a (getActivities world) ->
  get a "application_id" = Normal id ->
  strict_eq_string id DISCORD_APP_ID = false ->
  dispatched (fst (updatePresence rt settings world s))
  = (dispatched s ++ [clear_signal])%list.
Proof.
  intros Ho Hin G Hne.
  destruct (updatePresence_outcome rt settings world s)
    as [C | (s2 & md & act & _ & _ & O & _)]; [exact C|].
  exfalso. exact (array_some_other _ a id Hin G Hne (O Ho)).
Qed.

Lemma C4_other_activity_clears_witness :
  dispatched (fst (updatePresence runtime hiding_for_others gaming initial))
  = [clear_signal].
Proof.
  apply (C4_other_activity_clears
           runtime hiding_for_others gaming initial
           (VObj [("application_id", VStr "356875570916753438")])
           (VStr "356875570916753438")).
  - reflexivity.
  - left. reflexivity.
  - reflexivity.
  - reflexivity.
Defined.

(** ** C5: the state line *)

(** C5, as amended.  For media data whose title is a string and whose album
    title is absent or a string, [getState] returns the title for an Episode
    with a non-empty title, "from {albumTitle}" for Audio with a non-empty
    album title, and "Watching" otherwise, an Episode with an empty title
    and Audio with an empty album title included; apart from those two
    cases it is [buildState].  The list of parts never holds more than one
    entry, so the result does not depend on the separator.  The three
    examples evaluate as the specification says. *)
Theorem C5_state_line (rt : Runtime) (md : MediaData)
  (t : string) (a : option string) :
  title md = VStr t -> albumTitle md = optional a ->
  getState rt md
  = Normal (match type md with
            | EPISODE => if String.eqb t "" then "Watching" else t
            | AUDIO =>
                match a with
                | Some b => if String.eqb b "" then "Watching" else "from " ++ b
                | None => "Watching"
                end
            | _ => "Watching"
            end) /\
  ((type md = EPISODE -> t <> "") -> (type md = AUDIO -> a <> Some "") ->
   getState rt md = Normal (buildState (type md) t a)) /\
  (type md = EPISODE -> t <> "" -> getState rt md = Normal t) /\
  (forall b, type md = AUDIO -> a = Some b -> b <> "" ->
             getState rt md = Normal ("from " ++ b)) /\
  (type md <> EPISODE -> (type md = AUDIO -> a = None \/ a = Some "") ->
   getState rt md = Normal "Watching") /\
  (type md = EPISODE -> t = "" -> getState rt md = Normal "Watching") /\
  (forall parts,
      getState_parts rt md = Normal parts ->
      (List.length parts <= 1)%nat /\
      forall sep, join rt sep parts = join rt separator parts) /\
  getState rt (media EPISODE "Pilot" None) = Normal "Pilot" /\
  getState rt (media AUDIO "Come Together" (Some "Abbey Road"))
  = Normal "from Abbey Road" /\
  getState rt (media MOVIE "Heat" None) = Normal "Watching".
Proof.
  intros Ht Ha.
  assert (G : getState rt md
              = Normal (match type md with
                        | EPISODE => if String.eqb t "" then "Watching" else t
                        | AUDIO =>
                            match a with
                            | Some b =>
                                if String.eqb b "" then "Watching"
                                else "from " ++ b
                            | None => "Watching"
                            end
                        | _ => "Watching"
                        end)).
  { unfold getState, getState_parts. rewrite Ht, Ha.
    destruct (type md) eqn:T; cbn; try reflexivity.
    destruct a as [b|]; cbn; [|reflexivity].
    destruct (String.eqb b ""); reflexivity. }
  split; [exact G|]. split; [|split; [|split; [|split; [|split; [|split]]]]].
  - intros NT NA. rewrite G. unfold buildState.
    destruct (type md); try reflexivity.
    + destruct (String.eqb_spec t ""); [|reflexivity].
      now contradiction (NT eq_refl).
    + destruct a as [b|]; [|reflexivity].
      destruct (String.eqb_spec b ""); [|reflexivity].
      subst b. now contradiction (NA eq_refl).
  - intros T N. rewrite G, T.
    destruct (String.eqb_spec t ""); [contradiction | reflexivity].
  - intros b T -> N. rewrite G, T.
    destruct (String.eqb_spec b ""); [contradiction | reflexivity].
  - intros NE NA. rewrite G.
    destruct (type md); try reflexivity; try contradiction.
    destruct (NA eq_refl) as [-> | ->]; reflexivity.
  - intros T ->. rewrite G, T. reflexivity.
  - intros parts P.
    assert (L : (List.length parts <= 1)%nat).
    { unfold getState_parts in P.
      destruct (type md); try (injection P as <-; cbn; lia).
      destruct (truthy (albumTitle md)).
      - destruct (ToString rt (albumTitle md)); cbn in P; [|discriminate].
        injection P as <-. cbn. lia.
      - injection P as <-. cbn. lia. }
    split; [exact L|]. intros sep. now apply join_short.
  - repeat split; reflexivity.
Qed.

(** An episode titled "Pilot", a track of "Abbey Road", and a track whose
    album title is the empty string. *)
Lemma C5_state_line_witness :
  getState runtime (media EPISODE "Pilot" None) = Normal "Pilot" /\
  getState runtime (media AUDIO "Come Together" (Some "Abbey Road"))
  = Normal (buildState AUDIO "Come Together" (Some "Abbey Road")) /\
  getState runtime (media AUDIO "Come Together" (Some "")) = Normal "Watching".
Proof.
  split; [|split].
  - destruct (C5_state_line runtime (media EPISODE "Pilot" None) "Pilot" None
                eq_refl eq_refl) as (_ & _ & Episode & _).
    apply Episode; [reflexivity | discriminate].
  - destruct (C5_state_line runtime
                (media AUDIO "Come Together" (Some "Abbey Road"))
                "Come Together" (Some "Abbey Road") eq_refl eq_refl)
      as (_ & Spec & _).
    apply Spec; discriminate.
  - destruct (C5_state_line runtime (media AUDIO "Come Together" (Some ""))
                "Come Together" (Some "") eq_refl eq_refl)
      as (_ & _ & _ & _ & Fallback & _).
    apply Fallback; [discriminate | right; reflexivity].
Defined.

(** C5 as stated fails: for an Episode whose title is the empty string the
    list of parts is not empty and the specification's [buildState] is that
    title, but [getState] falls back to "Watching". *)
Lemma C5_counterexample_empty_title :
  getState runtime (media EPISODE "" None) = Normal "Watching" /\
  buildState EPISODE "" None = "" /\
  getState runtime (media EPISODE "" None)
  <> Normal (buildState EPISODE "" None).
Proof. repeat split; try reflexivity. discriminate. Qed.

(** ** C6: the episode label *)

(** C6.  [formatEpisodeNumber] returns the empty string whenever the season
    or the episode is falsy (missing or zero); for integer season and
    episode (printed in full, that is below 2^53 in magnitude) it is the
    label of the specification: "Season s Episode e", "SssEee" with both
    numbers padded to two digits, or "sxee" with the episode padded.  The
    five examples evaluate as the specification says. *)
Theorem C6_episode_label (rt : Runtime) (settings : Settings) :
  (forall season episode,
      truthy season = false \/ truthy episode = false ->
      formatEpisodeNumber rt settings season episode = Normal "") /\
  (forall s e : Z,
      (Z.abs s < 2 ^ 53)%Z -> (Z.abs e < 2 ^ 53)%Z ->
      formatEpisodeNumber rt settings (VInt s) (VInt e)
      = Normal (formatEpisodeLabel s e (episodeFormat settings))) /\
  (forall f, formatEpisodeNumber rt (with_format f) (VInt 0) (VInt 5) = Normal ""
             /\ formatEpisodeNumber rt (with_format f) (VInt 1) (VInt 0) = Normal ""
             /\ formatEpisodeNumber rt (with_format f) VUndef (VInt 5) = Normal ""
             /\ formatEpisodeNumber rt (with_format f) (VInt 1) VUndef = Normal "") /\
  formatEpisodeNumber rt (with_format SHORT) (VInt 1) (VInt 2) = Normal "S01E02" /\
  formatEpisodeNumber rt (with_format MINIMAL) (VInt 1) (VInt 2) = Normal "1x02" /\
  formatEpisodeNumber rt (with_format NATURAL) (VInt 1) (VInt 2)
  = Normal "Season 1 Episode 2".
Proof.
  assert (G : forall st (s e : Z),
             (Z.abs s < 2 ^ 53)%Z -> (Z.abs e < 2 ^ 53)%Z ->
             formatEpisodeNumber rt st (VInt s) (VInt e)
             = Normal (formatEpisodeLabel s e (episodeFormat st))).
  { intros st s e Hs He. unfold formatEpisodeNumber, formatEpisodeLabel.
    destruct (Z.eqb_spec s 0) as [-> | Ns]; [reflexivity|].
    destruct (Z.eqb_spec e 0) as [-> | Ne].
    { rewrite orb_true_r. reflexivity. }
    rewrite (truthy_VInt s Ns), (truthy_VInt e Ne). cbn [negb orb].
    unfold pad. rewrite !ToString_VInt by assumption. cbn [bindc].
    rewrite !padStart_decimal. destruct (episodeFormat st); reflexivity. }
  split; [|split; [|split; [|split; [|split]]]].
  - intros season episode [H | H]; unfold formatEpisodeNumber; rewrite H;
      [reflexivity | now rewrite orb_true_r].
  - intros s e. apply G.
  - intros f. repeat split; destruct f; reflexivity.
  - now rewrite G.
  - now rewrite G.
  - now rewrite G.
Qed.

Lemma C6_episode_label_witness :
  formatEpisodeNumber runtime (with_format SHORT) (VInt 12) (VInt 3)
  = Normal "S12E03" /\
  formatEpisodeNumber runtime (with_format NATURAL) VNull (VInt 3)
  = Normal "".
Proof.
  destruct (C6_episode_label runtime (with_format SHORT)) as (_ & Label & _).
  destruct (C6_episode_label runtime (with_format NATURAL)) as (Empty & _).
  split.
  - apply (Label 12%Z 3%Z); reflexivity.
  - apply Empty. left. reflexivity.
Defined.

(** ** C7: timestamps *)



(** ** C8: [stop] *)

(** C8, as amended.  Every call of [stop()] dispatches exactly one clear
    signal (also with no timer running), cancels the timer held in
    [this.interval] and empties that field, and leaves the polls in flight
    as they are.  If no poll is in flight and the field holds every running
    timer ([start] has been paired with this [stop]), nothing the host does
    afterwards reaches the sink. *)
Theorem C8_stop_clears_and_cancels
  (rt : Runtime) (settings : Settings) (h : Lifecycle.Host) :
  Lifecycle.sink (Lifecycle.stop h)
  = (Lifecycle.sink h ++ [clear_signal])%list /\
  Lifecycle.interval (Lifecycle.stop h) = None /\
  (forall id, Lifecycle.interval h = Some id ->
              ~ In id (Lifecycle.timers (Lifecycle.stop h))) /\
  Lifecycle.in_flight (Lifecycle.stop h) = Lifecycle.in_flight h /\
  (Lifecycle.in_flight h = 0%nat ->
   (forall t, In t (Lifecycle.timers h) -> Lifecycle.interval h = Some t) ->
   forall es h',
     forallb Lifecycle.by_host es = true ->
     Lifecycle.steps rt settings (Lifecycle.stop h) es = Some h' ->
     Lifecycle.sink h' = Lifecycle.sink (Lifecycle.stop h)).
Proof.
  assert (S1 : Lifecycle.sink (Lifecycle.stop h)
               = (Lifecycle.sink h ++ [clear_signal])%list).
  { unfold Lifecycle.stop. destruct (Lifecycle.interval h); reflexivity. }
  split; [exact S1|]. split; [|split; [|split]].
  - unfold Lifecycle.stop.
    destruct (Lifecycle.interval h) eqn:E; [reflexivity | exact E].
  - intros id E. unfold Lifecycle.stop. rewrite E.
    cbn [Lifecycle.timers Lifecycle.clearPresence_now Lifecycle.clearInterval].
    rewrite filter_In. intros [_ N]. now rewrite Pos.eqb_refl in N.
  - unfold Lifecycle.stop. destruct (Lifecycle.interval h); reflexivity.
  - intros Hf Ht es h' Hes Hsteps.
    enough (h' = Lifecycle.stop h) as -> by reflexivity.
    apply (LifecycleFacts.steps_quiescent rt settings _ es); try assumption.
    + unfold Lifecycle.stop. destruct (Lifecycle.interval h) as [id|] eqn:E;
        cbn [Lifecycle.timers Lifecycle.clearPresence_now
               Lifecycle.clearInterval].
      * apply LifecycleFacts.filter_all_equal. intros t Hin.
        specialize (Ht t Hin). congruence.
      * destruct (Lifecycle.timers h) as [| t l]; [reflexivity|].
        specialize (Ht t (or_introl eq_refl)). discriminate.
    + unfold Lifecycle.stop. destruct (Lifecycle.interval h); exact Hf.
Qed.

(** After [start()] and the settling of its poll, [stop()] leaves nothing
    that could still reach the sink. *)
Lemma C8_stop_clears_and_cancels_witness :
  Lifecycle.timers (Lifecycle.stop running) = [] /\
  forall es h',
    forallb Lifecycle.by_host es = true ->
    Lifecycle.steps runtime (config JELLYFIN) (Lifecycle.stop running) es
    = Some h' ->
    Lifecycle.sink h' = Lifecycle.sink (Lifecycle.stop running).
Proof.
  split; [reflexivity|].
  destruct (C8_stop_clears_and_cancels runtime (config JELLYFIN) running)
    as (_ & _ & _ & _ & Quiet).
  apply Quiet.
  - reflexivity.
  - intros t [<- | []]. reflexivity.
Defined.

(** C8 as stated fails: [stop()] called while the first poll of [start()]
    is in flight dispatches its clear signal, and the poll then settles and
    dispatches a populated activity after [stop()] has returned. *)
Lemma C8_counterexample_poll_in_flight :
  exists h' act,
    Lifecycle.steps runtime (config JELLYFIN) (Lifecycle.stop started)
      [Lifecycle.PollSettles watching]
    = Some h' /\
    Lifecycle.sink (Lifecycle.stop started) = [clear_signal] /\
    Lifecycle.sink h' = [clear_signal; activity_update act] /\
    Lifecycle.sink h' <> Lifecycle.sink (Lifecycle.stop started).
Proof.
  eexists _, _. split; [vm_compute; reflexivity|].
  split; [reflexivity|]. split; [reflexivity|]. discriminate.
Qed.

(** ** C9: ticks to milliseconds *)

(** C9, as amended.  For every tick count that a Number holds exactly and
    that is below 10000 * 2^44 = 175921860444160000 (every integer from 0
    up to 2^53 among them), [toMs] is the floor division by 10000;
    50,000,000 ticks are 5,000 ms; and [fetchJellyfinData] applies it to
    both [RunTimeTicks] (the duration) and [PositionTicks] (the position)
    when they are not zero.  A tick count that is zero or missing leaves
    the field undefined, although [toMs] of zero is zero. *)
Theorem C9_toMs_exact_on_numbers (rt : Runtime) (settings : Settings) :
  (forall t : Z,
      (0 <= t < 10000 * 2 ^ 44)%Z -> is_double_int t ->
      toMs rt (VInt t) = Normal (VInt (t / 10000))) /\
  (forall t : Z,
      (0 <= t < 2 ^ 53)%Z ->
      toMs rt (VInt t) = Normal (VInt (t / 10000))) /\
  toMs rt (VInt 50000000) = Normal (VInt 5000) /\
  (forall item playState base (t : Z),
      Jellyfin_baseData rt settings item playState = Normal base ->
      (0 < t < 10000 * 2 ^ 44)%Z -> is_double_int t ->
      (get item "RunTimeTicks" = Normal (VInt t) ->
       duration base = VInt (t / 10000)) /\
      (get playState "PositionTicks" = Normal (VInt t) ->
       position base = VInt (t / 10000))) /\
  (forall item playState base ticks,
      Jellyfin_baseData rt settings item playState = Normal base ->
      truthy ticks = false ->
      (get item "RunTimeTicks" = Normal ticks -> duration base = VUndef) /\
      (get playState "PositionTicks" = Normal ticks ->
       position base = VUndef)) /\
  truthy (VInt 0) = false /\ truthy VUndef = false /\
  toMs rt (VInt 0) = Normal (VInt 0).
Proof.
  assert (G : forall t : Z,
             (0 <= t < 10000 * 2 ^ 44)%Z -> is_double_int t ->
             toMs rt (VInt t) = Normal (VInt (t / 10000))).
  { intros t Ht Hd. unfold toMs, VInt. cbn [ToNumber bindc].
    now rewrite floor_div_10000_double. }
  assert (G53 : forall t : Z,
             (0 <= t < 2 ^ 53)%Z ->
             toMs rt (VInt t) = Normal (VInt (t / 10000))).
  { intros t Ht. apply G; [lia|]. apply small_is_double_int. lia. }
  split; [exact G|]. split; [exact G53|]. split; [now rewrite G53|].
  split; [|split].
  - intros item playState base t B Ht Hd.
    destruct (Jellyfin_baseData_fields _ _ _ _ _ B)
      as (rtt & pt & G1 & G2 & _ & D & P).
    split; intros E.
    + rewrite E in G1. injection G1 as <-.
      rewrite truthy_VInt in D by lia. rewrite G in D by (lia || assumption).
      congruence.
    + rewrite E in G2. injection G2 as <-.
      rewrite truthy_VInt in P by lia. rewrite G in P by (lia || assumption).
      congruence.
  - intros item playState base ticks B F.
    destruct (Jellyfin_baseData_fields _ _ _ _ _ B)
      as (rtt & pt & G1 & G2 & _ & D & P).
    split; intros E.
    + rewrite E in G1. injection G1 as <-. now rewrite F in D.
    + rewrite E in G2. injection G2 as <-. now rewrite F in P.
  - split; [reflexivity|]. split; [reflexivity|]. now rewrite G53.
Qed.

(** 2^56 ticks, far beyond 2^53; 123456789 ticks; and an item that reports
    a run time and a position of zero ticks. *)
Lemma C9_toMs_exact_on_numbers_witness :
  toMs runtime (VInt 72057594037927936) = Normal (VInt 7205759403792) /\
  toMs runtime (VInt 123456789) = Normal (VInt 12345) /\
  exists base,
    Jellyfin_baseData runtime (config JELLYFIN)
      (VObj [("Name", VStr "Heat"); ("Type", VStr "Movie");
             ("RunTimeTicks", VInt 0)])
      (VObj [("PositionTicks", VInt 0)]) = Normal base /\
    duration base = VUndef /\ position base = VUndef.
Proof.
  destruct (C9_toMs_exact_on_numbers runtime (config JELLYFIN))
    as (Exact & Small & _ & _ & Zero & _).
  split; [|split].
  - apply (Exact 72057594037927936%Z).
    + split; [discriminate | reflexivity].
    + exists 1%Z, 56%Z. repeat split; discriminate.
  - apply (Small 123456789%Z). split; [discriminate | reflexivity].
  - eexists. split; [vm_compute; reflexivity|].
    match goal with
    | |- duration ?b = _ /\ _ =>
        destruct (Zero (VObj [("Name", VStr "Heat"); ("Type", VStr "Movie");
                              ("RunTimeTicks", VInt 0)])
                       (VObj [("PositionTicks", VInt 0)]) b (VInt 0)
                       ltac:(vm_compute; reflexivity) eq_refl) as [D P]
    end.
    split; [apply D | apply P]; reflexivity.
Defined.

(** C9 as stated fails, first at 175921860444169984 ticks (a multiple of
    32 between 2^57 and 2^58, hence a Number): divided by 10000 it is
    17592186044416.9984, which rounds to the binary64 17592186044417 before
    [Math.floor] sees it, while the floor division gives 17592186044416.
    The processor's division agrees. *)
Lemma C9_counterexample_large_ticks :
  is_double_int 175921860444169984 /\
  toMs runtime (VInt 175921860444169984) = Normal (VInt 17592186044417) /\
  (175921860444169984 / 10000 = 17592186044416)%Z /\
  toMs runtime (VInt 175921860444169984)
  <> Normal (VInt (175921860444169984 / 10000)) /\
  hardware_div 175921860444169984 10000 = Some (inject_Z 17592186044417).
Proof.
  split.
  { exists 5497558138880312%Z, 5%Z. repeat split; discriminate. }
  split; [vm_compute; reflexivity|]. split; [reflexivity|].
  split; [vm_compute; discriminate | vm_compute; reflexivity].
Qed.

(** ** C10: variant fields *)

(** C10.  In the media data either adapter returns, [series], [season] and
    [episode] are set only for an Episode; [artist], [albumArtist] and
    [albumTitle] only for Audio; [photographer] only for a Photo. *)
Theorem C10_variant_fields_follow_type
  (rt : Runtime) (settings : Settings) (world : World)
  (s s' : effects Dispatch) (md : MediaData) :
  fetchJellyfinData rt settings world s = (s', Normal (Some md)) \/
  fetchPlexData rt settings world s = (s', Normal (Some md)) ->
  (type md <> EPISODE ->
   series md = VUndef /\ season md = VUndef /\ episode md = VUndef) /\
  (type md <> AUDIO ->
   artist md = VUndef /\ albumArtist md = VUndef /\ albumTitle md = VUndef) /\
  (type md <> PHOTO -> photographer md = VUndef).
Proof.
  intros [H | H].
  - destruct (fetchJellyfinData_run rt settings world _ s)
      as (r & s1 & R & _ & _ & Inv).
    rewrite R in H. injection H as _ ->.
    destruct (Inv md eq_refl) as [T _].
    apply Jellyfin_try_Some in T.
    destruct T as (ps & item & playState & base & _ & _ & _ & _ & B & V).
    apply Jellyfin_baseData_no_variant in B.
    exact (proj1 (Jellyfin_variant_ok base item md B V)).
  - destruct (fetchPlexData_run rt settings world _ s)
      as (r & s1 & R & _ & _ & Inv).
    rewrite R in H. injection H as _ ->.
    destruct (Inv md eq_refl) as [T _].
    apply Plex_try_Some in T.
    destruct T as (session & base & _ & _ & B & V).
    apply Plex_baseData_no_variant in B.
    exact (proj1 (Plex_variant_ok base session md B V)).
Qed.

Lemma C10_variant_fields_follow_type_witness :
  series heat = VUndef /\ artist heat = VUndef /\ photographer heat = VUndef.
Proof.
  destruct (C10_variant_fields_follow_type
              runtime (config JELLYFIN) watching initial initial heat)
    as (E & A & P).
  - left. vm_compute. reflexivity.
  - split; [apply E; discriminate|].
    split; [apply A; discriminate | apply P; discriminate].
Defined.

(* ===================================================================== *)
(** * Facts about a poll *)
(* ===================================================================== *)

Module PollFacts.

Import Number NumberFacts JS Eff Plugin Spec PluginFacts Outcome.
Local Open Scope string_scope.

Section PollCases.

Variable rt : Runtime.
Variable settings : Settings.
Variable world : World.

Lemma getTimestamps_effects (md : MediaData) (s : effects Dispatch) :
  dispatched (fst (getTimestamps rt settings world md s)) = dispatched s /\
  logged (fst (getTimestamps rt settings world md s)) = logged s.
Proof.
  unfold getTimestamps.
  destruct (showTimestamps settings && truthy (duration md)); [|split; reflexivity].
  unfold bind, Date_now, lift, ret. cbn [clock_reads dispatched logged].
  destruct (ToNumber rt (or_else (position md) (VInt 0))) as [p | e];
    [|split; reflexivity].
  destruct (ToNumber rt (duration md)) as [d | e]; split; reflexivity.
Qed.

(** [publish] either dispatches the one activity built from the four parts,
    or throws with the dispatcher and the logger untouched. *)
Lemma publish_cases (md : MediaData) (s : effects Dispatch) :
  (exists s' ts as_ de st,
      publish rt settings world md s = (s', Normal tt) /\
      snd (getTimestamps rt settings world md s) = Normal ts /\
      getAssets settings world md = Normal as_ /\
      getDetails rt settings md = Normal de /\
      getState rt md = Normal st /\
      dispatched s'
      = (dispatched s ++ [activity_update (activity_of md de st as_ ts)])%list /\
      logged s' = logged s) \/
  (exists s' e,
      publish rt settings world md s = (s', Throw e) /\
      dispatched s' = dispatched s /\ logged s' = logged s /\
      (snd (getTimestamps rt settings world md s) = Throw e \/
       getAssets settings world md = Throw e \/
       getDetails rt settings md = Throw e \/
       getState rt md = Throw e)).
Proof.
  destruct (getTimestamps_effects md s) as [Hd Hl].
  unfold publish, bind, lift.
  destruct (getTimestamps rt settings world md s) as [s1 [ts | e]] eqn:R;
    cbn [fst snd] in *.
  2:{ right. exists s1, e. auto 10. }
  destruct (getAssets settings world md) as [as_ | e] eqn:A.
  2:{ right. exists s1, e. auto 10. }
  destruct (getDetails rt settings md) as [de | e] eqn:De.
  2:{ right. exists s1, e. auto 10. }
  destruct (getState rt md) as [st | e] eqn:St.
  2:{ right. exists s1, e. auto 10. }
  left. eexists _, ts, as_, de, st. split; [reflexivity|].
  cbn [dispatched logged]. rewrite Hd, Hl. auto 10.
Qed.

Lemma updatePresence_cases (s : effects Dispatch) :
  exists s1 r s',
    selectedAdapter rt settings world s = (s1, Normal r) /\
    updatePresence rt settings world s = (s', Normal tt) /\
    ((hidden settings world r /\
      dispatched s' = (dispatched s ++ [clear_signal])%list /\
      logged s' = logged s1) \/
     (exists md e,
         r = Some md /\
         truthy (isPaused md) && hideWhenPaused settings = false /\
         ((hideWhenOtherActivity settings = true /\
           array_some other_activity (getActivities world) = Throw e) \/
          (shown settings world md /\
           (snd (getTimestamps rt settings world md s1) = Throw e \/
            getAssets settings world md = Throw e \/
            getDetails rt settings md = Throw e \/
            getState rt md = Throw e))) /\
         dispatched s' = (dispatched s ++ [clear_signal])%list /\
         logged s' = (logged s1 ++ [("Failed to update presence:", e)])%list) \/
     (exists md ts as_ de st,
         r = Some md /\ shown settings world md /\
         snd (getTimestamps rt settings world md s1) = Normal ts /\
         getAssets settings world md = Normal as_ /\
         getDetails rt settings md = Normal de /\
         getState rt md = Normal st /\
         dispatched s'
         = (dispatched s ++ [activity_update (activity_of md de st as_ ts)])%list /\
         logged s' = logged s1)).
Proof.
  destruct (selectedAdapter_run rt settings world _ s) as (r & s1 & R & Hd & Hc).
  exists s1, r.
  unfold updatePresence, try_catch, bind. rewrite R. unfold present.
  destruct r as [md|].
  2:{ eexists. split; [reflexivity|]. split; [reflexivity|]. left.
      cbn. rewrite Hd. repeat split. now left. }
  destruct (truthy (isPaused md) && hideWhenPaused settings) eqn:Hp.
  { eexists. split; [reflexivity|]. split; [reflexivity|]. left.
    cbn. rewrite Hd. repeat split. right. exists md. auto. }
  unfold bind, lift, ret.
  destruct (hideWhenOtherActivity settings) eqn:Ho.
  - destruct (array_some other_activity (getActivities world))
      as [[|] | e] eqn:A.
    + eexists. split; [reflexivity|]. split; [reflexivity|]. left.
      cbn. rewrite Hd. repeat split. right. exists md. auto 10.
    + destruct (publish_cases md s1)
        as [(s2 & ts & as_ & de & st & P & T & As & De & St & Pd & Pl)
           | (s2 & e & P & Pd & Pl & Why)]; rewrite P.
      * eexists. split; [reflexivity|]. split; [reflexivity|].
        right. right. exists md, ts, as_, de, st.
        rewrite Pd, Pl, Hd. repeat split; auto.
      * eexists. split; [reflexivity|]. split; [reflexivity|].
        right. left. exists md, e. cbn. rewrite Pd, Pl, Hd.
        repeat split; auto. right. repeat split; auto.
    + eexists. split; [reflexivity|]. split; [reflexivity|].
      right. left. exists md, e. cbn. rewrite Hd. repeat split; auto.
  - destruct (publish_cases md s1)
      as [(s2 & ts & as_ & de & st & P & T & As & De & St & Pd & Pl)
         | (s2 & e & P & Pd & Pl & Why)]; rewrite P.
    + eexists. split; [reflexivity|]. split; [reflexivity|].
      right. right. exists md, ts, as_, de, st.
      rewrite Pd, Pl, Hd. repeat split; auto; intros; congruence.
    + eexists. split; [reflexivity|]. split; [reflexivity|].
      right. left. exists md, e. cbn. rewrite Pd, Pl, Hd.
      repeat split; auto. right. repeat split; auto; intros; congruence.
Qed.

End PollCases.

Lemma fetchJellyfinData_configured rt settings world (D : Type) (s : effects D) :
  configured settings ->
  fetchJellyfinData rt settings world s
  = match Jellyfin_try rt settings world with
    | Normal r => (s, Normal r)
    | Throw e => (with_log s "Failed to fetch Jellyfin data:" e, Normal None)
    end.
Proof.
  intros [U K]. unfold fetchJellyfinData. rewrite U, K. cbn [negb orb].
  unfold try_catch, lift. destruct (Jellyfin_try rt settings world); reflexivity.
Qed.

Lemma fetchPlexData_configured rt settings world (D : Type) (s : effects D) :
  configured settings ->
  fetchPlexData rt settings world s
  = match Plex_try rt settings world with
    | Normal r => (s, Normal r)
    | Throw e => (with_log s "Failed to fetch Plex data:" e, Normal None)
    end.
Proof.
  intros [U K]. unfold fetchPlexData. rewrite U, K. cbn [negb orb].
  unfold try_catch, lift. destruct (Plex_try rt settings world); reflexivity.
Qed.

Lemma find_first_idle (l : list value) (rest : list value) :
  Forall idle_session l ->
  find_first (fun s => get s "NowPlayingItem") (l ++ rest)
  = find_first (fun s => get s "NowPlayingItem") rest.
Proof.
  induction 1 as [| s l (v & G & T) _ IH]; [reflexivity|].
  cbn [app find_first]. rewrite G. cbn [bindc]. rewrite T. exact IH.
Qed.

Lemma is_zero_false (d : Q) : ~ (d == 0)%Q -> is_zero d = false.
Proof.
  intros H. unfold is_zero. destruct (Qeq_bool d 0) eqn:E; [|reflexivity].
  apply Qeq_bool_iff in E. contradiction.
Qed.

Lemma Plex_baseData_isPaused rt settings session base :
  Plex_baseData rt settings session = Normal base ->
  exists player player_state,
    get session "Player" = Normal player /\
    get player "state" = Normal player_state /\
    isPaused base = VBool (negb (strict_eq_string player_state "playing")).
Proof.
  unfold Plex_baseData. intros H.
  bindc_as H title_ Etitle. bindc_as H ty Ety. bindc_as H type_ Etype.
  bindc_as H dur Edur. bindc_as H progress_ Eprog.
  bindc_as H player Epl. bindc_as H player_state Est.
  bindc_as H thumb Eth. bindc_as H imageUrl_ Eiu.
  bindc_as H vo Evo. bindc_as H year_ Ey. bindc_as H studio_ Estu.
  injection H as <-. now exists player, player_state.
Qed.

Lemma Plex_variant_isPaused base session md :
  Plex_variant base session = Normal md -> isPaused md = isPaused base.
Proof.
  unfold Plex_variant.
  destruct (type base); intros H; repeat bindc_inv; subst md; reflexivity.
Qed.

Lemma formatEpisodeNumber_label rt settings (s e : Z) :
  (Z.abs s < 2 ^ 53)%Z -> (Z.abs e < 2 ^ 53)%Z ->
  formatEpisodeNumber rt settings (VInt s) (VInt e)
  = Normal (formatEpisodeLabel s e (episodeFormat settings)).
Proof.
  intros Hs He. unfold formatEpisodeNumber, formatEpisodeLabel.
  destruct (Z.eqb_spec s 0) as [-> | Ns]; [reflexivity|].
  destruct (Z.eqb_spec e 0) as [-> | Ne].
  { rewrite orb_true_r. reflexivity. }
  rewrite (truthy_VInt s Ns), (truthy_VInt e Ne). cbn [negb orb].
  unfold pad. rewrite !ToString_VInt by assumption. cbn [bindc].
  rewrite !padStart_decimal. destruct (episodeFormat settings); reflexivity.
Qed.

Lemma append_nonempty (a b : string) (c : ascii) :
  String.eqb (a ++ String c b) "" = false.
Proof. destruct a; reflexivity. Qed.

End PollFacts.

Module RunFacts.

Import JS Eff Plugin Spec PluginFacts Outcome PollFacts Lifecycle Run.
Local Open Scope string_scope.

Section HostSteps.

Variable rt : Runtime.
Variable settings : Settings.

Lemma poll_dispatches_one (world : World) :
  List.length (dispatched (fst (run (updatePresence rt settings world)))) = 1%nat.
Proof.
  unfold run.
  destruct (updatePresence_cases rt settings world initial)
    as (s1 & r & s' & _ & U & [(_ & D & _) | [(md & e & _ & _ & _ & D & _)
       | (md & ts & as_ & de & st & _ & _ & _ & _ & _ & _ & D & _)]]);
    rewrite U; cbn [fst]; rewrite D; reflexivity.
Qed.

Lemma step_well_formed (h h' : Host) (e : event) :
  well_formed h -> step rt settings h e = Some h' -> well_formed h'.
Proof.
  intros (Lt & Nd & Hi) H. destruct e; cbn [step] in H.
  - injection H as <-. unfold start, updatePresence_begins.
    cbn [timers next_timer interval]. repeat split.
    + intros t [<- | Hin]; [apply Pos.lt_succ_diag_r|].
      specialize (Lt t Hin). apply Pos.lt_lt_succ. exact Lt.
    + constructor; [|exact Nd]. intros Hin. specialize (Lt _ Hin).
      exact (Pos.lt_irrefl _ Lt).
    + intros id E. injection E as <-. now left.
  - injection H as <-. unfold stop.
    destruct (interval h) as [id|] eqn:E;
      cbn [timers next_timer interval clearPresence_now clearInterval].
    + repeat split.
      * intros t Hin. apply filter_In in Hin. now apply Lt.
      * now apply NoDup_filter.
      * discriminate.
    + split; [exact Lt | split; [exact Nd | intros id H; cbn in H; congruence]].
  - destruct (existsb (Pos.eqb id) (timers h)); [|discriminate].
    injection H as <-. repeat split; auto.
  - destruct (in_flight h); [discriminate|].
    injection H as <-. repeat split; auto.
Qed.

Lemma host_step_keeps_timers (h h' : Host) (e : event) :
  by_host e = true -> step rt settings h e = Some h' ->
  timers h' = timers h /\ interval h' = interval h /\
  next_timer h' = next_timer h.
Proof.
  intros B H. destruct e; try discriminate; cbn [step] in H.
  - destruct (existsb (Pos.eqb id) (timers h)); [|discriminate].
    injection H as <-. repeat split.
  - destruct (in_flight h); [discriminate|].
    injection H as <-. repeat split.
Qed.

End HostSteps.

End RunFacts.

(* ===================================================================== *)
(** * Further properties of the adapters and of a poll *)
(* ===================================================================== *)

Import Outcome Household PollFacts.

(** X1: a call of [updatePresence] whose awaits settle, each request, body
    and asset lookup fulfilled or rejected as the world records, completes
    without an exception and hands the dispatcher exactly one payload, of
    type LOCAL_ACTIVITY_UPDATE with socket id MediaStatus; an activity in
    it carries the application id of the plugin and flags 1.  In a run that
    payload arrives when the poll settles and not before: a call of start
    and a timer tick begin a poll, dispatch nothing and leave the poll in
    flight, where it stays for as long as its awaits are pending.  (The
    dispatcher itself is taken not to throw.) *)
Theorem poll_dispatches_exactly_once
  (rt : Runtime) (settings : Settings) (world : World) :
  (forall s : effects Dispatch,
      exists s' d,
        updatePresence rt settings world s = (s', Normal tt) /\
        dispatched s' = (dispatched s ++ [d])%list /\
        payload_ok d) /\
  (forall h h',
      Lifecycle.step rt settings h (Lifecycle.PollSettles world) = Some h' ->
      exists d,
        Lifecycle.sink h' = (Lifecycle.sink h ++ [d])%list /\
        payload_ok d /\
        Lifecycle.in_flight h = S (Lifecycle.in_flight h')) /\
  (forall h h' e,
      Run.begins_poll e = true ->
      Lifecycle.step rt settings h e = Some h' ->
      Lifecycle.sink h' = Lifecycle.sink h /\
      Lifecycle.in_flight h' = S (Lifecycle.in_flight h)).
Proof.
  assert (Once : forall s : effects Dispatch,
             exists s' d,
               updatePresence rt settings world s = (s', Normal tt) /\
               dispatched s' = (dispatched s ++ [d])%list /\
               payload_ok d).
  { intros s.
    destruct (updatePresence_cases rt settings world s)
      as (s1 & r & s' & _ & U & [(_ & D & _) | [(md & e & _ & _ & _ & D & _)
         | (md & ts & as_ & de & st & _ & _ & _ & _ & _ & _ & D & _)]]).
    - exists s', clear_signal. split; [exact U|]. split; [exact D|].
      repeat split; discriminate.
    - exists s', clear_signal. split; [exact U|]. split; [exact D|].
      repeat split; discriminate.
    - eexists s', _. split; [exact U|]. split; [exact D|].
      split; [reflexivity|]. split; [reflexivity|].
      intros act H. injection H as <-. split; reflexivity. }
  split; [exact Once|]. split.
  - intros h h' H. cbn [Lifecycle.step] in H.
    destruct (Lifecycle.in_flight h) as [| n] eqn:F; [discriminate|].
    injection H as <-. cbn [Lifecycle.sink Lifecycle.in_flight].
    destruct (Once initial) as (s' & d & U & D & Ok).
    exists d. unfold run. rewrite U. cbn [fst]. rewrite D.
    split; [reflexivity|]. split; [exact Ok | reflexivity].
  - intros h h' e B H. destruct e; try discriminate; cbn [Lifecycle.step] in H.
    + injection H as <-. split; reflexivity.
    + destruct (existsb (Pos.eqb id) (Lifecycle.timers h)); [|discriminate].
      injection H as <-. split; reflexivity.
Qed.

(** The first poll after [start()], settling in front of a server on which
    a movie plays. *)
Lemma poll_dispatches_exactly_once_witness :
  exists d,
    Lifecycle.sink running = (Lifecycle.sink started ++ [d])%list /\
    payload_ok d /\
    Lifecycle.in_flight started = 1%nat /\ Lifecycle.in_flight running = 0%nat.
Proof.
  destruct (poll_dispatches_exactly_once runtime (config JELLYFIN) watching)
    as (_ & Settles & Begins).
  destruct (Settles started running) as (d & S & Ok & _);
    [vm_compute; reflexivity|].
  destruct (Begins Lifecycle.idle started Lifecycle.CallStart eq_refl eq_refl)
    as [_ F].
  exists d. split; [exact S|]. split; [exact Ok|].
  split; [exact F | reflexivity].
Defined.

(** X2: with the server URL or the credential unset (empty), the outcome of
    a poll is the same whatever the server, the presence store and the
    asset service would answer: it reads no clock, logs nothing, and
    dispatches the clear signal and nothing else, for either server
    type. *)
Theorem unconfigured_poll_clears_silently
  (rt : Runtime) (settings : Settings) (world : World)
  (s : effects Dispatch) :
  setting_truthy (serverUrl settings) = false \/
  setting_truthy (apiKey settings) = false ->
  updatePresence rt settings world s
  = ({| logged := logged s;
        dispatched := dispatched s ++ [clear_signal];
        clock_reads := clock_reads s |}, Normal tt).
Proof.
  intros U.
  assert (E : negb (setting_truthy (serverUrl settings))
              || negb (setting_truthy (apiKey settings)) = true).
  { destruct U as [-> | ->]; cbn; [reflexivity | apply orb_true_r]. }
  unfold updatePresence, try_catch, bind, selectedAdapter,
    fetchJellyfinData, fetchPlexData.
  rewrite E. destruct (serverType settings); reflexivity.
Qed.

(** The unconfigured plugin in front of a refusing server. *)
Lemma unconfigured_poll_clears_silently_witness :
  updatePresence runtime unconfigured refusing initial
  = ({| logged := []; dispatched := [clear_signal]; clock_reads := 0 |},
     Normal tt).
Proof.
  apply (unconfigured_poll_clears_silently runtime unconfigured refusing initial).
  left. reflexivity.
Defined.

(** X3: with URL and credential set, a response that is not ok makes either
    adapter log its own message with the error HTTP followed by the status
    code, and return null; a request that fails makes it log that failure
    and return null.  Nothing is dispatched by the adapter. *)
Theorem failed_request_is_logged
  (rt : Runtime) (settings : Settings) (world : World)
  (s : effects Dispatch) :
  configured settings ->
  (forall resp,
      (forall req, fetch world req = Normal resp) -> ok resp = false ->
      let e := HttpError ("HTTP " ++ decimal (status resp)) in
      fetchJellyfinData rt settings world s
      = (with_log s "Failed to fetch Jellyfin data:" e, Normal None) /\
      fetchPlexData rt settings world s
      = (with_log s "Failed to fetch Plex data:" e, Normal None)) /\
  (forall e,
      (forall req, fetch world req = Throw e) ->
      fetchJellyfinData rt settings world s
      = (with_log s "Failed to fetch Jellyfin data:" e, Normal None) /\
      fetchPlexData rt settings world s
      = (with_log s "Failed to fetch Plex data:" e, Normal None)).
Proof.
  intros C. split.
  - intros resp F Ok e.
    rewrite fetchJellyfinData_configured, fetchPlexData_configured by exact C.
    unfold Jellyfin_try, Jellyfin_playingSession, Plex_try, Plex_session.
    rewrite !F. cbn [bindc]. rewrite Ok. cbn [negb bindc]. split; reflexivity.
  - intros e F.
    rewrite fetchJellyfinData_configured, fetchPlexData_configured by exact C.
    unfold Jellyfin_try, Jellyfin_playingSession, Plex_try, Plex_session.
    rewrite !F. cbn [bindc]. split; reflexivity.
Qed.

(** A server answering 401 to Jellyfin, and an unreachable one to Plex. *)
Lemma failed_request_is_logged_witness :
  fetchJellyfinData runtime (config JELLYFIN) refusing initial
  = (with_log (initial (D := Dispatch)) "Failed to fetch Jellyfin data:"
       (HttpError "HTTP 401"), Normal None) /\
  fetchPlexData runtime (config PLEX) unreachable initial
  = (with_log (initial (D := Dispatch)) "Failed to fetch Plex data:"
       (TypeError "Failed to fetch"), Normal None).
Proof.
  split.
  - destruct (failed_request_is_logged runtime (config JELLYFIN) refusing initial)
      as [Refused _]; [split; reflexivity|].
    apply (Refused {| ok := false; status := 401; json := Normal VNull |});
      reflexivity.
  - destruct (failed_request_is_logged runtime (config PLEX) unreachable initial)
      as [_ Failed]; [split; reflexivity|].
    apply (Failed (TypeError "Failed to fetch")). reflexivity.
Defined.

(** X4: a reachable server on which nothing plays is not an error.  When every
    Jellyfin session lacks a now-playing item, and when the Plex metadata
    list is absent or its first entry is falsy, the adapter returns null
    and leaves the logger untouched. *)
Theorem idle_server_is_not_an_error
  (rt : Runtime) (settings : Settings) (world : World)
  (s : effects Dispatch) (resp : Response) :
  configured settings ->
  (forall req, fetch world req = Normal resp) -> ok resp = true ->
  (forall l, json resp = Normal (VArr l) -> Forall idle_session l ->
             fetchJellyfinData rt settings world s = (s, Normal None)) /\
  (forall data mediaContainer metadata session,
      json resp = Normal data ->
      get data "MediaContainer" = Normal mediaContainer ->
      get mediaContainer "Metadata" = Normal metadata ->
      get_index0_opt metadata = Normal session ->
      truthy session = false ->
      fetchPlexData rt settings world s = (s, Normal None)).
Proof.
  intros C F Ok. split.
  - intros l J Idle. rewrite fetchJellyfinData_configured by exact C.
    unfold Jellyfin_try, Jellyfin_playingSession.
    rewrite F. cbn [bindc]. rewrite Ok, J. cbn [negb bindc array_find].
    rewrite <- (app_nil_r l), find_first_idle by exact Idle. reflexivity.
  - intros data mc mt session J G1 G2 G3 T.
    rewrite fetchPlexData_configured by exact C.
    unfold Plex_try, Plex_session.
    rewrite F. cbn [bindc]. rewrite Ok, J. cbn [negb bindc].
    rewrite G1. cbn [bindc]. rewrite G2. cbn [bindc]. rewrite G3.
    cbn [bindc]. rewrite T. reflexivity.
Qed.

(** A Jellyfin server with one idle device, a Plex server with no metadata. *)
Lemma idle_server_is_not_an_error_witness :
  fetchJellyfinData runtime (config JELLYFIN) nothing_playing initial
  = (initial (D := Dispatch), Normal None) /\
  fetchPlexData runtime (config PLEX) nothing_playing_plex initial
  = (initial (D := Dispatch), Normal None).
Proof.
  split.
  - destruct (idle_server_is_not_an_error
                runtime (config JELLYFIN) nothing_playing initial
                {| ok := true; status := 200;
                   json := Normal (VArr [VObj [("PlayState", VObj [])]]) |})
      as [Idle _]; [split; reflexivity | reflexivity | reflexivity |].
    apply (Idle [VObj [("PlayState", VObj [])]]); [reflexivity|].
    repeat constructor. exists VUndef. split; reflexivity.
  - destruct (idle_server_is_not_an_error
                runtime (config PLEX) nothing_playing_plex initial
                {| ok := true; status := 200;
                   json := Normal (VObj [("MediaContainer",
                                          VObj [("size", VInt 0)])]) |})
      as [_ Idle]; [split; reflexivity | reflexivity | reflexivity |].
    apply (Idle (VObj [("MediaContainer", VObj [("size", VInt 0)])])
                (VObj [("size", VInt 0)]) VUndef VUndef); reflexivity.
Defined.

(** X5: the Jellyfin adapter reports the first session that has a now-playing
    item: idle sessions ahead of it are skipped, the sessions after it are
    never looked at, and the result is built from that session alone. *)
Theorem first_playing_session_wins
  (rt : Runtime) (settings : Settings) (world : World)
  (resp : Response) (before after : list value) (session item : value) :
  (forall req, fetch world req = Normal resp) -> ok resp = true ->
  json resp = Normal (VArr (before ++ session :: after)) ->
  Forall idle_session before ->
  get session "NowPlayingItem" = Normal item -> truthy item = true ->
  Jellyfin_playingSession settings world = Normal session /\
  Jellyfin_try rt settings world
  = bindc (get session "PlayState") (fun playState =>
    bindc (Jellyfin_baseData rt settings item playState) (fun baseData =>
    bindc (Jellyfin_variant baseData item) (fun result =>
    Normal (Some result)))).
Proof.
  intros F Ok J Idle G T.
  assert (P : Jellyfin_playingSession settings world = Normal session).
  { unfold Jellyfin_playingSession. rewrite F. cbn [bindc].
    rewrite Ok, J. cbn [negb bindc array_find].
    rewrite find_first_idle by exact Idle.
    cbn [find_first]. rewrite G. cbn [bindc]. now rewrite T. }
  split; [exact P|].
  unfold Jellyfin_try. rewrite P. cbn [bindc].
  assert (Ts : truthy session = true).
  { destruct session; try discriminate; try reflexivity;
      cbn in G; injection G as <-; discriminate. }
  rewrite Ts, G. reflexivity.
Qed.

(** An idle device, then an episode, then a movie: the episode is reported. *)
Lemma first_playing_session_wins_witness :
  Jellyfin_playingSession (config JELLYFIN) busy_house = Normal episode_session /\
  Jellyfin_try runtime (config JELLYFIN) busy_house = Normal (Some lost_pilot).
Proof.
  destruct (first_playing_session_wins
              runtime (config JELLYFIN) busy_house
              {| ok := true; status := 200; json := Normal (VArr three_devices) |}
              [idle_device] [movie_session] episode_session pilot_item)
    as [P T]; try reflexivity.
  - repeat constructor. exists VUndef. split; reflexivity.
  - split; [exact P|]. rewrite T. vm_compute. reflexivity.
Defined.

(** X6: a null entry in the session list that is reached before any playing
    session makes the search throw: the Jellyfin adapter logs a type error
    and returns null, also when a later session is playing. *)
Theorem null_entry_hides_later_sessions
  (rt : Runtime) (settings : Settings) (world : World)
  (s : effects Dispatch) (resp : Response) (before after : list value) :
  configured settings ->
  (forall req, fetch world req = Normal resp) -> ok resp = true ->
  json resp = Normal (VArr (before ++ VNull :: after)) ->
  Forall idle_session before ->
  fetchJellyfinData rt settings world s
  = (with_log s "Failed to fetch Jellyfin data:"
       (TypeError "Cannot read properties: NowPlayingItem"), Normal None).
Proof.
  intros C F Ok J Idle. rewrite fetchJellyfinData_configured by exact C.
  unfold Jellyfin_try, Jellyfin_playingSession. rewrite F. cbn [bindc].
  rewrite Ok, J. cbn [negb bindc array_find].
  rewrite find_first_idle by exact Idle. reflexivity.
Qed.

(** An idle device, a null entry, then an episode: nothing is reported. *)
Lemma null_entry_hides_later_sessions_witness :
  fetchJellyfinData runtime (config JELLYFIN) null_first initial
  = (with_log (initial (D := Dispatch)) "Failed to fetch Jellyfin data:"
       (TypeError "Cannot read properties: NowPlayingItem"), Normal None).
Proof.
  apply (null_entry_hides_later_sessions
           runtime (config JELLYFIN) null_first initial
           {| ok := true; status := 200;
              json := Normal (VArr [idle_device; VNull; episode_session]) |}
           [idle_device] [episode_session]); try reflexivity.
  - split; reflexivity.
  - repeat constructor. exists VUndef. split; reflexivity.
Defined.

(** X7: for a duration other than zero the progress formula gives exactly 0 at
    position zero and exactly 100 at the end, whatever the unit and the
    magnitude; with the position missing it gives NaN, not an absent
    progress. *)
Theorem progress_at_the_ends (rt : Runtime) (p d : Q) :
  ~ (d == 0)%Q ->
  ((p == 0)%Q -> percent rt (VNum (Fin p)) (VNum (Fin d)) = Normal (VInt 0)) /\
  ((p == d)%Q -> percent rt (VNum (Fin p)) (VNum (Fin d)) = Normal (VInt 100)) /\
  percent rt VUndef (VNum (Fin d)) = Normal (VNum NaN).
Proof.
  intros Hd. unfold percent. cbn [ToNumber bindc]. unfold div.
  rewrite (is_zero_false d Hd).
  split; [|split].
  - intros Hp.
    rewrite (round64_int (p / d) 0) by (discriminate || (rewrite Hp; field; exact Hd)).
    unfold mul, of_Z.
    rewrite (round64_int (inject_Z 0 * inject_Z 100) 0)
      by (reflexivity || discriminate).
    reflexivity.
  - intros Hp.
    rewrite (round64_int (p / d) 1) by (discriminate || (rewrite Hp; field; exact Hd)).
    unfold mul, of_Z.
    rewrite (round64_int (inject_Z 1 * inject_Z 100) 100)
      by (reflexivity || discriminate).
    reflexivity.
  - reflexivity.
Qed.

(** A duration of seven ticks. *)
Lemma progress_at_the_ends_witness :
  percent runtime (VInt 0) (VInt 7) = Normal (VInt 0) /\
  percent runtime (VInt 7) (VInt 7) = Normal (VInt 100).
Proof.
  destruct (progress_at_the_ends runtime (inject_Z 7) (inject_Z 7))
    as (_ & Full & _); [discriminate|].
  destruct (progress_at_the_ends runtime (inject_Z 0) (inject_Z 7))
    as (Zero & _); [discriminate|].
  split; [apply Zero | apply Full]; reflexivity.
Defined.

(** X8: the Plex adapter reports every player state other than the string
    playing (buffering, paused, a missing state) as paused, so with
    hideWhenPaused set a poll of such a session clears the presence. *)
Theorem plex_not_playing_counts_as_paused
  (rt : Runtime) (settings : Settings) (world : World)
  (s : effects Dispatch) (session player player_state : value) :
  serverType settings = PLEX -> hideWhenPaused settings = true ->
  Plex_session settings world = Normal session ->
  get session "Player" = Normal player ->
  get player "state" = Normal player_state ->
  strict_eq_string player_state "playing" = false ->
  (forall s1 md, fetchPlexData rt settings world s = (s1, Normal (Some md)) ->
                 isPaused md = VBool true) /\
  dispatched (fst (updatePresence rt settings world s))
  = (dispatched s ++ [clear_signal])%list.
Proof.
  intros Hs Hh Ps Gp Gs Hne.
  assert (Paused : forall s1 md,
             fetchPlexData rt settings world s = (s1, Normal (Some md)) ->
             isPaused md = VBool true).
  { intros s1 md H.
    destruct (fetchPlexData_run rt settings world _ s)
      as (r & s2 & R & _ & _ & Inv).
    rewrite R in H. injection H as _ ->.
    destruct (Inv md eq_refl) as [T _]. apply Plex_try_Some in T.
    destruct T as (session' & base & P & _ & B & V).
    rewrite Ps in P. injection P as <-.
    rewrite (Plex_variant_isPaused _ _ _ V).
    destruct (Plex_baseData_isPaused _ _ _ _ B) as (pl & st & G1 & G2 & ->).
    rewrite Gp in G1. injection G1 as <-.
    rewrite Gs in G2. injection G2 as <-. now rewrite Hne. }
  split; [exact Paused|].
  destruct (updatePresence_cases rt settings world s)
    as (s1 & r & s' & A & U & [(_ & D & _) | [(md & e & -> & Hp & _)
                             | (md & ts & as_ & de & st & -> & [Hp _] & _)]]);
    rewrite U; cbn [fst].
  - exact D.
  - unfold selectedAdapter in A. rewrite Hs in A.
    rewrite (Paused _ _ A), Hh in Hp. discriminate.
  - unfold selectedAdapter in A. rewrite Hs in A.
    rewrite (Paused _ _ A), Hh in Hp. discriminate.
Qed.

(** A Plex session that is buffering. *)
Lemma plex_not_playing_counts_as_paused_witness :
  dispatched (fst (updatePresence runtime (config PLEX) buffering initial))
  = [clear_signal].
Proof.
  apply (plex_not_playing_counts_as_paused
           runtime (config PLEX) buffering initial buffering_session
           (VObj [("state", VStr "buffering")]) (VStr "buffering"));
    reflexivity.
Defined.

(** X9: the image URL of either adapter is present exactly when the image tag
    (Jellyfin: ImageTags.Primary, Plex: thumb) is truthy, and is then the
    server URL followed by the item path and the credential as a query
    parameter; otherwise it is undefined. *)
Theorem image_url_follows_the_image_tag
  (rt : Runtime) (settings : Settings) :
  (forall item playState base,
      Jellyfin_baseData rt settings item playState = Normal base ->
      exists imageTags primary,
        get item "ImageTags" = Normal imageTags /\
        get_opt imageTags "Primary" = Normal primary /\
        truthy (imageUrl base) = truthy primary /\
        (truthy primary = false -> imageUrl base = VUndef) /\
        (truthy primary = true ->
         exists id id_text,
           get item "Id" = Normal id /\ ToString rt id = Normal id_text /\
           imageUrl base
           = VStr (setting_text (serverUrl settings) ++ "/Items/" ++ id_text
                   ++ "/Images/Primary?api_key="
                   ++ setting_text (apiKey settings)))) /\
  (forall session base,
      Plex_baseData rt settings session = Normal base ->
      exists thumb,
        get session "thumb" = Normal thumb /\
        truthy (imageUrl base) = truthy thumb /\
        (truthy thumb = false -> imageUrl base = VUndef) /\
        (truthy thumb = true ->
         exists thumb_text,
           ToString rt thumb = Normal thumb_text /\
           imageUrl base
           = VStr (setting_text (serverUrl settings) ++ thumb_text
                   ++ "?X-Plex-Token=" ++ setting_text (apiKey settings)))).
Proof.
  split.
  - intros item playState base H. unfold Jellyfin_baseData in H.
    bindc_as H title_ Etitle. bindc_as H ty Ety. bindc_as H type_ Etype.
    bindc_as H rtt Ertt. bindc_as H progress_ Eprog.
    bindc_as H isPaused_ Eip. bindc_as H imageTags Eit.
    bindc_as H primary Epr. bindc_as H imageUrl_ Eiu.
    bindc_as H duration_ Edur. bindc_as H pt Ept.
    bindc_as H position_ Epos. bindc_as H year_ Ey.
    injection H as <-. cbn [imageUrl].
    exists imageTags, primary.
    split; [first [reflexivity | assumption]|].
    split; [first [reflexivity | assumption]|].
    destruct (truthy primary).
    + bindc_as Eiu id Eid. bindc_as Eiu id_text Etext. injection Eiu as <-.
      split; [|split; [discriminate|]].
      * cbn [truthy]. now rewrite append_nonempty.
      * intros _. exists id, id_text. repeat split; first [reflexivity | assumption].
    + injection Eiu as <-.
      split; [reflexivity | split; [reflexivity | discriminate]].
  - intros session base H. unfold Plex_baseData in H.
    bindc_as H title_ Etitle. bindc_as H ty Ety. bindc_as H type_ Etype.
    bindc_as H dur Edur. bindc_as H progress_ Eprog.
    bindc_as H player Epl. bindc_as H player_state Est.
    bindc_as H thumb Eth. bindc_as H imageUrl_ Eiu.
    bindc_as H vo Evo. bindc_as H year_ Ey. bindc_as H studio_ Estu.
    injection H as <-. cbn [imageUrl].
    exists thumb. split; [first [reflexivity | assumption]|].
    destruct (truthy thumb).
    + bindc_as Eiu thumb_text Etext. injection Eiu as <-.
      split; [|split; [discriminate|]].
      * cbn [truthy].
        change (setting_text (serverUrl settings) ++ thumb_text
                ++ "?X-Plex-Token=" ++ setting_text (apiKey settings))
          with (setting_text (serverUrl settings)
                ++ (thumb_text ++ String "?" ("X-Plex-Token="
                                 ++ setting_text (apiKey settings)))).
        destruct (setting_text (serverUrl settings)); [|reflexivity].
        cbn [append]. now rewrite append_nonempty.
      * intros _. exists thumb_text. repeat split; first [reflexivity | assumption].
    + injection Eiu as <-.
      split; [reflexivity | split; [reflexivity | discriminate]].
Qed.

Lemma image_url_follows_the_image_tag_witness :
  exists base,
    Jellyfin_baseData runtime (config JELLYFIN) poster_item (VObj [])
    = Normal base /\
    imageUrl base
    = VStr "https://media.example/Items/42/Images/Primary?api_key=k".
Proof.
  eexists. split; [vm_compute; reflexivity|].
  match goal with
  | |- imageUrl ?b = _ =>
      destruct (proj1 (image_url_follows_the_image_tag runtime (config JELLYFIN))
                  poster_item (VObj []) b ltac:(vm_compute; reflexivity))
        as (tags & primary & G1 & G2 & _ & _ & Url)
  end.
  vm_compute in G1. injection G1 as <-.
  vm_compute in G2. injection G2 as <-.
  destruct (Url eq_refl) as (id & id_text & G3 & G4 & U).
  vm_compute in G3. injection G3 as <-.
  vm_compute in G4. injection G4 as <-.
  exact U.
Defined.

(** X10: the details line of an episode is the series name, a dash, and the
    episode label in the configured format; the label is empty when the
    season or the episode number is missing or zero, which leaves the dash
    at the end, and a missing series name shows as the word undefined. *)
Theorem details_of_an_episode
  (rt : Runtime) (settings : Settings) (md : MediaData) :
  type md = EPISODE ->
  (forall sr (s e : Z),
      series md = VStr sr -> season md = VInt s -> episode md = VInt e ->
      (Z.abs s < 2 ^ 53)%Z -> (Z.abs e < 2 ^ 53)%Z ->
      getDetails rt settings md
      = Normal (VStr (sr ++ " - "
                      ++ formatEpisodeLabel s e (episodeFormat settings)))) /\
  (forall sr,
      series md = VStr sr ->
      truthy (season md) = false \/ truthy (episode md) = false ->
      getDetails rt settings md = Normal (VStr (sr ++ " - "))) /\
  (forall label,
      series md = VUndef ->
      formatEpisodeNumber rt settings (season md) (episode md) = Normal label ->
      getDetails rt settings md = Normal (VStr ("undefined - " ++ label))).
Proof.
  intros T. unfold getDetails. rewrite T. split; [|split].
  - intros sr s e -> -> -> Hs He. cbn [ToString bindc].
    now rewrite formatEpisodeNumber_label.
  - intros sr -> F. cbn [ToString bindc]. unfold formatEpisodeNumber.
    destruct F as [-> | ->]; [|rewrite orb_true_r]; reflexivity.
  - intros label -> ->. reflexivity.
Qed.

(** Season 1, episode 2 of a series. *)
Lemma details_of_an_episode_witness :
  getDetails runtime (config JELLYFIN) lost_pilot
  = Normal (VStr "Lost - Season 1 Episode 2").
Proof.
  destruct (details_of_an_episode runtime (config JELLYFIN) lost_pilot eq_refl)
    as (Typed & _).
  apply (Typed "Lost" 1%Z 2%Z); reflexivity.
Defined.

(** X11: the details line of a movie is its title, followed by the year in
    brackets when there is one; of audio the artist, followed by a dash
    and the album title when there is one (a missing artist shows as the
    word undefined); of a photo Viewing photo, with the photographer in
    the possessive when known; of a video or an unknown type the title as
    it is. *)
Theorem details_of_other_media
  (rt : Runtime) (settings : Settings) (md : MediaData) :
  (forall t, type md = MOVIE -> title md = VStr t ->
             (truthy (year md) = false ->
              getDetails rt settings md = Normal (VStr t)) /\
             (forall y : Z, year md = VInt y -> y <> 0%Z ->
                            (Z.abs y < 2 ^ 53)%Z ->
                            getDetails rt settings md
                            = Normal (VStr (t ++ " (" ++ decimal y ++ ")")))) /\
  (forall a, type md = AUDIO -> artist md = VStr a ->
             (truthy (albumTitle md) = false ->
              getDetails rt settings md = Normal (VStr a)) /\
             (forall al, albumTitle md = VStr al -> al <> "" ->
                         getDetails rt settings md
                         = Normal (VStr (a ++ " - " ++ al)))) /\
  (type md = AUDIO -> artist md = VUndef -> truthy (albumTitle md) = false ->
   getDetails rt settings md = Normal (VStr "undefined")) /\
  (type md = PHOTO ->
   (truthy (photographer md) = false ->
    getDetails rt settings md = Normal (VStr "Viewing photo")) /\
   (forall p, photographer md = VStr p -> p <> "" ->
              getDetails rt settings md
              = Normal (VStr ("Viewing " ++ p ++ "'s photo")))) /\
  (type md = VIDEO \/ type md = UNKNOWN ->
   getDetails rt settings md = Normal (title md)).
Proof.
  assert (NE : forall x, x <> "" -> truthy (VStr x) = true).
  { intros x Hx. cbn. now destruct (String.eqb_spec x ""). }
  assert (App : forall x, x ++ "" = x).
  { induction x as [| c x IH]; cbn; [reflexivity | now rewrite IH]. }
  unfold getDetails. split; [|split; [|split; [|split]]].
  - intros t -> ->. split.
    + intros ->. cbn [ToString bindc]. now rewrite App.
    + intros y -> Hy Hb. rewrite truthy_VInt by exact Hy.
      rewrite ToString_VInt by exact Hb. reflexivity.
  - intros a -> ->. split.
    + intros ->. cbn [ToString bindc]. now rewrite App.
    + intros al -> Hal. rewrite NE by exact Hal. reflexivity.
  - intros -> -> ->. reflexivity.
  - intros ->. split.
    + intros ->. reflexivity.
    + intros p -> Hp. rewrite NE by exact Hp. cbn [ToString bindc].
      do 2 f_equal. change ("Viewing " ++ (p ++ "'s ") ++ "photo")
        with ("Viewing " ++ ((p ++ "'s ") ++ "photo")).
      f_equal. clear Hp.
      induction p as [| c p IH]; cbn; [reflexivity | now rewrite IH].
  - intros [-> | ->]; reflexivity.
Qed.

(** A movie of 1995. *)
Lemma details_of_other_media_witness :
  getDetails runtime (config JELLYFIN) heat_1995 = Normal (VStr "Heat (1995)").
Proof.
  destruct (details_of_other_media runtime (config JELLYFIN) heat_1995)
    as (Movie & _).
  destruct (Movie "Heat" eq_refl eq_refl) as (_ & Year).
  apply (Year 1995%Z); [reflexivity | discriminate | reflexivity].
Defined.

(** X12: the state line is never the empty string. *)
Theorem state_line_is_never_empty (rt : Runtime) (md : MediaData) (st : string) :
  getState rt md = Normal st -> st <> "".
Proof.
  unfold getState. intros H.
  destruct (getState_parts rt md) as [parts|]; cbn [bindc] in H; [|discriminate].
  destruct (join rt separator parts) as [joined|]; cbn [bindc] in H;
    [|discriminate].
  injection H as <-.
  destruct (String.eqb_spec joined ""); [discriminate | assumption].
Qed.

(** An episode with an empty title. *)
Lemma state_line_is_never_empty_witness :
  getState runtime (media EPISODE "" None) = Normal "Watching" /\
  "Watching" <> "".
Proof.
  split; [reflexivity|].
  apply (state_line_is_never_empty runtime (media EPISODE "" None)).
  reflexivity.
Defined.

(** X13: when a poll publishes an activity for the media the adapter returned,
    that activity has the application id of the plugin, the title as its
    name, flags 1, type 2 for audio and 3 for everything else, the details
    and state lines of that media, and assets exactly when the media has
    an image URL; the assets carry the title as large text and a non-empty
    server name as small text. *)
Theorem published_activity_shape
  (rt : Runtime) (settings : Settings) (world : World)
  (s s1 : effects Dispatch) (md : MediaData) (act : Activity) :
  selectedAdapter rt settings world s = (s1, Normal (Some md)) ->
  dispatched (fst (updatePresence rt settings world s))
  = (dispatched s ++ [activity_update act])%list ->
  application_id act = DISCORD_APP_ID /\
  name act = title md /\
  flags act = 1%Z /\
  (activity_type act = 2%Z <-> type md = AUDIO) /\
  (activity_type act = 3%Z <-> type md <> AUDIO) /\
  getDetails rt settings md = Normal (details act) /\
  getState rt md = Normal (state act) /\
  (assets act = None <-> truthy (imageUrl md) = false) /\
  (forall a, assets act = Some a ->
             large_text a = title md /\ small_text a = getServerName settings /\
             small_text a <> "").
Proof.
  intros Ha D.
  destruct (updatePresence_cases rt settings world s)
    as (s2 & r & s' & A & U & [(_ & D' & _) | [(md' & e & _ & _ & _ & D' & _)
                             | (md' & ts & as_ & de & st & R & _ & _ & As & De & St & D' & _)]]);
    rewrite U in D; cbn [fst] in D; rewrite D' in D;
    apply app_inv_head in D; try discriminate.
  injection D as <-. rewrite Ha in A. injection A as _ <-.
  injection R as <-.
  unfold activity_of; cbn [application_id name flags activity_type details
                             state assets].
  repeat split; try assumption; try reflexivity.
  - destruct (type md); intros; congruence.
  - intros ->. reflexivity.
  - destruct (type md); intros; congruence.
  - destruct (type md); intros; congruence.
  - intros ->. unfold getAssets in As.
    destruct (truthy (imageUrl md)); [|reflexivity].
    destruct (getApplicationAsset world (imageUrl md)); cbn [bindc] in As;
      [|discriminate].
    destruct (getApplicationAsset world _); cbn [bindc] in As; discriminate.
  - intros T. unfold getAssets in As. rewrite T in As. congruence.
  - unfold getAssets in As. destruct (truthy (imageUrl md)); [|congruence].
    destruct (getApplicationAsset world (imageUrl md)); cbn [bindc] in As;
      [|discriminate].
    destruct (getApplicationAsset world _); cbn [bindc] in As; [|discriminate].
    injection As as <-. injection H as <-. reflexivity.
  - unfold getAssets in As. destruct (truthy (imageUrl md)); [|congruence].
    destruct (getApplicationAsset world (imageUrl md)); cbn [bindc] in As;
      [|discriminate].
    destruct (getApplicationAsset world _); cbn [bindc] in As; [|discriminate].
    injection As as <-. injection H as <-. reflexivity.
  - unfold getAssets in As. destruct (truthy (imageUrl md)); [|congruence].
    destruct (getApplicationAsset world (imageUrl md)); cbn [bindc] in As;
      [|discriminate].
    destruct (getApplicationAsset world _); cbn [bindc] in As; [|discriminate].
    injection As as <-. injection H as <-. cbn [small_text].
    unfold getServerName, setting_truthy, setting_text.
    destruct (serverName settings) as [n|].
    + destruct (String.eqb_spec n ""); cbn [negb].
      * destruct (serverType settings); discriminate.
      * assumption.
    + destruct (serverType settings); discriminate.
Qed.

(** A movie playing on Jellyfin. *)
Lemma published_activity_shape_witness :
  exists act,
    dispatched (fst (updatePresence runtime (config JELLYFIN) watching initial))
    = [activity_update act] /\
    name act = VStr "Heat" /\ assets act = None /\
    getState runtime heat = Normal (state act).
Proof.
  assert (J : selectedAdapter runtime (config JELLYFIN) watching initial
              = (initial (D := Dispatch), Normal (Some heat)))
    by (vm_compute; reflexivity).
  eexists. split; [vm_compute; reflexivity|].
  match goal with
  | |- name ?a = _ /\ _ =>
      destruct (published_activity_shape
                  runtime (config JELLYFIN) watching initial initial heat a J
                  ltac:(vm_compute; reflexivity))
        as (_ & N & _ & _ & _ & _ & St & As & _)
  end.
  split; [exact N|]. split; [|exact St].
  apply As. reflexivity.
Defined.

(** X14: when the media has an image URL and the asset service rejects, no
    activity is published: the poll logs the rejection under Failed to
    update presence and dispatches the clear signal. *)
Theorem asset_failure_clears_presence
  (rt : Runtime) (settings : Settings) (world : World)
  (s s1 : effects Dispatch) (md : MediaData) (e : exn)
  (ts : option Timestamps) :
  selectedAdapter rt settings world s = (s1, Normal (Some md)) ->
  shown settings world md ->
  snd (getTimestamps rt settings world md s1) = Normal ts ->
  truthy (imageUrl md) = true ->
  (forall keys, fetchAssetIds world DISCORD_APP_ID keys = Throw e) ->
  exists s',
    updatePresence rt settings world s = (s', Normal tt) /\
    dispatched s' = (dispatched s ++ [clear_signal])%list /\
    logged s' = (logged s1 ++ [("Failed to update presence:", e)])%list.
Proof.
  intros Ha [Hp Ho] Ts Ti F.
  assert (As : getAssets settings world md = Throw e).
  { unfold getAssets, getApplicationAsset. rewrite Ti, F. reflexivity. }
  destruct (getTimestamps_effects rt settings world md s1) as [Td Tl].
  destruct (selectedAdapter_run rt settings world _ s) as (r & s0 & R & Hd & _).
  rewrite Ha in R. injection R as <- <-.
  unfold updatePresence, try_catch, bind. rewrite Ha.
  unfold present. rewrite Hp. unfold bind, lift, ret.
  assert (O : hideWhenOtherActivity settings = true ->
               array_some other_activity (getActivities world) = Normal false)
    by exact Ho.
  destruct (hideWhenOtherActivity settings); [rewrite (O eq_refl)|];
    unfold publish, bind, lift;
    (destruct (getTimestamps rt settings world md s1) as [s3 [t | x]];
     cbn [fst snd] in *; [|discriminate]);
    rewrite As; (eexists; split; [reflexivity|]);
    cbn [dispatched logged]; now rewrite Td, Tl, Hd.
Qed.

(** A movie with artwork, and an asset service that rejects. *)
Lemma asset_failure_clears_presence_witness :
  exists s',
    updatePresence runtime (config JELLYFIN) artwork_unavailable initial
    = (s', Normal tt) /\
    dispatched s' = [clear_signal] /\
    logged s' = [("Failed to update presence:", Rejected "assets")].
Proof.
  destruct (asset_failure_clears_presence
              runtime (config JELLYFIN) artwork_unavailable initial initial
              heat_with_poster (Rejected "assets") None)
    as (s' & U & D & L).
  - vm_compute. reflexivity.
  - split; [reflexivity | discriminate].
  - vm_compute. reflexivity.
  - reflexivity.
  - reflexivity.
  - exists s'. repeat split; assumption.
Defined.

(* ===================================================================== *)
(** * Further properties of start, stop and the timer *)
(* ===================================================================== *)

Import Lifecycle Run RunFacts.

(** X15: in every state reachable from the idle instance by calls of start and
    stop, timer ticks and settling polls, the running timers have distinct
    ids, and the interval field, when set, holds the id of a timer that is
    running. *)
Theorem lifecycle_invariant
  (rt : Runtime) (settings : Settings) (es : list event) (h : Host) :
  steps rt settings idle es = Some h -> well_formed h.
Proof.
  assert (G : forall es h0 h1,
             well_formed h0 -> steps rt settings h0 es = Some h1 ->
             well_formed h1).
  { induction es0 as [| e es0 IH]; intros h0 h1 W H; cbn [steps] in H.
    - now injection H as <-.
    - destruct (step rt settings h0 e) as [h2|] eqn:E; [|discriminate].
      exact (IH h2 h1 (step_well_formed rt settings h0 h2 e W E) H). }
  apply G. repeat split; cbn; try contradiction; [constructor | discriminate].
Qed.

(** The evening run. *)
Lemma lifecycle_invariant_witness :
  exists h,
    steps runtime (config JELLYFIN) idle evening = Some h /\
    well_formed h.
Proof.
  eexists. split; [vm_compute; reflexivity|].
  apply (lifecycle_invariant runtime (config JELLYFIN) evening).
  vm_compute. reflexivity.
Defined.

(** X16: along any run the dispatcher receives exactly one payload per call of
    stop and one per poll that settles, and nothing at a call of start or
    a timer tick; and every poll begun by start or a tick is either
    settled or still in flight. *)
Theorem sink_counts_stops_and_polls
  (rt : Runtime) (settings : Settings) (es : list event) (h h' : Host) :
  steps rt settings h es = Some h' ->
  List.length (sink h')
  = (List.length (sink h) + count dispatches es)%nat /\
  (in_flight h' + count settles_poll es
   = in_flight h + count begins_poll es)%nat.
Proof.
  revert h. induction es as [| e es IH]; intros h H; cbn [steps] in H.
  - injection H as <-. unfold count. cbn. lia.
  - destruct (step rt settings h e) as [h1|] eqn:E; [|discriminate].
    destruct (IH h1 H) as [L F]. rewrite L. clear IH H L.
    assert (S1 : List.length (sink h1)
                 = (List.length (sink h) + (if dispatches e then 1 else 0))%nat
                 /\ (in_flight h1 + (if settles_poll e then 1 else 0)
                     = in_flight h + (if begins_poll e then 1 else 0))%nat).
    { destruct e; cbn [step] in E;
        cbn [dispatches begins_poll settles_poll].
      - injection E as <-. cbn. lia.
      - injection E as <-. unfold stop.
        destruct (interval h); cbn; rewrite length_app; cbn; lia.
      - destruct (existsb (Pos.eqb id) (timers h)); [|discriminate].
        injection E as <-. cbn. lia.
      - destruct (in_flight h) eqn:Fl; [discriminate|].
        injection E as <-. cbn [sink in_flight].
        rewrite length_app, poll_dispatches_one. lia. }
    destruct S1 as [S1 S2]. unfold count in *. cbn [filter].
    destruct (dispatches e), (settles_poll e), (begins_poll e);
      cbn [List.length]; lia.
Qed.

(** The evening run. *)
Lemma sink_counts_stops_and_polls_witness :
  exists h,
    steps runtime (config JELLYFIN) idle evening = Some h /\
    List.length (sink h) = 3%nat /\ in_flight h = 0%nat.
Proof.
  eexists. split; [vm_compute; reflexivity|].
  match goal with
  | |- List.length (sink ?h) = _ /\ _ =>
      destruct (sink_counts_stops_and_polls
                  runtime (config JELLYFIN) evening idle h
                  ltac:(vm_compute; reflexivity)) as [L F]
  end.
  split; [rewrite L; reflexivity | reflexivity].
Defined.

(** X17: a start followed, after any number of timer ticks and settled polls,
    by a stop removes the timer that start created: the running timers are
    those from before the start, and the interval field is unset. *)
Theorem start_then_stop_leaves_no_timer
  (rt : Runtime) (settings : Settings) (h h1 : Host) (es : list event) :
  well_formed h -> forallb by_host es = true ->
  steps rt settings (start h) es = Some h1 ->
  timers (stop h1) = timers h /\ interval (stop h1) = None.
Proof.
  intros (Lt & _ & _) B H.
  assert (K : timers h1 = timers (start h) /\ interval h1 = interval (start h)).
  { revert H B. generalize (start h) as h0. revert h1.
    induction es as [| e es IH]; intros h1 h0 H B; cbn [steps] in H.
    - injection H as <-. split; reflexivity.
    - cbn [forallb] in B. apply andb_true_iff in B. destruct B as [Be Bes].
      destruct (step rt settings h0 e) as [h2|] eqn:E; [|discriminate].
      destruct (host_step_keeps_timers rt settings h0 h2 e Be E) as (T & I & _).
      destruct (IH h1 h2 H Bes) as [T' I']. split; congruence. }
  destruct K as [T I]. unfold stop. rewrite I.
  cbn [start interval updatePresence_begins timers clearInterval
         clearPresence_now next_timer].
  rewrite T. cbn [start timers updatePresence_begins next_timer filter].
  rewrite Pos.eqb_refl. cbn [negb]. split; [|reflexivity].
  apply forallb_filter_id. apply forallb_forall. intros t Hin.
  specialize (Lt t Hin). apply negb_true_iff, Pos.eqb_neq. lia.
Qed.

(** Start, a settled poll and a tick, then stop. *)
Lemma start_then_stop_leaves_no_timer_witness :
  exists h1,
    steps runtime (config JELLYFIN) (start idle)
      [PollSettles watching; TimerFires 1%positive] = Some h1 /\
    timers (stop h1) = [] /\ interval (stop h1) = None.
Proof.
  eexists. split; [vm_compute; reflexivity|].
  apply (start_then_stop_leaves_no_timer
           runtime (config JELLYFIN) idle _
           [PollSettles watching; TimerFires 1%positive]).
  - repeat split; cbn; try contradiction; [constructor | discriminate].
  - reflexivity.
  - vm_compute. reflexivity.
Defined.

(** X18: start does not cancel a timer it created before.  After two calls of
    start the first timer is no longer held by the interval field, so a
    stop, or any number of them, leaves it running, and its ticks keep
    calling [updatePresence]. *)
Theorem second_start_leaks_a_timer
  (rt : Runtime) (settings : Settings) (h : Host) :
  let leaked := next_timer h in
  let h2 := stop (start (start h)) in
  interval h2 = None /\
  In leaked (timers h2) /\
  In leaked (timers (stop h2)) /\
  step rt settings h2 (TimerFires leaked)
  = Some (updatePresence_begins h2).
Proof.
  intros leaked h2.
  assert (N : Pos.eqb (next_timer h) (Pos.succ (next_timer h)) = false).
  { apply Pos.eqb_neq. lia. }
  assert (T : In leaked (timers h2)).
  { subst h2 leaked. unfold stop, start, updatePresence_begins.
    cbn [interval timers next_timer clearInterval clearPresence_now filter].
    rewrite Pos.eqb_refl, N. cbn [negb]. now left. }
  split; [reflexivity|]. split; [exact T|]. split.
  - exact T.
  - cbn [step].
    assert (E : existsb (Pos.eqb leaked) (timers h2) = true).
    { apply existsb_exists. exists leaked. split; [exact T | apply Pos.eqb_refl]. }
    now rewrite E.
Qed.

